(** * solarflow-bt-manager: a shallow embedding of [src/main.py]

    The program bridges the JSON-over-GATT protocol of a Zendure hub to
    MQTT.  This development embeds the protocol layer of [main.py]:

    - the Python values the program manipulates (strings as sequences of
      code points, the objects built by [json.loads]);
    - [bytes.decode("utf8")], [json.loads] and [json.dumps], as far as the
      program relies on them;
    - the notification callback [handle_rx];
    - [discover_device], [getInfo], [set_IoT_Url] and [run], as programs in
      a state-and-exception monad that records every externally visible
      action (BLE operation, MQTT publish, log record, sleep) in a trace.

    Everything the program obtains from its surroundings (outcome of BLE
    operations, the clock, the MQTT client's own validation, the Python
    float type) is a parameter of the model. *)

From Stdlib Require Import ZArith NArith List String Ascii Bool Lia.
From Stdlib Require Import Decimal DecimalZ.
Import ListNotations.

Set Warnings "-register-all".


(* ===================================================================== *)
(** * Python strings and bytes *)
(* ===================================================================== *)

(** A Python [str] is a sequence of Unicode code points. *)
Definition pystr := list N.

(** A [bytearray] / [bytes] object. *)
Definition pybytes := list Byte.byte.


Definition lit (s : string) : pystr := map N_of_ascii (list_ascii_of_string s).

Fixpoint pystr_eqb (a b : pystr) : bool :=
  match a, b with
  | [], [] => true
  | x :: a', y :: b' => N.eqb x y && pystr_eqb a' b'
  | _, _ => false
  end.

(** [s.startswith(p)] *)
Fixpoint startswith (s p : pystr) {struct p} : bool :=
  match p, s with
  | [], _ => true
  | y :: p', x :: s' => N.eqb x y && startswith s' p'
  | _ :: _, [] => false
  end.

(** [p in s] for two strings: substring test. *)
Fixpoint substring_in (p s : pystr) : bool :=
  startswith s p ||
  match s with
  | [] => false
  | _ :: s' => substring_in p s'
  end.

(** [s.lower()].  Only the ASCII letters are mapped; the case mapping of
    the other code points (a table of the Unicode database) is outside the
    model.  No code point outside ASCII lowers to one of the letters of the
    name prefixes used by the program. *)
Definition lower_cp (c : N) : N :=
  if (N.leb 65 c && N.leb c 90)%bool then (c + 32)%N else c.

Definition lower (s : pystr) : pystr := map lower_cp s.

(** Truth value of a [str]: non-empty. *)
Definition str_truthy (s : pystr) : bool :=
  match s with [] => false | _ => true end.

(** Truth value of an optional [str] ([None] or a string). *)
Definition opt_str_truthy (o : option pystr) : bool :=
  match o with Some s => str_truthy s | None => false end.

(* --------------------------------------------------------------------- *)
(** ** Decimal text of integers: [str(n)] and [int(text)] *)

Fixpoint digits_of_uint (d : Decimal.uint) : pystr :=
  match d with
  | Decimal.Nil => []
  | Decimal.D0 d => 48%N :: digits_of_uint d
  | Decimal.D1 d => 49%N :: digits_of_uint d
  | Decimal.D2 d => 50%N :: digits_of_uint d
  | Decimal.D3 d => 51%N :: digits_of_uint d
  | Decimal.D4 d => 52%N :: digits_of_uint d
  | Decimal.D5 d => 53%N :: digits_of_uint d
  | Decimal.D6 d => 54%N :: digits_of_uint d
  | Decimal.D7 d => 55%N :: digits_of_uint d
  | Decimal.D8 d => 56%N :: digits_of_uint d
  | Decimal.D9 d => 57%N :: digits_of_uint d
  end.

(** [str(z)] for a Python [int]. *)
Definition str_of_Z (z : Z) : pystr :=
  match Z.to_int z with
  | Decimal.Pos d => digits_of_uint d
  | Decimal.Neg d => 45%N :: digits_of_uint d
  end.

Definition is_digit (c : N) : bool := (N.leb 48 c && N.leb c 57)%bool.

Definition digit_cons (c : N) (d : Decimal.uint) : Decimal.uint :=
  match c with
  | 48 => Decimal.D0 d | 49 => Decimal.D1 d | 50 => Decimal.D2 d
  | 51 => Decimal.D3 d | 52 => Decimal.D4 d | 53 => Decimal.D5 d
  | 54 => Decimal.D6 d | 55 => Decimal.D7 d | 56 => Decimal.D8 d
  | _ => Decimal.D9 d
  end%N.

(** The digits of a text made of ASCII digits. *)
Fixpoint uint_of_digits (s : pystr) : Decimal.uint :=
  match s with
  | [] => Decimal.Nil
  | c :: s' => digit_cons c (uint_of_digits s')
  end.

(** The longest prefix of ASCII digits, and what follows it. *)
Fixpoint span_digits (s : pystr) : pystr * pystr :=
  match s with
  | c :: s' =>
      if is_digit c then
        let (ds, r) := span_digits s' in (c :: ds, r)
      else ([], s)
  | [] => ([], [])
  end.

(* --------------------------------------------------------------------- *)
(** ** [bytearray.extend(map(ord, s))] and [bytes.decode("utf8")] *)

(** Python exceptions the program can meet.  [CancelledError] stands for
    the [BaseException]s that are not [Exception]s (task cancellation,
    keyboard interrupt): no [except Exception] clause catches them. *)
Inductive exn : Type :=
| JSONDecodeError
| UnicodeDecodeError
| TypeError
| KeyError
| AttributeError
| ValueError
| TransportError      (* BleakError, OSError, ... raised by an I/O call *)
| CancelledError
| SystemExit.

Definition is_Exception (e : exn) : bool :=
  match e with CancelledError | SystemExit => false | _ => true end.

(** Outcome of running a piece of Python code: it returns, it raises, or
    (for the [while True] loop only) it is still running when the
    observation ends. *)
Inductive result (A : Type) : Type :=
| Ret (a : A)
| Raise (e : exn)
| Running.
Arguments Ret {A} a.
Arguments Raise {A} e.
Arguments Running {A}.

(** [b.extend(map(ord, s))]: every code point must fit in a byte,
    otherwise [ValueError]. *)
Fixpoint bytes_of_ords (s : pystr) : result pybytes :=
  match s with
  | [] => Ret []
  | c :: s' =>
      match Byte.of_N c with
      | None => Raise ValueError
      | Some b =>
          match bytes_of_ords s' with
          | Ret bs => Ret (b :: bs)
          | other => other
          end
      end
  end.

Definition is_cont (b : N) : bool := (N.leb 128 b && N.leb b 191)%bool.

Definition in_range (lo hi b : N) : bool := (N.leb lo b && N.leb b hi)%bool.

(** Strict UTF-8 decoding on byte values; [None] is [UnicodeDecodeError].
    Overlong forms, surrogates and values above U+10FFFF are rejected, as
    by CPython's decoder. *)
Fixpoint utf8_decode_N (bs : list N) : option pystr :=
  match bs with
  | [] => Some []
  | b0 :: r0 =>
      if N.ltb b0 128 then option_map (cons b0) (utf8_decode_N r0)
      else if in_range 194 223 b0 then
        match r0 with
        | b1 :: r1 =>
            if is_cont b1 then
              option_map (cons ((b0 - 192) * 64 + (b1 - 128))%N)
                         (utf8_decode_N r1)
            else None
        | [] => None
        end
      else if in_range 224 239 b0 then
        match r0 with
        | b1 :: b2 :: r2 =>
            if (in_range (if N.eqb b0 224 then 160 else 128)
                         (if N.eqb b0 237 then 159 else 191) b1
                && is_cont b2)%bool then
              option_map
                (cons ((b0 - 224) * 4096 + (b1 - 128) * 64 + (b2 - 128))%N)
                (utf8_decode_N r2)
            else None
        | _ => None
        end
      else if in_range 240 244 b0 then
        match r0 with
        | b1 :: b2 :: b3 :: r3 =>
            if (in_range (if N.eqb b0 240 then 144 else 128)
                         (if N.eqb b0 244 then 143 else 191) b1
                && is_cont b2 && is_cont b3)%bool then
              option_map
                (cons ((b0 - 240) * 262144 + (b1 - 128) * 4096
                       + (b2 - 128) * 64 + (b3 - 128))%N)
                (utf8_decode_N r3)
            else None
        | _ => None
        end
      else None
  end.

(** [data.decode("utf8")] *)
Definition decode_utf8 (data : pybytes) : result pystr :=
  match utf8_decode_N (map Byte.to_N data) with
  | Some s => Ret s
  | None => Raise UnicodeDecodeError
  end.

(** The bytes of an ASCII literal. *)
Definition bytes_lit (s : string) : pybytes :=
  map byte_of_ascii (list_ascii_of_string s).

(* ===================================================================== *)
(** * The objects built by [json.loads] *)
(* ===================================================================== *)

(** A Python [float].  The finite values are an abstract type [fin]; the
    three special values are the ones [json] reads and writes as [NaN],
    [Infinity] and [-Infinity]. *)
Inductive pyfloat (fin : Type) : Type :=
| FNaN
| FInf
| FNegInf
| FFin (x : fin).
Arguments FNaN {fin}.
Arguments FInf {fin}.
Arguments FNegInf {fin}.
Arguments FFin {fin} x.

(** The value of a JSON document as a Python object: [None], [bool],
    [int], [float], [str], [list], and [dict] with [str] keys.  A [dict]
    keeps its keys in insertion order, without duplicates. *)
Inductive json (fin : Type) : Type :=
| JNull
| JBool (b : bool)
| JInt (z : Z)
| JFloat (f : pyfloat fin)
| JStr (s : pystr)
| JArr (l : list (json fin))
| JObj (kvs : list (pystr * json fin)).
Arguments JNull {fin}.
Arguments JBool {fin} b.
Arguments JInt {fin} z.
Arguments JFloat {fin} f.
Arguments JStr {fin} s.
Arguments JArr {fin} l.
Arguments JObj {fin} kvs.

(** Result of a scanning function: a value and the unread text, a syntax
    error ([JSONDecodeError]), or not enough fuel. *)
Inductive pres (A : Type) : Type :=
| POk (a : A) (rest : pystr)
| PErr
| PFuel.
Arguments POk {A} a rest.
Arguments PErr {A}.
Arguments PFuel {A}.

(** [sep.join(parts)] *)
Fixpoint join (sep : pystr) (parts : list pystr) : pystr :=
  match parts with
  | [] => []
  | [p] => p
  | p :: ps => p ++ sep ++ join sep ps
  end.

(* --------------------------------------------------------------------- *)
(** ** Hexadecimal escapes *)

Definition hex_digit (n : N) : N :=
  if N.ltb n 10 then (48 + n)%N else (87 + n)%N.

(** ['{:04x}'.format(n)] for [n < 65536] *)
Definition hex4 (n : N) : pystr :=
  [ hex_digit (N.modulo (N.div n 4096) 16); hex_digit (N.modulo (N.div n 256) 16);
    hex_digit (N.modulo (N.div n 16) 16); hex_digit (N.modulo n 16) ].

Definition hex_val (c : N) : option N :=
  if in_range 48 57 c then Some (c - 48)%N
  else if in_range 97 102 c then Some (c - 87)%N
  else if in_range 65 70 c then Some (c - 55)%N
  else None.

Definition hex4_val (a b c d : N) : option N :=
  match hex_val a, hex_val b, hex_val c, hex_val d with
  | Some x, Some y, Some z, Some w =>
      Some (x * 4096 + y * 256 + z * 16 + w)%N
  | _, _, _, _ => None
  end.

Definition is_high_surrogate (c : N) : bool := in_range 55296 56319 c.
Definition is_low_surrogate (c : N) : bool := in_range 56320 57343 c.

Definition join_surrogates (hi lo : N) : N :=
  (65536 + ((hi - 55296) * 1024 + (lo - 56320)))%N.

(* --------------------------------------------------------------------- *)
(** ** [json.dumps] with its default options *)

(** One character of [encode_basestring_ascii]. *)
Definition escape_cp (c : N) : pystr :=
  if N.eqb c 34 then [92; 34]%N
  else if N.eqb c 92 then [92; 92]%N
  else if N.eqb c 10 then [92; 110]%N
  else if N.eqb c 13 then [92; 114]%N
  else if N.eqb c 9 then [92; 116]%N
  else if N.eqb c 8 then [92; 98]%N
  else if N.eqb c 12 then [92; 102]%N
  else if in_range 32 126 c then [c]
  else if N.ltb c 65536 then 92%N :: 117%N :: hex4 c
  else
    let n := (c - 65536)%N in
    (92 :: 117 :: hex4 (55296 + N.modulo (N.div n 1024) 1024))%N
    ++ (92 :: 117 :: hex4 (56320 + N.modulo n 1024))%N.

Definition encode_basestring_ascii (s : pystr) : pystr :=
  34%N :: flat_map escape_cp s ++ [34%N].

(** One escape character after a backslash, other than [u]. *)
Definition unescape (e : N) : option N :=
  if N.eqb e 34 then Some 34%N
  else if N.eqb e 92 then Some 92%N
  else if N.eqb e 47 then Some 47%N
  else if N.eqb e 98 then Some 8%N
  else if N.eqb e 102 then Some 12%N
  else if N.eqb e 110 then Some 10%N
  else if N.eqb e 114 then Some 13%N
  else if N.eqb e 116 then Some 9%N
  else None.

Definition push (c : N) (r : option (pystr * pystr)) : option (pystr * pystr) :=
  match r with
  | Some (s, rest) => Some (c :: s, rest)
  | None => None
  end.

(** [scanstring]: the text after an opening quote, up to the closing one.
    Strict mode: a raw control character is an error.  A [\u] escape of a
    high surrogate directly followed by a [\u] escape of a low surrogate
    is one code point. *)
Fixpoint scanstring (s : pystr) : option (pystr * pystr) :=
  match s with
  | [] => None
  | c :: r =>
      if N.eqb c 34 then Some ([], r)
      else if N.eqb c 92 then
        match r with
        | [] => None
        | e :: r1 =>
            if N.eqb e 117 then
              match r1 with
              | h1 :: h2 :: h3 :: h4 :: r2 =>
                  match hex4_val h1 h2 h3 h4 with
                  | None => None
                  | Some uni =>
                      if is_high_surrogate uni then
                        match r2 with
                        | b :: u :: l1 :: l2 :: l3 :: l4 :: r3 =>
                            if (N.eqb b 92 && N.eqb u 117)%bool then
                              match hex4_val l1 l2 l3 l4 with
                              | None => None
                              | Some uni2 =>
                                  if is_low_surrogate uni2
                                  then push (join_surrogates uni uni2)
                                            (scanstring r3)
                                  else push uni (scanstring r2)
                              end
                            else push uni (scanstring r2)
                        | _ => push uni (scanstring r2)
                        end
                      else push uni (scanstring r2)
                  end
              | _ => None
              end
            else
              match unescape e with
              | Some x => push x (scanstring r1)
              | None => None
              end
        end
      else if N.ltb c 32 then None
      else push c (scanstring r)
  end.

Definition is_ws (c : N) : bool :=
  (N.eqb c 32 || N.eqb c 9 || N.eqb c 10 || N.eqb c 13)%bool.

Fixpoint skip_ws (s : pystr) : pystr :=
  match s with
  | c :: r => if is_ws c then skip_ws r else s
  | [] => []
  end.

(** [dict[k] = v]: an existing key keeps its place. *)
Fixpoint dict_set {V : Type} (d : list (pystr * V)) (k : pystr) (v : V)
  : list (pystr * V) :=
  match d with
  | [] => [(k, v)]
  | (k', v') :: d' =>
      if pystr_eqb k' k then (k', v) :: d' else (k', v') :: dict_set d' k v
  end.

(** [dict(pairs)] *)
Definition dict_of_pairs {V : Type} (ps : list (pystr * V))
  : list (pystr * V) :=
  fold_left (fun d kv => dict_set d (fst kv) (snd kv)) ps [].

(** The integer part of a number, after the optional sign: [0], or a
    non-zero digit followed by digits. *)
Definition match_int (s : pystr) : option (pystr * pystr) :=
  match s with
  | c :: r =>
      if N.eqb c 48 then Some ([c], r)
      else if is_digit c then
        let (ds, r') := span_digits r in Some (c :: ds, r')
      else None
  | [] => None
  end.

(** The optional fraction: a dot followed by at least one digit. *)
Definition match_frac (s : pystr) : pystr * pystr :=
  match s with
  | c :: r =>
      if N.eqb c 46 then
        match span_digits r with
        | ([], _) => ([], s)
        | (ds, r') => (c :: ds, r')
        end
      else ([], s)
  | [] => ([], s)
  end.

(** The optional exponent: [e] or [E], an optional sign, at least one
    digit. *)
Definition match_exp (s : pystr) : pystr * pystr :=
  match s with
  | c :: r =>
      if (N.eqb c 101 || N.eqb c 69)%bool then
        match r with
        | sg :: r1 =>
            if (N.eqb sg 45 || N.eqb sg 43)%bool then
              match span_digits r1 with
              | ([], _) => ([], s)
              | (ds, r') => (c :: sg :: ds, r')
              end
            else
              match span_digits r with
              | ([], _) => ([], s)
              | (ds, r') => (c :: ds, r')
              end
        | [] => ([], s)
        end
      else ([], s)
  | [] => ([], s)
  end.

Section Json.

Variable fin : Type.

(** [float(text)] on the text of a JSON number with a fraction or an
    exponent, and [float.__repr__] on a finite float. *)
Variable float_of_literal : pystr -> pyfloat fin.
Variable float_repr : fin -> pystr.

Definition float_dumps (f : pyfloat fin) : pystr :=
  match f with
  | FNaN => lit "NaN"
  | FInf => lit "Infinity"
  | FNegInf => lit "-Infinity"
  | FFin x => float_repr x
  end.

Fixpoint json_dumps (v : json fin) : pystr :=
  match v with
  | JNull => lit "null"
  | JBool true => lit "true"
  | JBool false => lit "false"
  | JInt z => str_of_Z z
  | JFloat f => float_dumps f
  | JStr s => encode_basestring_ascii s
  | JArr l => 91%N :: join (lit ", ") (map json_dumps l) ++ [93%N]
  | JObj kvs =>
      123%N ::
      join (lit ", ")
           (map (fun kv => encode_basestring_ascii (fst kv) ++ lit ": "
                           ++ json_dumps (snd kv)) kvs)
      ++ [125%N]
  end.

(** [match_number]: an [int] when the text has neither fraction nor
    exponent, a [float] otherwise. *)
Definition match_number (s : pystr) : option (json fin * pystr) :=
  let (sign, s1) :=
    match s with
    | c :: r => if N.eqb c 45 then ([c], r) else ([], s)
    | [] => ([], s)
    end in
  match match_int s1 with
  | None => None
  | Some (ds, r) =>
      let (fr, r1) := match_frac r in
      let (ex, r2) := match_exp r1 in
      match fr, ex with
      | [], [] =>
          Some (JInt (Z.of_int (match sign with
                                | [] => Decimal.Pos (uint_of_digits ds)
                                | _ => Decimal.Neg (uint_of_digits ds)
                                end)), r2)
      | _, _ => Some (JFloat (float_of_literal (sign ++ ds ++ fr ++ ex)), r2)
      end
  end.

(** [scan_once], [JSONObject] and [JSONArray] of [json.decoder]. *)
Fixpoint scan_once (fuel : nat) (s : pystr) {struct fuel} : pres (json fin) :=
  match fuel with
  | O => PFuel
  | S n =>
      match s with
      | [] => PErr
      | c :: r =>
          if N.eqb c 34 then
            match scanstring r with
            | Some (str, r') => POk (JStr str) r'
            | None => PErr
            end
          else if N.eqb c 123 then
            match skip_ws r with
            | c1 :: r1 =>
                if N.eqb c1 125 then POk (JObj []) r1
                else
                  match JSONObject n (skip_ws r) with
                  | POk ps r' => POk (JObj (dict_of_pairs ps)) r'
                  | PErr => PErr
                  | PFuel => PFuel
                  end
            | [] => PErr
            end
          else if N.eqb c 91 then
            match skip_ws r with
            | c1 :: r1 =>
                if N.eqb c1 93 then POk (JArr []) r1
                else
                  match JSONArray n (skip_ws r) with
                  | POk vs r' => POk (JArr vs) r'
                  | PErr => PErr
                  | PFuel => PFuel
                  end
            | [] => PErr
            end
          else if startswith s (lit "null") then POk JNull (skipn 4 s)
          else if startswith s (lit "true") then POk (JBool true) (skipn 4 s)
          else if startswith s (lit "false") then POk (JBool false) (skipn 5 s)
          else
            match match_number s with
            | Some (v, r') => POk v r'
            | None =>
                if startswith s (lit "NaN") then POk (JFloat FNaN) (skipn 3 s)
                else if startswith s (lit "Infinity")
                then POk (JFloat FInf) (skipn 8 s)
                else if startswith s (lit "-Infinity")
                then POk (JFloat FNegInf) (skipn 9 s)
                else PErr
            end
      end
  end

(** The members of an object, from the opening quote of a key. *)
with JSONObject (fuel : nat) (s : pystr) {struct fuel}
  : pres (list (pystr * json fin)) :=
  match fuel with
  | O => PFuel
  | S n =>
      match s with
      | q :: r =>
          if N.eqb q 34 then
            match scanstring r with
            | None => PErr
            | Some (key, r1) =>
                match skip_ws r1 with
                | col :: r2 =>
                    if N.eqb col 58 then
                      match scan_once n (skip_ws r2) with
                      | POk v r3 =>
                          match skip_ws r3 with
                          | d :: r4 =>
                              if N.eqb d 125 then POk [(key, v)] r4
                              else if N.eqb d 44 then
                                match JSONObject n (skip_ws r4) with
                                | POk ps r5 => POk ((key, v) :: ps) r5
                                | PErr => PErr
                                | PFuel => PFuel
                                end
                              else PErr
                          | [] => PErr
                          end
                      | PErr => PErr
                      | PFuel => PFuel
                      end
                    else PErr
                | [] => PErr
                end
            end
          else PErr
      | [] => PErr
      end
  end

(** The items of an array, from the start of an item. *)
with JSONArray (fuel : nat) (s : pystr) {struct fuel}
  : pres (list (json fin)) :=
  match fuel with
  | O => PFuel
  | S n =>
      match scan_once n s with
      | POk v r =>
          match skip_ws r with
          | d :: r1 =>
              if N.eqb d 93 then POk [v] r1
              else if N.eqb d 44 then
                match JSONArray n (skip_ws r1) with
                | POk vs r2 => POk (v :: vs) r2
                | PErr => PErr
                | PFuel => PFuel
                end
              else PErr
          | [] => PErr
          end
      | PErr => PErr
      | PFuel => PFuel
      end
  end.

(** Fuel that [scan_once] never exhausts on a text of this length. *)
Definition loads_fuel (s : pystr) : nat := 2 * List.length s + 2.

(** [json.loads(s)] for a [str]: no byte order mark, one value between
    optional white space, nothing after it. *)
Definition json_loads (s : pystr) : result (json fin) :=
  if startswith s [65279%N] then Raise JSONDecodeError
  else
    match scan_once (loads_fuel s) (skip_ws s) with
    | POk v r =>
        match skip_ws r with
        | [] => Ret v
        | _ :: _ => Raise JSONDecodeError
        end
    | PErr => Raise JSONDecodeError
    | PFuel => Running
    end.

End Json.

Arguments float_dumps {fin} float_repr f.
Arguments json_dumps {fin} float_repr v.
Arguments match_number {fin} float_of_literal s.
Arguments scan_once {fin} float_of_literal fuel s.
Arguments JSONObject {fin} float_of_literal fuel s.
Arguments JSONArray {fin} float_of_literal fuel s.
Arguments json_loads {fin} float_of_literal s.

(* ===================================================================== *)
(** * Operations of the Python object model used by the program *)
(* ===================================================================== *)

Section Objects.

Variable fin : Type.
Variable float_repr : fin -> pystr.

(** [str(v)] of a list or a dict (their [repr]) is not modelled. *)
Variable container_str : json fin -> pystr.

Definition dict_get {V : Type} (d : list (pystr * V)) (k : pystr)
  : option V :=
  option_map snd (find (fun kv => pystr_eqb (fst kv) k) d).

Definition dict_remove {V : Type} (d : list (pystr * V)) (k : pystr)
  : list (pystr * V) :=
  filter (fun kv => negb (pystr_eqb (fst kv) k)) d.

Definition is_str (v : json fin) (s : pystr) : bool :=
  match v with JStr x => pystr_eqb x s | _ => false end.

(** [k in v] for a [str] [k]: key of a dict, element of a list,
    substring of a string; [TypeError] on anything else. *)
Definition py_contains (k : pystr) (v : json fin) : result bool :=
  match v with
  | JObj kvs => Ret (existsb (fun kv => pystr_eqb (fst kv) k) kvs)
  | JArr l => Ret (existsb (fun x => is_str x k) l)
  | JStr s => Ret (substring_in k s)
  | _ => Raise TypeError
  end.

(** [v[k]] for a [str] [k]. *)
Definition py_getitem (v : json fin) (k : pystr) : result (json fin) :=
  match v with
  | JObj kvs =>
      match dict_get kvs k with
      | Some x => Ret x
      | None => Raise KeyError
      end
  | _ => Raise TypeError
  end.

(** [len(v)] *)
Definition py_len (v : json fin) : result nat :=
  match v with
  | JObj kvs => Ret (List.length kvs)
  | JArr l => Ret (List.length l)
  | JStr s => Ret (List.length s)
  | _ => Raise TypeError
  end.

(** [v.items()] *)
Definition py_items (v : json fin) : result (list (pystr * json fin)) :=
  match v with
  | JObj kvs => Ret kvs
  | _ => Raise AttributeError
  end.

(** The elements [for x in v] goes through. *)
Definition py_iter (v : json fin) : result (list (json fin)) :=
  match v with
  | JArr l => Ret l
  | JObj kvs => Ret (map (fun kv => JStr (fst kv)) kvs)
  | JStr s => Ret (map (fun c => JStr [c]) s)
  | _ => Raise TypeError
  end.

(** [v.pop(k)] for a [str] [k]: the value removed and the object left. *)
Definition py_pop (v : json fin) (k : pystr)
  : result (json fin * json fin) :=
  match v with
  | JObj kvs =>
      match dict_get kvs k with
      | Some x => Ret (x, JObj (dict_remove kvs k))
      | None => Raise KeyError
      end
  | JArr _ => Raise TypeError
  | _ => Raise AttributeError
  end.

(** [isinstance(v, (int, float))]; [bool] is a subclass of [int]. *)
Definition is_number (v : json fin) : bool :=
  match v with
  | JInt _ | JFloat _ | JBool _ => true
  | _ => false
  end.

(** [str(v)], as an f-string formats a value. *)
Definition py_str (v : json fin) : pystr :=
  match v with
  | JNull => lit "None"
  | JBool true => lit "True"
  | JBool false => lit "False"
  | JInt z => str_of_Z z
  | JFloat FNaN => lit "nan"
  | JFloat FInf => lit "inf"
  | JFloat FNegInf => lit "-inf"
  | JFloat (FFin x) => float_repr x
  | JStr s => s
  | JArr _ | JObj _ => container_str v
  end.

(** An optional string in an f-string: [None] prints as ["None"]. *)
Definition opt_str (o : option pystr) : pystr :=
  match o with Some s => s | None => lit "None" end.

(** An optional string as a JSON value. *)
Definition opt_json (o : option pystr) : json fin :=
  match o with Some s => JStr s | None => JNull end.

End Objects.

Arguments py_contains {fin} k v.
Arguments py_getitem {fin} v k.
Arguments py_len {fin} v.
Arguments py_items {fin} v.
Arguments py_iter {fin} v.
Arguments py_pop {fin} v k.
Arguments is_number {fin} v.
Arguments is_str {fin} v s.
Arguments py_str {fin} float_repr container_str v.
Arguments opt_json {fin} o.

(* ===================================================================== *)
(** * The world the program acts on *)
(* ===================================================================== *)

(** An advertising peripheral ([BLEDevice]): its name may be missing. *)
Record device : Type := {
  name : option pystr;
  address : pystr
}.

Inductive level : Type := DEBUG | INFO | SUCCESS | WARNING | ERROR.

(** The awaited operations on the BLE stack and the event loop. *)
Inductive io_op : Type :=
| Discover (timeout : Z)
| FindDeviceByFilter (timeout : Z)
| BleConnect (d : device)
| BleDisconnect
| StartNotify
| StopNotify
| WriteGatt (data : pybytes)
| Sleep (seconds : Z).

(** The command line as [getopt] hands it to [main], one entry per
    option.  [-b HOST:PORT] is given after [arg.split(':')] and [int]
    (port 1883 when the argument has none).  [OptOther] stands for the
    options that touch none of the mode variables: user, password, scan
    timeout, log level, debug. *)
Inductive cli_opt : Type :=
| OptHelp
| OptInfo
| OptDisconnect
| OptConnect
| OptWifi (arg : pystr)
| OptBroker (host : pystr) (port : Z)
| OptOther.

(** The mode variables of [main]. *)
Record flags : Type := {
  cli_ssid : option pystr;
  cli_broker : option pystr;
  cli_port : option Z;
  cli_connect : bool;
  cli_disconnect : bool;
  cli_info_only : bool
}.

Definition initial_flags : flags :=
  {| cli_ssid := None; cli_broker := None; cli_port := None;
     cli_connect := false; cli_disconnect := false; cli_info_only := false |}.

(** One turn of [for opt, arg in opts]. *)
Definition main_option (f : flags) (o : cli_opt) : flags :=
  match o with
  | OptInfo =>
      {| cli_ssid := cli_ssid f; cli_broker := cli_broker f;
         cli_port := cli_port f; cli_connect := false;
         cli_disconnect := false; cli_info_only := true |}
  | OptDisconnect =>
      {| cli_ssid := cli_ssid f; cli_broker := cli_broker f;
         cli_port := cli_port f; cli_connect := false;
         cli_disconnect := true; cli_info_only := cli_info_only f |}
  | OptConnect =>
      {| cli_ssid := cli_ssid f; cli_broker := cli_broker f;
         cli_port := cli_port f; cli_connect := true;
         cli_disconnect := false; cli_info_only := cli_info_only f |}
  | OptWifi arg =>
      {| cli_ssid := Some arg; cli_broker := cli_broker f;
         cli_port := cli_port f; cli_connect := cli_connect f;
         cli_disconnect := cli_disconnect f;
         cli_info_only := cli_info_only f |}
  | OptBroker host port =>
      {| cli_ssid := cli_ssid f; cli_broker := Some host;
         cli_port := Some port; cli_connect := cli_connect f;
         cli_disconnect := cli_disconnect f;
         cli_info_only := cli_info_only f |}
  | OptHelp | OptOther => f
  end.

Definition main_flags (opts : list cli_opt) : flags :=
  fold_left main_option opts initial_flags.

Definition is_help (o : cli_opt) : bool :=
  match o with OptHelp => true | _ => false end.

Definition is_none {A : Type} (o : option A) : bool :=
  match o with None => true | Some _ => false end.

(** Module-level configuration read from the process environment. *)
Record globals : Type := {
  WIFI_PWD : option pystr;
  SF_DEVICE_ID : option pystr;
  SF_PRODUCT_ID : pystr;
  GLOBAL_INFO_POLLING_INTERVAL : Z;
  BT_SCAN_TIMEOUT : Z
}.

(** The two exceptions [Client.publish] raises on a message it refuses:
    [ValueError] for the topic, [TypeError] for the payload. *)
Inductive pub_error : Type := BadTopic | BadPayload.

Definition exn_of_pub_error (p : pub_error) : exn :=
  match p with BadTopic => ValueError | BadPayload => TypeError end.

Section World.

Variable fin : Type.

(** The log records of the program, by the statement that writes them. *)
Inductive logmsg : Type :=
| Received (payload : json fin)
| DeviceId (v : json fin)
| DeviceSn (v : json fin)
| PropertiesReceived (n : nat)
| PropertyValue (prop : pystr) (val : json fin)
| BatteryPacks (n : nat)
| PackSN (sn : json fin)
| InvalidJson (data : pybytes)
| ErrorHandlingData (e : exn)
| RawData (data : pybytes)
| SendingGetInfo
| GetInfoFailed (e : exn)
| SendingGetAll
| GetPropertiesFailed (e : exn)
| SettingIoTUrl (cmd : pystr)
| SetUrlFailed (e : exn)
| SettingStationMode
| SetWifiModeFailed (e : exn)
| PublishingRegisterReply
| ConnectingMqtt (broker : pystr) (port : Z)
| MqttConnectionFailed
| Scanning (prefix : pystr)
| ScanTimeout (t : Z)
| FoundDevices (n : nat)
| DeviceSeen (i : nat) (d : device)
| NoDevicesAtAll
| TryingNameFilter
| NameFilterError (e : exn)
| TryingAlternative
| FoundAlternative (d : device)
| FoundDevice (d : device)
| ConnectingTo (d : device)
| Services
| SettingDisconnect
| DisconnectedFromCloud
| SettingReconnect
| ReconnectedToCloud
| InfoOnlyMode
| ContinuousMode (interval : Z)
| PollingLoopError (e : exn)
| ConnectionFailed (e : exn)
| NoDeviceFound
| Troubleshooting
| ConfigurationErrors (n : nat)
| DisconnectingHub
| SsidRequired
| ConnectingHub
| Interrupted
| UnexpectedError (e : exn).

(** What an observer of the process sees, in order. *)
Inductive event : Type :=
| Log (lv : level) (m : logmsg)
| Publish (topic : pystr) (payload : json fin) (retain : bool)
| MqttConnect (broker : pystr) (port : Z)
| Io (op : io_op) (outcome : option exn).

(** The surroundings of the program. *)
Record env : Type := {
  (** outcome of the n-th awaited operation: [None] when it succeeds *)
  io_outcome : nat -> option exn;
  (** [int(time.time())] after n awaited operations *)
  now : nat -> Z;
  (** the MQTT client refuses this message with an exception *)
  publish_rejects : pystr -> json fin -> option pub_error;
  (** [Client.connect] succeeds *)
  mqtt_reachable : bool;
  (** the advertisers collected by [BleakScanner.discover] *)
  all_advertisers : list device;
  (** the advertisements [find_device_by_filter] sees before its timeout *)
  filter_stream : list device
}.

(** Mutable state: the trace so far, the number of awaited operations,
    the global [mq_client] (set or [None]) and the local [getinfo] of
    the polling loop. *)
Record world : Type := {
  trace : list event;
  steps : nat;
  mq_client : bool;
  getinfo : bool
}.

Definition M (A : Type) : Type := world -> result A * world.

Definition ret {A : Type} (a : A) : M A := fun w => (Ret a, w).

Definition bind {A B : Type} (m : M A) (k : A -> M B) : M B :=
  fun w =>
    match m w with
    | (Ret a, w') => k a w'
    | (Raise e, w') => (Raise e, w')
    | (Running, w') => (Running, w')
    end.

Definition raise {A : Type} (e : exn) : M A := fun w => (Raise e, w).

(** A pure computation that may raise. *)
Definition liftR {A : Type} (r : result A) : M A := fun w => (r, w).

(** [try: body  except Exception as e: handler(e)] *)
Definition try_except {A : Type} (body : M A) (handler : exn -> M A) : M A :=
  fun w =>
    match body w with
    | (Raise e, w') =>
        if is_Exception e then handler e w' else (Raise e, w')
    | other => other
    end.

(** [try: body  finally: cleanup], as the exit of a [with] block: the
    cleanup runs when the body returns or raises. *)
Definition finally {A : Type} (body : M A) (cleanup : M unit) : M A :=
  fun w =>
    match body w with
    | (Ret a, w') =>
        match cleanup w' with
        | (Ret _, w'') => (Ret a, w'')
        | (Raise e, w'') => (Raise e, w'')
        | (Running, w'') => (Running, w'')
        end
    | (Raise e, w') =>
        match cleanup w' with
        | (Ret _, w'') => (Raise e, w'')
        | (Raise e', w'') => (Raise e', w'')
        | (Running, w'') => (Running, w'')
        end
    | (Running, w') => (Running, w')
    end.

Definition emit (e : event) : M unit :=
  fun w => (Ret tt, {| trace := trace w ++ [e]; steps := steps w;
                       mq_client := mq_client w; getinfo := getinfo w |}).

Definition log (lv : level) (m : logmsg) : M unit := emit (Log lv m).

Definition get_mq_client : M bool := fun w => (Ret (mq_client w), w).

Definition set_mq_client (b : bool) : M unit :=
  fun w => (Ret tt, {| trace := trace w; steps := steps w;
                       mq_client := b; getinfo := getinfo w |}).

Definition get_getinfo : M bool := fun w => (Ret (getinfo w), w).

Definition set_getinfo (b : bool) : M unit :=
  fun w => (Ret tt, {| trace := trace w; steps := steps w;
                       mq_client := mq_client w; getinfo := b |}).

(** [for x in xs: body(x)] *)
Fixpoint for_each {A : Type} (xs : list A) (body : A -> M unit) : M unit :=
  match xs with
  | [] => ret tt
  | x :: xs' => bind (body x) (fun _ => for_each xs' body)
  end.

Definition when (b : bool) (m : M unit) : M unit :=
  if b then m else ret tt.

Variable E : env.

(** [await op]: the operation is attempted, and succeeds or raises as
    the surroundings decide. *)
Definition await (op : io_op) : M unit :=
  fun w =>
    let r := io_outcome E (steps w) in
    let w' := {| trace := trace w ++ [Io op r]; steps := S (steps w);
                 mq_client := mq_client w; getinfo := getinfo w |} in
    match r with
    | None => (Ret tt, w')
    | Some e => (Raise e, w')
    end.

(** [await asyncio.sleep(seconds)]: only a cancellation interrupts it. *)
Definition sleep (seconds : Z) : M unit :=
  fun w =>
    let r := match io_outcome E (steps w) with
             | Some CancelledError => Some CancelledError
             | _ => None
             end in
    let w' := {| trace := trace w ++ [Io (Sleep seconds) r];
                 steps := S (steps w);
                 mq_client := mq_client w; getinfo := getinfo w |} in
    match r with
    | None => (Ret tt, w')
    | Some e => (Raise e, w')
    end.

(** [int(time.time())] *)
Definition time_time : M Z := fun w => (Ret (now E (steps w)), w).

(** [mq_client.publish(topic, payload, retain=...)]: the message is
    handed over unless the client raises. *)
Definition publish (topic : pystr) (payload : json fin) (retain : bool)
  : M unit :=
  match publish_rejects E topic payload with
  | Some p => raise (exn_of_pub_error p)
  | None => emit (Publish topic payload retain)
  end.

End World.

Arguments Received {fin}.
Arguments DeviceId {fin}.
Arguments DeviceSn {fin}.
Arguments PropertiesReceived {fin}.
Arguments PropertyValue {fin}.
Arguments BatteryPacks {fin}.
Arguments PackSN {fin}.
Arguments InvalidJson {fin}.
Arguments ErrorHandlingData {fin}.
Arguments RawData {fin}.
Arguments SendingGetInfo {fin}.
Arguments GetInfoFailed {fin}.
Arguments SendingGetAll {fin}.
Arguments GetPropertiesFailed {fin}.
Arguments SettingIoTUrl {fin}.
Arguments SetUrlFailed {fin}.
Arguments SettingStationMode {fin}.
Arguments SetWifiModeFailed {fin}.
Arguments PublishingRegisterReply {fin}.
Arguments ConnectingMqtt {fin}.
Arguments MqttConnectionFailed {fin}.
Arguments Scanning {fin}.
Arguments ScanTimeout {fin}.
Arguments FoundDevices {fin}.
Arguments DeviceSeen {fin}.
Arguments NoDevicesAtAll {fin}.
Arguments TryingNameFilter {fin}.
Arguments NameFilterError {fin}.
Arguments TryingAlternative {fin}.
Arguments FoundAlternative {fin}.
Arguments FoundDevice {fin}.
Arguments ConnectingTo {fin}.
Arguments Services {fin}.
Arguments SettingDisconnect {fin}.
Arguments DisconnectedFromCloud {fin}.
Arguments SettingReconnect {fin}.
Arguments ReconnectedToCloud {fin}.
Arguments InfoOnlyMode {fin}.
Arguments ContinuousMode {fin}.
Arguments PollingLoopError {fin}.
Arguments ConnectionFailed {fin}.
Arguments NoDeviceFound {fin}.
Arguments Troubleshooting {fin}.
Arguments ConfigurationErrors {fin}.
Arguments DisconnectingHub {fin}.
Arguments SsidRequired {fin}.
Arguments ConnectingHub {fin}.
Arguments Interrupted {fin}.
Arguments UnexpectedError {fin}.
Arguments io_outcome {fin} _.
Arguments now {fin} _.
Arguments mqtt_reachable {fin} _.
Arguments all_advertisers {fin} _.
Arguments filter_stream {fin} _.
Arguments trace {fin} _.
Arguments steps {fin} _.
Arguments mq_client {fin} _.
Arguments getinfo {fin} _.
Arguments publish_rejects {fin} _ _ _.
Arguments Log {fin} lv m.
Arguments Publish {fin} topic payload retain.
Arguments MqttConnect {fin} broker port.
Arguments Io {fin} op outcome.
Arguments ret {fin A} a.
Arguments bind {fin A B} m k.
Arguments raise {fin A} e.
Arguments liftR {fin A} r.
Arguments try_except {fin A} body handler.
Arguments finally {fin A} body cleanup.
Arguments emit {fin} e.
Arguments log {fin} lv m.
Arguments get_mq_client {fin}.
Arguments set_mq_client {fin} b.
Arguments get_getinfo {fin}.
Arguments set_getinfo {fin} b.
Arguments for_each {fin A} xs body.
Arguments when {fin} b m.
Arguments await {fin} E op.
Arguments sleep {fin} E seconds.
Arguments time_time {fin} E.
Arguments publish {fin} E topic payload retain.

Declare Scope py_scope.
Delimit Scope py_scope with py.
Notation "x <- m ;; k" := (bind m (fun x => k))
  (at level 61, m at next level, right associativity) : py_scope.
Notation "m ;; k" := (bind m (fun _ => k))
  (at level 61, right associativity) : py_scope.

(* ===================================================================== *)
(** * The program *)
(* ===================================================================== *)

(** The static table of [discover_device]: product id to advertised name
    prefix. *)
Definition product_map : list (pystr * pystr) :=
  [ (lit "73bkTV", lit "zenp");
    (lit "A8yh63", lit "zenh");
    (lit "yWF7hV", lit "zenr");
    (lit "ja72U0ha", lit "zene");
    (lit "8bM93H", lit "zenf") ].

(** [product_map.get(product_id, "zen")] *)
Definition product_class (product_id : pystr) : pystr :=
  match dict_get product_map product_id with
  | Some p => p
  | None => lit "zen"
  end.

(** The filter of both discovery methods:
    [d.name and d.name.lower().startswith(product_class)]. *)
Definition name_matches (prefix : pystr) (d : device) : bool :=
  match name d with
  | Some n => str_truthy n && startswith (lower n) prefix
  | None => false
  end.

(** A quoted word of a JSON text written out in the source. *)
Definition quoted (s : string) : pystr := 34%N :: lit s ++ [34%N].

(** The station-mode command, a string literal of [set_IoT_Url]. *)
Definition cmd2 : pystr :=
  lit "{" ++ quoted "messageId" ++ lit ":" ++ quoted "1003" ++ lit ","
  ++ quoted "method" ++ lit ":" ++ quoted "station" ++ lit "}".

(** The synthetic registration acknowledgment of [set_IoT_Url]. *)
Definition reply (t : Z) : pystr :=
  lit "{" ++ quoted "messageId" ++ lit ":123," ++ quoted "timestamp" ++ lit ":"
  ++ str_of_Z t ++ lit "," ++ quoted "params" ++ lit ":{" ++ quoted "token"
  ++ lit ":" ++ quoted "abcdefgh" ++ lit "," ++ quoted "result" ++ lit ":0}}".

Section Program.

Variable fin : Type.
Variable float_of_literal : pystr -> pyfloat fin.
Variable float_repr : fin -> pystr.
Variable container_str : json fin -> pystr.
Variable E : env fin.
Variable G : globals.

Local Open Scope py_scope.

(* ------------------------------------------------------------------- *)
(** ** [handle_rx] *)

(** The [getInfo-rsp] block: both identifiers are logged. *)
Definition log_info_response (payload : json fin) : M fin unit :=
  has_method <- liftR (py_contains (lit "method") payload) ;;
  is_info <- (if has_method
              then m <- liftR (py_getitem payload (lit "method")) ;;
                   ret (is_str m (lit "getInfo-rsp"))
              else ret false) ;;
  when is_info
    (id <- liftR (py_getitem payload (lit "deviceId")) ;;
     log SUCCESS (DeviceId id) ;;
     sn <- liftR (py_getitem payload (lit "deviceSn")) ;;
     log SUCCESS (DeviceSn sn)).

Definition property_topic (prop : pystr) : pystr :=
  lit "solarflow-hub/telemetry/" ++ prop.

Definition state_topic : pystr :=
  SF_PRODUCT_ID G ++ lit "/" ++ opt_str (SF_DEVICE_ID G) ++ lit "/state".

Definition pack_topic (sn : json fin) (prop : pystr) : pystr :=
  lit "solarflow-hub/telemetry/batteries/"
  ++ py_str float_repr container_str sn ++ lit "/" ++ prop.

(** The block under [if "properties" in payload]. *)
Definition publish_properties (payload : json fin) : M fin unit :=
  props <- liftR (py_getitem payload (lit "properties")) ;;
  n <- liftR (py_len props) ;;
  log DEBUG (PropertiesReceived n) ;;
  items <- liftR (py_items props) ;;
  for_each items
    (fun kv =>
       when (is_number (snd kv))
            (log DEBUG (PropertyValue (fst kv) (snd kv))) ;;
       publish E (property_topic (fst kv)) (snd kv) false) ;;
  props' <- liftR (py_getitem payload (lit "properties")) ;;
  publish E state_topic (JStr (json_dumps float_repr props')) false.

(** The body of [for pack in packdata].  [pack.pop('sn')] changes the
    dict in place; nothing reads the dict afterwards except the inner
    loop, which goes through what is left. *)
Definition publish_pack (pack : json fin) : M fin unit :=
  popped <- liftR (py_pop pack (lit "sn")) ;;
  log DEBUG (PackSN (fst popped)) ;;
  items <- liftR (py_items (snd popped)) ;;
  for_each items
    (fun kv => publish E (pack_topic (fst popped) (fst kv)) (snd kv) false).

(** The block under [if "packData" in payload]. *)
Definition publish_packs (payload : json fin) : M fin unit :=
  packdata <- liftR (py_getitem payload (lit "packData")) ;;
  n <- liftR (py_len packdata) ;;
  when (Nat.ltb 0 n)
    (log INFO (BatteryPacks n) ;;
     packs <- liftR (py_iter packdata) ;;
     for_each packs publish_pack).

(** What [handle_rx] does with a decoded payload. *)
Definition dispatch (payload : json fin) : M fin unit :=
  log DEBUG (Received payload) ;;
  log_info_response payload ;;
  mq <- get_mq_client ;;
  when mq
    (has_props <- liftR (py_contains (lit "properties") payload) ;;
     when has_props (publish_properties payload) ;;
     has_packs <- liftR (py_contains (lit "packData") payload) ;;
     when has_packs (publish_packs payload)).

(** The body of the [try] block of [handle_rx]. *)
Definition handle_rx_body (data : pybytes) : M fin unit :=
  text <- liftR (decode_utf8 data) ;;
  payload <- liftR (json_loads float_of_literal text) ;;
  dispatch payload.

(** [handle_rx(characteristic, data)]: the callback of every inbound
    notification.  [except json.JSONDecodeError] comes first, then
    [except Exception]. *)
Definition handle_rx (data : pybytes) : M fin unit :=
  try_except (handle_rx_body data)
    (fun e =>
       match e with
       | JSONDecodeError => log ERROR (InvalidJson data)
       | _ => log ERROR (ErrorHandlingData e) ;; log DEBUG (RawData data)
       end).

(* ------------------------------------------------------------------- *)
(** ** [getInfo] and [set_IoT_Url] *)

Definition info_cmd (t : Z) : json fin :=
  JObj [ (lit "messageId", JStr (lit "none"));
         (lit "method", JStr (lit "getInfo"));
         (lit "timestamp", JStr (str_of_Z t)) ].

Definition properties_cmd (t : Z) : json fin :=
  JObj [ (lit "method", JStr (lit "read"));
         (lit "timestamp", JStr (str_of_Z t));
         (lit "messageId", JStr (lit "none"));
         (lit "properties", JArr [JStr (lit "getAll")]) ].

(** [b = bytearray(); b.extend(map(ord, text));
    await client.write_gatt_char(SF_COMMAND_CHAR, b, response=False)] *)
Definition write_command (text : pystr) : M fin unit :=
  b <- liftR (bytes_of_ords text) ;;
  await E (WriteGatt b).

Definition getInfo : M fin unit :=
  current_time <- time_time E ;;
  try_except
    (log DEBUG SendingGetInfo ;;
     write_command (json_dumps float_repr (info_cmd current_time)))
    (fun e => log ERROR (GetInfoFailed e)) ;;
  try_except
    (log DEBUG SendingGetAll ;;
     write_command (json_dumps float_repr (properties_cmd current_time)))
    (fun e => log ERROR (GetPropertiesFailed e)).

Definition c1 (broker : pystr) (ssid : option pystr) : json fin :=
  JObj [ (lit "iotUrl", JStr broker);
         (lit "messageId", JStr (lit "1002"));
         (lit "method", JStr (lit "token"));
         (lit "password", opt_json (WIFI_PWD G));
         (lit "ssid", opt_json ssid);
         (lit "timeZone", JStr (lit "GMT+02:00"));
         (lit "token", JStr (lit "abcdefgh")) ].

Definition set_IoT_Url (broker : pystr) (port : Z) (ssid : option pystr)
           (deviceid : option pystr) : M fin unit :=
  let cmd1 := json_dumps float_repr (c1 broker ssid) in
  t <- time_time E ;;
  try_except
    (b <- liftR (bytes_of_ords cmd1) ;;
     log INFO (SettingIoTUrl cmd1) ;;
     await E (WriteGatt b))
    (fun e => log ERROR (SetUrlFailed e)) ;;
  try_except
    (b <- liftR (bytes_of_ords cmd2) ;;
     log INFO SettingStationMode ;;
     await E (WriteGatt b))
    (fun e => log ERROR (SetWifiModeFailed e)) ;;
  mq <- get_mq_client ;;
  when mq
    (log INFO PublishingRegisterReply ;;
     publish E
       (lit "iot/" ++ SF_PRODUCT_ID G ++ lit "/" ++ opt_str deviceid
        ++ lit "/register/replay")
       (JStr (reply t)) true).

(* ------------------------------------------------------------------- *)
(** ** [discover_device] *)

(** [BleakScanner.find_device_by_filter(f, timeout)]: the first
    advertisement that satisfies the filter, [None] at the timeout. *)
Definition find_device_by_filter (f : device -> bool) : M fin (option device) :=
  await E (FindDeviceByFilter (BT_SCAN_TIMEOUT G)) ;;
  ret (find f (filter_stream E)).

(** The [for ... break] of the second method, with its log record. *)
Definition find_alternative (prefix : pystr) (devs : list device)
  : M fin (option device) :=
  match find (name_matches prefix) devs with
  | Some d => log SUCCESS (FoundAlternative d) ;; ret (Some d)
  | None => ret None
  end.

(** The checks of the Bluetooth service through [subprocess] only write
    log records of level debug and warning and catch their own
    exceptions; they are left out. *)
Definition discover_device : M fin (option device) :=
  let prefix := product_class (SF_PRODUCT_ID G) in
  log INFO (Scanning prefix) ;;
  log INFO (ScanTimeout (BT_SCAN_TIMEOUT G)) ;;
  await E (Discover (BT_SCAN_TIMEOUT G)) ;;
  let all_devices := all_advertisers E in
  (match all_devices with
   | [] => log WARNING NoDevicesAtAll
   | _ :: _ =>
       log DEBUG (FoundDevices (List.length all_devices)) ;;
       for_each (combine (seq 1 (List.length all_devices)) all_devices)
                (fun id => log DEBUG (DeviceSeen (fst id) (snd id)))
   end) ;;
  device <- try_except
              (log INFO TryingNameFilter ;;
               find_device_by_filter (name_matches prefix))
              (fun e => log ERROR (NameFilterError e) ;; ret None) ;;
  match device with
  | Some d => ret (Some d)
  | None =>
      log INFO TryingAlternative ;;
      find_alternative prefix all_devices
  end.

(* ------------------------------------------------------------------- *)
(** ** [run] *)

(** [local_mqtt_connect(broker, port)]: the client, or [None] when the
    connection fails (the exception is caught and logged). *)
Definition local_mqtt_connect (broker : pystr) (port : Z) : M fin bool :=
  if mqtt_reachable E
  then emit (MqttConnect broker port) ;; ret true
  else log ERROR MqttConnectionFailed ;; ret false.

(** Truth value of [port]: an [int] or [None]. *)
Definition port_truthy (port : option Z) : bool :=
  match port with Some p => negb (Z.eqb p 0) | None => false end.

(** The [try] block of the [while True] loop of the continuous mode. *)
Definition poll_try : M fin unit :=
  await E StartNotify ;;
  g <- get_getinfo ;;
  when g (getInfo ;; set_getinfo false) ;;
  sleep E (GLOBAL_INFO_POLLING_INTERVAL G) ;;
  set_getinfo true.

(** One turn of the loop: the [try] block and its [except Exception]
    clause. *)
Definition poll_iteration : M fin unit :=
  try_except poll_try
    (fun e =>
       log ERROR (PollingLoopError e) ;;
       sleep E 5).

(** The [while True] loop, observed for [n] turns. *)
Fixpoint poll_loop (n : nat) : M fin unit :=
  match n with
  | O => fun w => (Running, w)
  | S n' => poll_iteration ;; poll_loop n'
  end.

(** The mode the [with] block of [run] selects. *)
Inductive mode : Type :=
| DisconnectMode
| ConnectMode
| InfoOnlyModeSel
| ContinuousModeSel.

(** The chain of [if] statements inside the [with] block, in order. *)
Definition select_mode (broker : option pystr) (port : option Z)
           (info_only connect disconnect : bool) (ssid : option pystr)
  : mode :=
  if (disconnect && opt_str_truthy broker && port_truthy port
      && opt_str_truthy ssid && opt_str_truthy (SF_DEVICE_ID G))%bool
  then DisconnectMode
  else if (connect && opt_str_truthy ssid)%bool then ConnectMode
  else if (info_only
           && match broker with None => true | Some _ => false end)%bool
  then InfoOnlyModeSel
  else ContinuousModeSel.

(** The body of [async with BleakClient(device) as bt_client]. *)
Definition session (broker : option pystr) (port : option Z)
           (info_only connect disconnect : bool) (ssid : option pystr)
           (n : nat) : M fin unit :=
  log DEBUG Services ;;
  match select_mode broker port info_only connect disconnect ssid with
  | DisconnectMode =>
      log INFO SettingDisconnect ;;
      set_IoT_Url (opt_str broker)
                  (match port with Some p => p | None => 0%Z end)
                  ssid (SF_DEVICE_ID G) ;;
      log SUCCESS DisconnectedFromCloud ;;
      sleep E 30
  | ConnectMode =>
      log INFO SettingReconnect ;;
      set_IoT_Url (lit "mq.zen-iot.com") 1883 ssid (SF_DEVICE_ID G) ;;
      log SUCCESS ReconnectedToCloud ;;
      sleep E 30
  | InfoOnlyModeSel =>
      log INFO InfoOnlyMode ;;
      await E StartNotify ;;
      getInfo ;;
      sleep E 20 ;;
      await E StopNotify
  | ContinuousModeSel =>
      log INFO (ContinuousMode (GLOBAL_INFO_POLLING_INTERVAL G)) ;;
      set_getinfo true ;;
      poll_loop n
  end.

(** [async with BleakClient(d) as bt_client: body]: connect on entry,
    disconnect on every exit. *)
Definition with_client (d : device) (body : M fin unit) : M fin unit :=
  await E (BleConnect d) ;;
  finally body (await E BleDisconnect).

(** [run(broker, port, info_only, connect, disconnect, ssid, deviceid)];
    the [while True] loop is observed for [n] turns. *)
Definition run (broker : option pystr) (port : option Z)
           (info_only connect disconnect : bool) (ssid : option pystr)
           (deviceid : option pystr) (n : nat) : M fin unit :=
  when (opt_str_truthy broker && port_truthy port)
    (log INFO (ConnectingMqtt (opt_str broker)
                 (match port with Some p => p | None => 0%Z end)) ;;
     c <- local_mqtt_connect (opt_str broker)
            (match port with Some p => p | None => 0%Z end) ;;
     set_mq_client c) ;;
  device <- discover_device ;;
  match device with
  | Some d =>
      log SUCCESS (FoundDevice d) ;;
      try_except
        (log INFO (ConnectingTo d) ;;
         with_client d
           (session broker port info_only connect disconnect ssid n))
        (fun e => log ERROR (ConnectionFailed e))
  | None =>
      log ERROR NoDeviceFound ;;
      log WARNING Troubleshooting
  end.

(* ------------------------------------------------------------------- *)
(** ** [main] *)

(** The configuration errors of the disconnect mode. *)
Definition disconnect_errors (f : flags) : nat :=
  (if is_none (cli_ssid f) then 1 else 0)
  + (if is_none (cli_broker f) then 1 else 0)
  + (if is_none (WIFI_PWD G) then 1 else 0)
  + (if is_none (SF_DEVICE_ID G) then 1 else 0).

(** [main(argv)] after [getopt]: the option loop, the validation of the
    disconnect and connect modes ([sys.exit] raises [SystemExit]), then
    [asyncio.run(run(...))] under its two [except] clauses. *)
Definition main (opts : list cli_opt) (n : nat) : M fin unit :=
  let f := main_flags opts in
  when (existsb is_help opts) (raise SystemExit) ;;
  when (cli_disconnect f)
    (when (negb (Nat.eqb (disconnect_errors f) 0))
       (log ERROR (ConfigurationErrors (disconnect_errors f)) ;;
        raise SystemExit) ;;
     log INFO DisconnectingHub) ;;
  when (cli_connect f)
    (when (is_none (cli_ssid f))
       (log ERROR SsidRequired ;; raise SystemExit) ;;
     log INFO ConnectingHub) ;;
  fun w =>
    match run (cli_broker f) (cli_port f) (cli_info_only f)
              (cli_connect f) (cli_disconnect f) (cli_ssid f)
              (SF_DEVICE_ID G) n w with
    | (Raise CancelledError, w') => log INFO Interrupted w'
    | (Raise e, w') =>
        if is_Exception e then log ERROR (UnexpectedError e) w'
        else (Raise e, w')
    | other => other
    end.

End Program.

Arguments log_info_response {fin} payload.
Arguments pack_topic {fin} float_repr container_str sn prop.
Arguments publish_properties {fin} float_repr E G payload.
Arguments publish_pack {fin} float_repr container_str E pack.
Arguments publish_packs {fin} float_repr container_str E payload.
Arguments dispatch {fin} float_repr container_str E G payload.
Arguments handle_rx_body {fin} float_of_literal float_repr container_str E G data.
Arguments handle_rx {fin} float_of_literal float_repr container_str E G data.
Arguments info_cmd {fin} t.
Arguments properties_cmd {fin} t.
Arguments write_command {fin} E text.
Arguments getInfo {fin} float_repr E.
Arguments c1 {fin} G broker ssid.
Arguments set_IoT_Url {fin} float_repr E G broker port ssid deviceid.
Arguments find_device_by_filter {fin} E G f.
Arguments find_alternative {fin} prefix devs.
Arguments discover_device {fin} E G.
Arguments local_mqtt_connect {fin} E broker port.
Arguments poll_try {fin} float_repr E G.
Arguments poll_iteration {fin} float_repr E G.
Arguments poll_loop {fin} float_repr E G n.
Arguments session {fin} float_repr E G broker port info_only connect disconnect ssid n.
Arguments with_client {fin} E d body.
Arguments run {fin} float_repr E G broker port info_only connect disconnect ssid deviceid n.
Arguments main {fin} float_repr E G opts n.

(* ===================================================================== *)
(** * Reference surroundings for the examples *)
(* ===================================================================== *)

(** A small float type for the examples: floats with an integral value,
    printed as [<int>.0] and read back from the integer part of a
    literal. *)
Definition int_prefix (s : pystr) : Z :=
  match s with
  | c :: r =>
      if N.eqb c 45
      then Z.of_int (Decimal.Neg (uint_of_digits (fst (span_digits r))))
      else Z.of_int (Decimal.Pos (uint_of_digits (fst (span_digits s))))
  | [] => 0%Z
  end.

Definition ex_float_of_literal (s : pystr) : pyfloat Z := FFin (int_prefix s).

Definition ex_float_repr (z : Z) : pystr := str_of_Z z ++ lit ".0".

Definition ex_container_str (v : json Z) : pystr :=
  json_dumps ex_float_repr v.

(** The bytes of a text of code points below 256. *)
Definition latin1 (s : pystr) : pybytes :=
  map (fun c => match Byte.of_N c with Some b => b | None => Byte.x00 end) s.

Definition hub : device :=
  {| name := Some (lit "ZenE-1234"); address := lit "AA:BB:CC:DD:EE:01" |}.

Definition other_hub : device :=
  {| name := Some (lit "zene-0001"); address := lit "AA:BB:CC:DD:EE:02" |}.

(** Nothing fails, the MQTT client takes every message, the hub is the
    only advertiser and the filtered scan misses it. *)
Definition ex_env : env Z :=
  {| io_outcome := fun _ => None;
     now := fun n => (1700000000 + Z.of_nat n)%Z;
     publish_rejects := fun _ _ => None;
     mqtt_reachable := true;
     all_advertisers := [hub];
     filter_stream := [] |}.

(** The same, with a second hub of the same product seen first. *)
Definition ex_env_two_hubs : env Z :=
  {| io_outcome := fun _ => None;
     now := fun n => (1700000000 + Z.of_nat n)%Z;
     publish_rejects := fun _ _ => None;
     mqtt_reachable := true;
     all_advertisers := [other_hub; hub];
     filter_stream := [] |}.

(** The same as [ex_env], with a transport fault on the awaited operation
    number [k]. *)
Definition ex_env_fault (k : nat) : env Z :=
  {| io_outcome := fun n => if Nat.eqb n k then Some TransportError else None;
     now := fun n => (1700000000 + Z.of_nat n)%Z;
     publish_rejects := fun _ _ => None;
     mqtt_reachable := true;
     all_advertisers := [hub];
     filter_stream := [] |}.

Definition ex_globals : globals :=
  {| WIFI_PWD := Some (lit "secret");
     SF_DEVICE_ID := Some (lit "dev1");
     SF_PRODUCT_ID := lit "ja72U0ha";
     GLOBAL_INFO_POLLING_INTERVAL := 60;
     BT_SCAN_TIMEOUT := 20 |}.

Definition start (mq : bool) : world Z :=
  {| trace := []; steps := 0; mq_client := mq; getinfo := false |}.

(** The state in which [run] enters the polling loop: [getinfo = True]. *)
Definition loop_start : world Z :=
  {| trace := []; steps := 0; mq_client := false; getinfo := true |}.

(** The notification bodies of the examples. *)
Definition ex_pack_notification : pybytes :=
  latin1 (lit "{" ++ quoted "packData" ++ lit ":[{" ++ quoted "sn" ++ lit ":"
          ++ quoted "ABC123" ++ lit "," ++ quoted "volt" ++ lit ":52.1,"
          ++ quoted "temp" ++ lit ":30}]}").

Definition ex_properties_notification : pybytes :=
  latin1 (lit "{" ++ quoted "properties" ++ lit ":{" ++ quoted "soc"
          ++ lit ":80," ++ quoted "power" ++ lit ":120}}").

(** The command line [-i -d -w home -b 192.168.1.100:1883]. *)
Definition ex_info_and_disconnect : list cli_opt :=
  [OptInfo; OptDisconnect; OptWifi (lit "home");
   OptBroker (lit "192.168.1.100") 1883].

(** The [start_notify] operations attempted in a trace, and the commands
    written. *)
Definition is_start_notify {fin : Type} (e : event fin) : bool :=
  match e with Io StartNotify _ => true | _ => false end.

Definition subscriptions {fin : Type} (t : list (event fin)) : nat :=
  List.length (filter is_start_notify t).

Definition is_publish {fin : Type} (e : event fin) : bool :=
  match e with Publish _ _ _ => true | _ => false end.

(* ===================================================================== *)
(** * Vocabulary of the statements *)
(* ===================================================================== *)

(** The world after more events and more awaited operations. *)
Definition advance {fin : Type} (w : world fin) (evs : list (event fin))
           (k : nat) : world fin :=
  {| trace := trace w ++ evs; steps := k + steps w;
     mq_client := mq_client w; getinfo := getinfo w |}.

(** The events a computation adds to the trace of the world it starts
    in. *)
Definition events_of {fin A : Type} (m : M fin A) (w : world fin)
  : list (event fin) :=
  skipn (List.length (trace w)) (trace (snd (m w))).

(** The commands written to the hub in a trace, in order. *)
Definition commands_written {fin : Type} (t : list (event fin))
  : list pybytes :=
  flat_map (fun e => match e with Io (WriteGatt b) _ => [b] | _ => [] end) t.

(** The messages handed to the MQTT client in a trace, in order. *)
Definition published {fin : Type} (t : list (event fin))
  : list (pystr * json fin * bool) :=
  flat_map (fun e => match e with
                     | Publish topic payload retain => [(topic, payload, retain)]
                     | _ => []
                     end) t.

(** The text of the two commands of [getInfo] at clock reading [t]. *)
Definition getInfo_text (t : Z) : pystr :=
  lit "{" ++ quoted "messageId" ++ lit ": " ++ quoted "none" ++ lit ", "
  ++ quoted "method" ++ lit ": " ++ quoted "getInfo" ++ lit ", "
  ++ quoted "timestamp" ++ lit ": " ++ 34%N :: str_of_Z t ++ 34%N :: lit "}".

Definition getAll_text (t : Z) : pystr :=
  lit "{" ++ quoted "method" ++ lit ": " ++ quoted "read" ++ lit ", "
  ++ quoted "timestamp" ++ lit ": " ++ 34%N :: str_of_Z t ++ 34%N :: lit ", "
  ++ quoted "messageId" ++ lit ": " ++ quoted "none" ++ lit ", "
  ++ quoted "properties" ++ lit ": [" ++ quoted "getAll" ++ lit "]}".

(** The events of one guarded write: the record before it, the write with
    its outcome, and the error record when it raised. *)
Definition attempt {fin : Type} (before : event fin) (b : pybytes)
           (o : option exn) (failed : exn -> logmsg fin) : list (event fin) :=
  before :: Io (WriteGatt b) o ::
  match o with Some e => [Log ERROR (failed e)] | None => [] end.

(** No awaited operation is cancelled: each one succeeds or raises an
    [Exception]. *)
Definition never_cancelled {fin : Type} (E : env fin) : Prop :=
  forall k e, io_outcome E k = Some e -> is_Exception e = true.

(** No awaited operation fails. *)
Definition never_fails {fin : Type} (E : env fin) : Prop :=
  forall k, io_outcome E k = None.

(** The events of one turn of the polling loop that starts after [s]
    awaited operations, when nothing fails: subscribe, the two commands,
    the sleep of the polling interval. *)
Definition turn {fin : Type} (E : env fin) (G : globals) (s : nat)
  : list (event fin) :=
  [ Io StartNotify None;
    Log DEBUG SendingGetInfo;
    Io (WriteGatt (latin1 (getInfo_text (now E (S s))))) None;
    Log DEBUG SendingGetAll;
    Io (WriteGatt (latin1 (getAll_text (now E (S s))))) None;
    Io (Sleep (GLOBAL_INFO_POLLING_INTERVAL G)) None ].

Fixpoint turns {fin : Type} (E : env fin) (G : globals) (n s : nat)
  : list (event fin) :=
  match n with
  | O => []
  | S n' => turn E G s ++ turns E G n' (4 + s)
  end.

(** The events of the turn in which [start_notify] raises [e]: the error
    record and the back-off sleep. *)
Definition failed_turn {fin : Type} (e : exn) : list (event fin) :=
  [ Io StartNotify (Some e); Log ERROR (PollingLoopError e);
    Io (Sleep 5) None ].



(** The topic of the synthetic registration acknowledgment. *)
Definition register_topic (G : globals) (deviceid : option pystr) : pystr :=
  lit "iot/" ++ SF_PRODUCT_ID G ++ lit "/" ++ opt_str deviceid
  ++ lit "/register/replay".

(** The events of [set_IoT_Url] that starts after [s] awaited operations
    with the MQTT client set ([mq = true]) or not: the two guarded writes,
    then the acknowledgment when there is a client. *)
Definition set_IoT_Url_events {fin : Type} (fr : fin -> pystr) (E : env fin)
           (G : globals) (broker : pystr) (ssid deviceid : option pystr)
           (mq : bool) (s : nat) : list (event fin) :=
  attempt (Log INFO (SettingIoTUrl (json_dumps fr (c1 G broker ssid))))
          (latin1 (json_dumps fr (c1 G broker ssid)))
          (io_outcome E s) SetUrlFailed
  ++ attempt (Log INFO SettingStationMode) (latin1 cmd2)
             (io_outcome E (S s)) SetWifiModeFailed
  ++ (if mq
      then [Log INFO PublishingRegisterReply;
            Publish (register_topic G deviceid) (JStr (reply (now E s))) true]
      else []).

(** The broker the token command names: the local one in disconnect
    mode, the vendor's cloud in connect mode. *)
Definition toggle_broker (m : mode) (broker : option pystr) : pystr :=
  match m with
  | DisconnectMode => opt_str broker
  | _ => lit "mq.zen-iot.com"
  end.

(** The events of the body of the [with] block in a cloud-toggle mode. *)
Definition cloud_toggle_events {fin : Type} (fr : fin -> pystr) (E : env fin)
           (G : globals) (m : mode) (broker ssid : option pystr)
           (mq : bool) (s : nat) : list (event fin) :=
  [ Log DEBUG Services;
    Log INFO (match m with
              | DisconnectMode => SettingDisconnect
              | _ => SettingReconnect
              end) ]
  ++ set_IoT_Url_events fr E G (toggle_broker m broker) ssid (SF_DEVICE_ID G)
                        mq s
  ++ [ Log SUCCESS (match m with
                    | DisconnectMode => DisconnectedFromCloud
                    | _ => ReconnectedToCloud
                    end);
       Io (Sleep 30) None ].

(** An outcome an [except Exception] clause takes care of: the code
    returned, or raised an [Exception]. *)
Definition catchable {A : Type} (r : result A) : Prop :=
  match r with
  | Ret _ => True
  | Raise e => is_Exception e = true
  | Running => False
  end.

(** A computation whose outcome is catchable in every state. *)
Definition benign {fin A : Type} (m : M fin A) : Prop :=
  forall w, catchable (fst (m w)).

(** The two [except] clauses of [handle_rx]. *)
Definition handle_rx_handler {fin : Type} (data : pybytes) (e : exn)
  : M fin unit :=
  match e with
  | JSONDecodeError => log ERROR (InvalidJson data)
  | _ => (log ERROR (ErrorHandlingData e) ;; log DEBUG (RawData data))%py
  end.

(** A decoded object is none of the three known notifications. *)
Definition unrecognized {fin : Type} (kvs : list (pystr * json fin)) : Prop :=
  dict_get kvs (lit "method") = None /\
  dict_get kvs (lit "properties") = None /\
  dict_get kvs (lit "packData") = None.

(** A [str] as [json.loads] builds them from UTF-8 text: no code point
    above U+10FFFF, and no high surrogate directly followed by a low
    one (two such escapes in a row are read as one code point). *)
Fixpoint str_ok (s : pystr) : bool :=
  match s with
  | [] => true
  | c :: r =>
      N.ltb c 1114112
      && negb (is_high_surrogate c
               && match r with lo :: _ => is_low_surrogate lo | [] => false end)
      && str_ok r
  end.

(** The text starts with a [\u] escape that [scanstring] would join to a
    preceding high surrogate, or refuse. *)
Definition starts_u_low (t : pystr) : bool :=
  match t with
  | b :: u :: t2 =>
      if (N.eqb b 92 && N.eqb u 117)%bool then
        match t2 with
        | l1 :: l2 :: l3 :: l4 :: _ =>
            match hex4_val l1 l2 l3 l4 with
            | Some uni2 => is_low_surrogate uni2
            | None => true
            end
        | _ => false
        end
      else false
  | _ => false
  end.

(** What follows a value in the output of [json.dumps]: nothing, a comma,
    or a closing bracket or brace. *)
Definition delimited (rest : pystr) : Prop :=
  match rest with
  | [] => True
  | c :: _ => c = 44%N \/ c = 93%N \/ c = 125%N
  end.

(** The keys of a dict are pairwise different. *)
Fixpoint distinct (ks : list pystr) : bool :=
  match ks with
  | [] => true
  | k :: r => negb (existsb (pystr_eqb k) r) && distinct r
  end.

(** A value as [json.loads] builds them from UTF-8 text: its strings are
    [str_ok], the keys of each dict are pairwise different. *)
Fixpoint json_ok {fin : Type} (v : json fin) : bool :=
  match v with
  | JStr s => str_ok s
  | JArr l => forallb json_ok l
  | JObj kvs =>
      distinct (map fst kvs)
      && forallb (fun kv => str_ok (fst kv) && json_ok (snd kv)) kvs
  | _ => true
  end.

(** What the model assumes of Python's floats: the [repr] of a finite
    float is the text of a JSON number that [float] reads back as the
    same float. *)
Definition repr_reads_back {fin : Type} (fol : pystr -> pyfloat fin)
           (fr : fin -> pystr) : Prop :=
  forall (x : fin) (rest : pystr),
    delimited rest ->
    match_number fol (fr x ++ rest) = Some (JFloat (FFin x), rest).




(** Text of ASCII characters only. *)
Definition ascii_text (s : pystr) : Prop := Forall (fun c => (c < 128)%N) s.

(** The digits and the sign of [str(n)] are written as they are by
    [json.dumps]. *)
Definition plain_cp (c : N) : Prop := (c = 45 \/ 48 <= c <= 57)%N.

(** The escape of a character, by cases. *)
Inductive escape_form (c : N) : pystr -> Prop :=
| EscSimple (x : N) :
    unescape x = Some c -> x <> 117%N -> escape_form c [92%N; x]
| EscPlain :
    c <> 34%N -> c <> 92%N -> N.ltb c 32 = false -> escape_form c [c]
| EscBmp :
    (c < 65536)%N -> escape_form c (92%N :: 117%N :: hex4 c)
| EscPair :
    (65536 <= c)%N ->
    escape_form c
      ((92 :: 117 :: hex4 (55296 + N.modulo (N.div (c - 65536) 1024) 1024))%N
       ++ (92 :: 117 :: hex4 (56320 + N.modulo (c - 65536) 1024))%N).

(** The first character [json.dumps] writes for a value: no white space,
    no closing bracket or brace. *)
Definition opens_value (s : pystr) : Prop :=
  exists c tl, s = c :: tl /\ is_ws c = false /\
               N.eqb c 93 = false /\ N.eqb c 125 = false.

(** [scan_once] reads the text of [v] back, whatever delimiter follows. *)
Definition reads_back {fin : Type} (fol : pystr -> pyfloat fin)
           (fr : fin -> pystr) (v : json fin) : Prop :=
  forall rest, delimited rest ->
               exists n, scan_once fol n (json_dumps fr v ++ rest) = POk v rest.

(** The text of one member of an object. *)
Definition member_text {fin : Type} (fr : fin -> pystr)
           (kv : pystr * json fin) : pystr :=
  encode_basestring_ascii (fst kv) ++ lit ": " ++ json_dumps fr (snd kv).

(** The MQTT client takes every message of these events. *)
Definition accepted {fin : Type} (E : env fin) (evs : list (event fin))
  : Prop :=
  Forall (fun e => match e with
                   | Publish topic payload _ =>
                       publish_rejects E topic payload = None
                   | _ => True
                   end) evs.

(** A pack entry that carries a serial. *)
Definition has_serial {fin : Type} (pack : json fin) : Prop :=
  match pack with
  | JObj kvs => dict_get kvs (lit "sn") <> None
  | _ => False
  end.

(** The events of one pack entry: the serial is logged, then one message
    per property left, on the topic of the pack and the property. *)
Definition pack_events {fin : Type} (fr : fin -> pystr)
           (cs : json fin -> pystr) (pack : json fin) : list (event fin) :=
  match pack with
  | JObj kvs =>
      match dict_get kvs (lit "sn") with
      | Some sn =>
          Log DEBUG (PackSN sn)
          :: map (fun kv =>
                    Publish (pack_topic fr cs sn (fst kv)) (snd kv) false)
                 (dict_remove kvs (lit "sn"))
      | None => []
      end
  | _ => []
  end.

(** The events of the pack list of a notification. *)
Definition packs_events {fin : Type} (fr : fin -> pystr)
           (cs : json fin -> pystr) (packs : list (json fin))
  : list (event fin) :=
  match packs with
  | [] => []
  | _ :: _ =>
      Log INFO (BatteryPacks (List.length packs))
      :: flat_map (pack_events fr cs) packs
  end.

(** The events of one property: numbers are logged, every value is
    published on the topic of the property. *)
Definition property_events {fin : Type} (kv : pystr * json fin)
  : list (event fin) :=
  (if is_number (snd kv)
   then [Log DEBUG (PropertyValue (fst kv) (snd kv))] else [])
  ++ [Publish (property_topic (fst kv)) (snd kv) false].

(** A log record. *)
Definition is_log {fin : Type} (e : event fin) : bool :=
  match e with Log _ _ => true | _ => false end.

(** The two records of the generic [except Exception] clause of
    [handle_rx]. *)
Definition handler_records {fin : Type} (e : exn) (data : pybytes)
  : list (event fin) :=
  [Log ERROR (ErrorHandlingData e); Log DEBUG (RawData data)].

(** A device information response without [deviceId]. *)
Definition ex_info_response : pybytes :=
  latin1 (lit "{" ++ quoted "method" ++ lit ":" ++ quoted "getInfo-rsp"
          ++ lit "," ++ quoted "deviceSn" ++ lit ":" ++ quoted "HUB1" ++ lit "}").

(** Three packs, the second without serial. *)
Definition ex_packs_text : pystr :=
  lit "{" ++ quoted "packData" ++ lit ":[{" ++ quoted "sn" ++ lit ":"
  ++ quoted "A1" ++ lit "," ++ quoted "volt" ++ lit ":1},{" ++ quoted "volt"
  ++ lit ":2},{" ++ quoted "sn" ++ lit ":" ++ quoted "C3" ++ lit ","
  ++ quoted "volt" ++ lit ":3}]}".

(** Surroundings whose MQTT client refuses payloads that are lists or
    dicts, as [Client.publish] does. *)
Definition ex_env_strict : env Z :=
  {| io_outcome := fun _ => None;
     now := fun n => (1700000000 + Z.of_nat n)%Z;
     publish_rejects := fun _ payload =>
                          match payload with
                          | JArr _ | JObj _ => Some BadPayload
                          | _ => None
                          end;
     mqtt_reachable := true;
     all_advertisers := [hub];
     filter_stream := [] |}.

(** Three properties, the second with a list as value. *)
Definition ex_props_text : pystr :=
  lit "{" ++ quoted "properties" ++ lit ":{" ++ quoted "soc" ++ lit ":80,"
  ++ quoted "tags" ++ lit ":[1]," ++ quoted "power" ++ lit ":120}}".

(** A notification with both properties and pack data. *)
Definition ex_both_text : pystr :=
  lit "{" ++ quoted "packData" ++ lit ":[{" ++ quoted "sn" ++ lit ":"
  ++ quoted "A1" ++ lit "," ++ quoted "volt" ++ lit ":1}],"
  ++ quoted "properties" ++ lit ":{" ++ quoted "soc" ++ lit ":80}}".

(** An optional string is well formed. *)
Definition opt_str_ok (o : option pystr) : bool :=
  match o with Some s => str_ok s | None => true end.

(** The [params] of the registration acknowledgment, as an object. *)
Definition reply_params {fin : Type} : json fin :=
  JObj [(lit "token", JStr (lit "abcdefgh")); (lit "result", JInt 0)].

(** What [discover_device] returns when the initial scan completed and
    the filtered scan had outcome [o2]. *)
Definition located {fin : Type} (E : env fin) (G : globals) (o2 : option exn)
  : option device :=
  let m := name_matches (product_class (SF_PRODUCT_ID G)) in
  match (match o2 with
         | None => find m (filter_stream E)
         | Some _ => None
         end) with
  | Some d => Some d
  | None => find m (all_advertisers E)
  end.

(** The events of [discover_device] when the initial scan completed and
    the filtered scan had outcome [o2]. *)
Definition discover_events {fin : Type} (E : env fin) (G : globals)
           (o2 : option exn) : list (event fin) :=
  let prefix := product_class (SF_PRODUCT_ID G) in
  let all := all_advertisers E in
  [ Log INFO (Scanning prefix);
    Log INFO (ScanTimeout (BT_SCAN_TIMEOUT G));
    Io (Discover (BT_SCAN_TIMEOUT G)) None ]
  ++ match all with
     | [] => [Log WARNING NoDevicesAtAll]
     | _ :: _ =>
         Log DEBUG (FoundDevices (List.length all))
         :: map (fun id => Log DEBUG (DeviceSeen (fst id) (snd id)))
                (combine (seq 1 (List.length all)) all)
     end
  ++ [ Log INFO TryingNameFilter;
       Io (FindDeviceByFilter (BT_SCAN_TIMEOUT G)) o2 ]
  ++ match o2 with
     | Some e => [Log ERROR (NameFilterError e)]
     | None => []
     end
  ++ match (match o2 with
            | None => find (name_matches prefix) (filter_stream E)
            | Some _ => None
            end) with
     | Some _ => []
     | None =>
         Log INFO TryingAlternative
         :: match find (name_matches prefix) all with
            | Some d => [Log SUCCESS (FoundAlternative d)]
            | None => []
            end
     end.

(** The events of the MQTT connection at the start of [run]. *)
Definition mqtt_events {fin : Type} (E : env fin) (broker : option pystr)
           (port : option Z) : list (event fin) :=
  if (opt_str_truthy broker && port_truthy port)%bool
  then [ Log INFO (ConnectingMqtt (opt_str broker)
                     (match port with Some p => p | None => 0%Z end));
         if mqtt_reachable E
         then MqttConnect (opt_str broker)
                          (match port with Some p => p | None => 0%Z end)
         else Log ERROR MqttConnectionFailed ]
  else [].

(** The state in which [run] starts the discovery: [mq_client] is the
    new client, [None] if the connection failed, or what it was when no
    connection is asked for. *)
Definition after_mqtt {fin : Type} (E : env fin) (broker : option pystr)
           (port : option Z) (w : world fin) : world fin :=
  {| trace := trace w ++ mqtt_events E broker port;
     steps := steps w;
     mq_client := if (opt_str_truthy broker && port_truthy port)%bool
                  then mqtt_reachable E else mq_client w;
     getinfo := getinfo w |}.

(** The events of [run] from its start to the entry of the [with] block,
    when the device [d] is found and the connection succeeds. *)
Definition connect_events {fin : Type} (E : env fin) (G : globals)
           (broker : option pystr) (port : option Z) (o2 : option exn)
           (d : device) : list (event fin) :=
  mqtt_events E broker port
  ++ discover_events E G o2
  ++ [ Log SUCCESS (FoundDevice d); Log INFO (ConnectingTo d);
       Io (BleConnect d) None ].

(** The state in which the body of the [with] block of [run] starts. *)
Definition connected {fin : Type} (E : env fin) (G : globals)
           (broker : option pystr) (port : option Z) (o2 : option exn)
           (d : device) (w : world fin) : world fin :=
  advance (after_mqtt E broker port w)
          (discover_events E G o2
           ++ [ Log SUCCESS (FoundDevice d); Log INFO (ConnectingTo d);
                Io (BleConnect d) None ]) 3.

(** How [run] ends once the body of the [with] block has ended with
    outcome [r] and the disconnection with outcome [o]: an [Exception]
    is logged by the [except] clause of [run]. *)
Definition run_outcome (r : result unit) (o : option exn) : result unit :=
  match (match o with Some e => Raise e | None => r end) with
  | Raise e => if is_Exception e then Ret tt else Raise e
  | other => other
  end.

Definition run_closing {fin : Type} (r : result unit) (o : option exn)
  : list (event fin) :=
  Io BleDisconnect o
  :: match (match o with Some e => Raise e | None => r end) with
     | Raise e => if is_Exception e then [Log ERROR (ConnectionFailed e)] else []
     | _ => []
     end.

(** The events of the info-only branch that starts after [s] awaited
    operations, when [start_notify] succeeds: the two commands of
    [getInfo], 20 seconds of notifications, [stop_notify]. *)
Definition info_only_events {fin : Type} (E : env fin) (s : nat)
  : list (event fin) :=
  [ Log DEBUG Services; Log INFO InfoOnlyMode; Io StartNotify None ]
  ++ attempt (Log DEBUG SendingGetInfo)
             (latin1 (getInfo_text (now E (S s))))
             (io_outcome E (S s)) GetInfoFailed
  ++ attempt (Log DEBUG SendingGetAll)
             (latin1 (getAll_text (now E (S s))))
             (io_outcome E (S (S s))) GetPropertiesFailed
  ++ [ Io (Sleep 20) None; Io StopNotify (io_outcome E (4 + s)) ].

(** The events of a cloud-toggle branch whose registration
    acknowledgment the MQTT client refuses: both writes, the record
    before the publish, and nothing after it. *)
Definition refused_toggle_events {fin : Type} (fr : fin -> pystr)
           (E : env fin) (G : globals) (m : mode) (broker ssid : option pystr)
           (s : nat) : list (event fin) :=
  [ Log DEBUG Services;
    Log INFO (match m with
              | DisconnectMode => SettingDisconnect
              | _ => SettingReconnect
              end) ]
  ++ set_IoT_Url_events fr E G (toggle_broker m broker) ssid (SF_DEVICE_ID G)
                        false s
  ++ [ Log INFO PublishingRegisterReply ].

(** An event that is no write to the hub, no subscription and no MQTT
    message. *)
Definition is_quiet {fin : Type} (e : event fin) : bool :=
  match e with
  | Publish _ _ _ => false
  | Io StartNotify _ => false
  | Io (WriteGatt _) _ => false
  | _ => true
  end.

(** Surroundings in which the broker cannot be reached. *)
Definition ex_env_no_broker : env Z :=
  {| io_outcome := fun _ => None;
     now := fun n => (1700000000 + Z.of_nat n)%Z;
     publish_rejects := fun _ _ => None;
     mqtt_reachable := false;
     all_advertisers := [hub];
     filter_stream := [] |}.

(** Surroundings whose MQTT client refuses every topic. *)
Definition ex_env_refusing : env Z :=
  {| io_outcome := fun _ => None;
     now := fun n => (1700000000 + Z.of_nat n)%Z;
     publish_rejects := fun _ _ => Some BadTopic;
     mqtt_reachable := true;
     all_advertisers := [hub];
     filter_stream := [] |}.

(** One of the three mode options [-i], [-d], [-c]. *)
Definition is_mode_option (o : cli_opt) : bool :=
  match o with
  | OptInfo | OptDisconnect | OptConnect => true
  | _ => false
  end.

(** The records [main] writes before it calls [run], when the
    validation of the mode passes. *)
Definition main_prelude {fin : Type} (f : flags) : list (event fin) :=
  (if cli_disconnect f then [Log INFO DisconnectingHub] else [])
  ++ (if cli_connect f then [Log INFO ConnectingHub] else []).

(** The validation of [main] passes: no help option, no configuration
    error in disconnect mode, an SSID in connect mode. *)
Definition validated (G : globals) (opts : list cli_opt) : Prop :=
  existsb is_help opts = false /\
  (cli_disconnect (main_flags opts) = true ->
   disconnect_errors G (main_flags opts) = 0) /\
  (cli_connect (main_flags opts) = true ->
   cli_ssid (main_flags opts) <> None).

(** The command line [-d -w '' -b host:1883], with an empty SSID. *)
Definition ex_empty_ssid : list cli_opt :=
  [OptDisconnect; OptWifi []; OptBroker (lit "192.168.1.100") 1883].

(** The events of one turn of the polling loop that starts after [s]
    awaited operations, whatever becomes of its operations short of a
    cancellation. *)
Definition turn_events {fin : Type} (E : env fin) (G : globals) (s : nat)
  : list (event fin) :=
  match io_outcome E s with
  | Some e => failed_turn e
  | None =>
      Io StartNotify None
      :: (attempt (Log DEBUG SendingGetInfo)
                  (latin1 (getInfo_text (now E (S s))))
                  (io_outcome E (S s)) GetInfoFailed
          ++ attempt (Log DEBUG SendingGetAll)
                     (latin1 (getAll_text (now E (S s))))
                     (io_outcome E (S (S s))) GetPropertiesFailed)
      ++ [Io (Sleep (GLOBAL_INFO_POLLING_INTERVAL G)) None]
  end.

(** The awaited operations of that turn. *)
Definition turn_steps {fin : Type} (E : env fin) (s : nat) : nat :=
  match io_outcome E s with Some _ => 2 | None => 4 end.

(** [s.split(sep)] for a separator of one character: the text between
    the occurrences of the separator, never an empty list. *)
Fixpoint split_on (sep : N) (s : pystr) : list pystr :=
  match s with
  | [] => [[]]
  | c :: r =>
      if N.eqb c sep then [] :: split_on sep r
      else match split_on sep r with
           | p :: ps => (c :: p) :: ps
           | [] => [[c]]
           end
  end.

(** The [-b] option of [main]: [parts = arg.split(':')], the broker is
    [parts[0]], the port [int(parts[1])] when there is a second part and
    1883 otherwise.  [int_of_str] is Python's [int] on a [str], [None]
    where it raises [ValueError]; the option loop of [main] is in no
    [try] block. *)
Definition broker_option (int_of_str : pystr -> option Z) (arg : pystr)
  : result cli_opt :=
  let parts := split_on 58 arg in
  let mqtt_broker := hd [] parts in
  if Nat.ltb 1 (List.length parts)
  then match int_of_str (nth 1 parts []) with
       | Some mqtt_port => Ret (OptBroker mqtt_broker mqtt_port)
       | None => Raise ValueError
       end
  else Ret (OptBroker mqtt_broker 1883).

(** [int] on texts of ASCII digits, for the examples. *)
Definition ex_int_of_str (s : pystr) : option Z :=
  match s with
  | [] => None
  | _ :: _ =>
      if forallb is_digit s
      then Some (Z.of_int (Decimal.Pos (uint_of_digits s)))
      else None
  end.

(** A JSON value that is not an object. *)
Definition not_object {fin : Type} (v : json fin) : Prop :=
  match v with JObj _ => False | _ => True end.

(** What a trace shows besides its log records: the Bluetooth
    operations, the sleeps, the MQTT connections and messages. *)
Definition actions {fin : Type} (t : list (event fin)) : list (event fin) :=
  filter (fun e => negb (is_log e)) t.

(** The MQTT connection [run] makes: none without broker or port, or
    when the broker cannot be reached. *)
Definition mqtt_actions {fin : Type} (E : env fin) (broker : option pystr)
           (port : option Z) : list (event fin) :=
  if (opt_str_truthy broker && port_truthy port && mqtt_reachable E)%bool
  then [MqttConnect (opt_str broker)
                    (match port with Some p => p | None => 0%Z end)]
  else [].

(** The two scans of [discover_device]. *)
Definition scan_actions {fin : Type} (G : globals) (o2 : option exn)
  : list (event fin) :=
  [ Io (Discover (BT_SCAN_TIMEOUT G)) None;
    Io (FindDeviceByFilter (BT_SCAN_TIMEOUT G)) o2 ].

(** The globals of [ex_globals] with a product id that is not in the
    table of [discover_device]. *)
Definition ex_globals_unknown : globals :=
  {| WIFI_PWD := Some (lit "secret");
     SF_DEVICE_ID := Some (lit "dev1");
     SF_PRODUCT_ID := lit "Hub9999";
     GLOBAL_INFO_POLLING_INTERVAL := 60;
     BT_SCAN_TIMEOUT := 20 |}.

(** The events of [n] turns of the polling loop, the first of which
    starts after [s] awaited operations: a turn that failed is followed
    by the next one after its two operations, another one after its
    four. *)
Fixpoint loop_events {fin : Type} (E : env fin) (G : globals) (n s : nat)
  : list (event fin) :=
  match n with
  | O => []
  | S n' => turn_events E G s ++ loop_events E G n' (turn_steps E s + s)
  end.

(** The awaited operations of these turns. *)
Fixpoint loop_steps {fin : Type} (E : env fin) (n s : nat) : nat :=
  match n with
  | O => 0
  | S n' => loop_steps E n' (turn_steps E s + s) + turn_steps E s
  end.

(** The turns among them whose [start_notify] succeeds. *)
Fixpoint subscribed_turns {fin : Type} (E : env fin) (n s : nat) : nat :=
  match n with
  | O => 0
  | S n' =>
      (match io_outcome E s with None => 1 | Some _ => 0 end)
      + subscribed_turns E n' (turn_steps E s + s)
  end.

(** The object is a device information response: its [method] is
    [getInfo-rsp]. *)
Definition is_info_response {fin : Type} (top : list (pystr * json fin))
  : bool :=
  match dict_get top (lit "method") with
  | Some m => is_str m (lit "getInfo-rsp")
  | None => false
  end.

(** A device information response carries both identifiers.  Nothing is
    asked of an object with another method, or with none. *)
Definition identified {fin : Type} (top : list (pystr * json fin)) : Prop :=
  is_info_response top = true ->
  dict_get top (lit "deviceId") <> None /\
  dict_get top (lit "deviceSn") <> None.

(** The records of the [getInfo-rsp] block: the two identifiers of a
    device information response, nothing for another object. *)
Definition info_records {fin : Type} (top : list (pystr * json fin))
  : list (event fin) :=
  if is_info_response top
  then match dict_get top (lit "deviceId"), dict_get top (lit "deviceSn") with
       | Some id, Some sn =>
           [Log SUCCESS (DeviceId id); Log SUCCESS (DeviceSn sn)]
       | _, _ => []
       end
  else [].

(** The events of the properties block of an object: the number of
    properties, the properties one by one, the aggregate state message;
    nothing without a [properties] key. *)
Definition properties_block {fin : Type} (fr : fin -> pystr) (G : globals)
           (top : list (pystr * json fin)) : list (event fin) :=
  match dict_get top (lit "properties") with
  | Some (JObj props) =>
      Log DEBUG (PropertiesReceived (List.length props))
      :: flat_map property_events props
      ++ [Publish (state_topic G) (JStr (json_dumps fr (JObj props))) false]
  | _ => []
  end.

(** The properties of the object, if it has any, are a mapping. *)
Definition properties_ok {fin : Type} (top : list (pystr * json fin))
  : Prop :=
  match dict_get top (lit "properties") with
  | Some (JObj _) | None => True
  | Some _ => False
  end.

(** The events of the pack block of an object: nothing without a
    [packData] key. *)
Definition pack_data_block {fin : Type} (fr : fin -> pystr)
           (cs : json fin -> pystr) (top : list (pystr * json fin))
  : list (event fin) :=
  match dict_get top (lit "packData") with
  | Some (JArr packs) => packs_events fr cs packs
  | _ => []
  end.

(** The pack data of the object, if it has any, is a list of packs that
    carry a serial. *)
Definition pack_data_ok {fin : Type} (top : list (pystr * json fin))
  : Prop :=
  match dict_get top (lit "packData") with
  | Some (JArr packs) => Forall has_serial packs
  | None => True
  | Some _ => False
  end.

(** A report with another method than [getInfo-rsp], with properties
    and one pack. *)
Definition ex_report_text : pystr :=
  lit "{" ++ quoted "method" ++ lit ":" ++ quoted "report" ++ lit ","
  ++ quoted "properties" ++ lit ":{" ++ quoted "soc" ++ lit ":80},"
  ++ quoted "packData" ++ lit ":[{" ++ quoted "sn" ++ lit ":"
  ++ quoted "A1" ++ lit "," ++ quoted "volt" ++ lit ":1}]}".

Definition ex_report : list (pystr * json Z) :=
  [(lit "method", JStr (lit "report"));
   (lit "properties", JObj [(lit "soc", JInt 80)]);
   (lit "packData",
    JArr [JObj [(lit "sn", JStr (lit "A1")); (lit "volt", JInt 1)]])].

(* ===================================================================== *)
(** * Proof automation *)
(* ===================================================================== *)

Ltac pres_done :=
  cbv beta iota;
  split; [discriminate | intros ? ? Heq; try discriminate Heq].



(* ===================================================================== *)
(** * Properties *)
(* ===================================================================== *)

(* --------------------------------------------------------------------- *)
(** ** Strings *)

Lemma pystr_eqb_refl (a : pystr) : pystr_eqb a a = true.
Proof.
  induction a as [|x a IH]; simpl; [reflexivity|].
  now rewrite N.eqb_refl, IH.
Qed.

Lemma pystr_eqb_eq (a b : pystr) : pystr_eqb a b = true <-> a = b.
Proof.
  split.
  - revert b. induction a as [|x a IH]; intros [|y b]; simpl; try discriminate;
      [reflexivity|].
    intros H. apply andb_true_iff in H. destruct H as [Hx Hab].
    apply N.eqb_eq in Hx. subst y. f_equal. now apply IH.
  - intros ->. apply pystr_eqb_refl.
Qed.

Lemma pystr_eqb_neq (a b : pystr) : pystr_eqb a b = false <-> a <> b.
Proof.
  split.
  - intros H Heq. subst b. rewrite pystr_eqb_refl in H. discriminate.
  - intros H. destruct (pystr_eqb a b) eqn:Hab; [|reflexivity].
    apply pystr_eqb_eq in Hab. contradiction.
Qed.

Lemma dict_get_not_in {V : Type} (d : list (pystr * V)) (k : pystr) :
  ~ In k (map fst d) -> dict_get d k = None.
Proof.
  unfold dict_get. induction d as [|[k' v] d IH]; simpl; intros Hn;
    [reflexivity|].
  destruct (pystr_eqb k' k) eqn:Hk.
  - apply pystr_eqb_eq in Hk. subst. exfalso. apply Hn. now left.
  - apply IH. intros Hin. apply Hn. now right.
Qed.

(* --------------------------------------------------------------------- *)
(** ** The profile table *)

(** C8: for each of the five supported product ids [product_class]
    returns the prefix of the table, for every product id that is not a
    key of the table it returns the generic prefix ["zen"], and it always
    returns one of these six prefixes (it is a total function: the
    lookup with a default cannot fail). *)
Theorem product_class_resolves :
  product_class (lit "73bkTV") = lit "zenp" /\
  product_class (lit "A8yh63") = lit "zenh" /\
  product_class (lit "yWF7hV") = lit "zenr" /\
  product_class (lit "ja72U0ha") = lit "zene" /\
  product_class (lit "8bM93H") = lit "zenf" /\
  (forall pid, ~ In pid (map fst product_map) -> product_class pid = lit "zen") /\
  (forall pid, In (product_class pid) (lit "zen" :: map snd product_map)).
Proof.
  repeat (split; [reflexivity|]).
  split.
  - intros pid Hn. unfold product_class. now rewrite dict_get_not_in.
  - intros pid. unfold product_class, dict_get, product_map.
    cbn [find fst snd option_map].
    repeat match goal with
           | |- context [pystr_eqb ?a pid] => destruct (pystr_eqb a pid)
           end; cbn; auto 10.
Qed.

Lemma product_class_resolves_witness :
  product_class (lit "unknown") = lit "zen".
Proof.
  apply (proj1 (proj2 (proj2 (proj2 (proj2 (proj2 product_class_resolves)))))).
  cbn. intros H.
  repeat (destruct H as [H|H]; [discriminate H|]). exact H.
Defined.

(* --------------------------------------------------------------------- *)
(** ** Mode selection *)

(** C10, as amended: the info-only branch is selected only when the info
    flag is set and no broker is configured; with the info flag and a
    broker it is never selected, and the continuous polling branch runs
    unless one of the two cloud-toggle branches, which are tested first,
    is taken. *)
Theorem info_only_needs_no_broker :
  forall (fin : Type) (float_repr : fin -> pystr) (E : env fin) (G : globals)
         broker port info_only connect disconnect ssid,
    let m := select_mode G broker port info_only connect disconnect ssid in
    (m = InfoOnlyModeSel -> info_only = true /\ broker = None) /\
    (info_only = true -> broker <> None ->
       m <> InfoOnlyModeSel /\
       ((disconnect && opt_str_truthy broker && port_truthy port
         && opt_str_truthy ssid && opt_str_truthy (SF_DEVICE_ID G))%bool = false ->
        (connect && opt_str_truthy ssid)%bool = false ->
        m = ContinuousModeSel /\
        forall n,
          session float_repr E G broker port info_only connect disconnect ssid n
          = (log DEBUG Services ;;
             log INFO (ContinuousMode (GLOBAL_INFO_POLLING_INTERVAL G)) ;;
             set_getinfo true ;;
             poll_loop float_repr E G n)%py)).
Proof.
  intros fin float_repr E G broker port info_only connect disconnect ssid m.
  split.
  - subst m. unfold select_mode.
    destruct (disconnect && opt_str_truthy broker && port_truthy port
              && opt_str_truthy ssid && opt_str_truthy (SF_DEVICE_ID G))%bool;
      [discriminate|].
    destruct (connect && opt_str_truthy ssid)%bool; [discriminate|].
    destruct info_only; [|discriminate].
    destruct broker; [discriminate|]. auto.
  - intros Hi Hb. subst info_only.
    destruct broker as [b|]; [|congruence].
    split.
    + subst m. unfold select_mode.
      destruct (disconnect && opt_str_truthy (Some b) && port_truthy port
                && opt_str_truthy ssid && opt_str_truthy (SF_DEVICE_ID G))%bool;
        [discriminate|].
      destruct (connect && opt_str_truthy ssid)%bool; discriminate.
    + intros Hd Hc.
      assert (Hm : m = ContinuousModeSel).
      { subst m. unfold select_mode. rewrite Hd, Hc. reflexivity. }
      split; [exact Hm|].
      intros n. unfold session. fold m. rewrite Hm. reflexivity.
Qed.

Lemma info_only_needs_no_broker_witness :
  select_mode ex_globals (Some (lit "192.168.1.100")) (Some 1883%Z)
              true false false None = ContinuousModeSel.
Proof.
  apply (proj2 (info_only_needs_no_broker Z ex_float_repr ex_env ex_globals
                  (Some (lit "192.168.1.100")) (Some 1883%Z)
                  true false false None));
    [reflexivity | discriminate | reflexivity | reflexivity].
Defined.

(** C10, the claim as stated fails: [-i -d -w home -b 192.168.1.100:1883]
    sets the info flag and a broker, and [run] takes the disconnect
    branch: it returns, and never subscribes nor polls. *)
Lemma info_with_broker_counterexample :
  let f := main_flags ex_info_and_disconnect in
  cli_info_only f = true /\
  cli_broker f = Some (lit "192.168.1.100") /\
  select_mode ex_globals (cli_broker f) (cli_port f) (cli_info_only f)
              (cli_connect f) (cli_disconnect f) (cli_ssid f)
  <> ContinuousModeSel /\
  fst (main ex_float_repr ex_env ex_globals ex_info_and_disconnect 3
            (start false)) = Ret tt /\
  subscriptions (trace (snd (main ex_float_repr ex_env ex_globals
                                  ex_info_and_disconnect 3 (start false)))) = 0.
Proof.
  cbv zeta. repeat split; try (vm_compute; reflexivity).
  vm_compute. discriminate.
Qed.

(* --------------------------------------------------------------------- *)
(** ** The monad: how the primitive actions run *)

Lemma advance_advance {fin : Type} (w : world fin) evs1 k1 evs2 k2 :
  advance (advance w evs1 k1) evs2 k2 = advance w (evs1 ++ evs2) (k2 + k1).
Proof.
  unfold advance; simpl. now rewrite app_assoc, Nat.add_assoc.
Qed.

Lemma advance_nil {fin : Type} (w : world fin) : advance w [] 0 = w.
Proof.
  unfold advance. rewrite app_nil_r. now destruct w.
Qed.

Lemma log_run {fin : Type} lv m (w : world fin) :
  log lv m w = (Ret tt, advance w [Log lv m] 0).
Proof. reflexivity. Qed.

Lemma emit_run {fin : Type} e (w : world fin) :
  emit e w = (Ret tt, advance w [e] 0).
Proof. reflexivity. Qed.

Lemma await_run {fin : Type} (E : env fin) op (w : world fin) :
  await E op w =
  (match io_outcome E (steps w) with None => Ret tt | Some e => Raise e end,
   advance w [Io op (io_outcome E (steps w))] 1).
Proof.
  unfold await, advance. now destruct (io_outcome E (steps w)).
Qed.

Lemma sleep_run {fin : Type} (E : env fin) s (w : world fin) :
  io_outcome E (steps w) <> Some CancelledError ->
  sleep E s w = (Ret tt, advance w [Io (Sleep s) None] 1).
Proof.
  intros H. unfold sleep, advance.
  destruct (io_outcome E (steps w)) as [[]|]; try reflexivity.
  congruence.
Qed.

Lemma for_each_emit {fin A : Type} (xs : list A) (f : A -> event fin)
      (w : world fin) :
  for_each xs (fun x => emit (f x)) w = (Ret tt, advance w (map f xs) 0).
Proof.
  revert w. induction xs as [|x xs IH]; intros w; simpl.
  - unfold ret. now rewrite advance_nil.
  - unfold bind. rewrite emit_run, IH, advance_advance. reflexivity.
Qed.

(** One step of a sequence whose first action returns. *)
Lemma bind_ret_run {fin A B : Type} (m : M fin A) (k : A -> M fin B) w a w' :
  m w = (Ret a, w') -> bind m k w = k a w'.
Proof. intros H. unfold bind. now rewrite H. Qed.

Lemma bind_raise_run {fin A B : Type} (m : M fin A) (k : A -> M fin B) w e w' :
  m w = (Raise e, w') -> bind m k w = (Raise e, w').
Proof. intros H. unfold bind. now rewrite H. Qed.

(* --------------------------------------------------------------------- *)
(** ** Device discovery *)

Lemma find_alternative_result {fin : Type} prefix devs (w : world fin) :
  fst (find_alternative prefix devs w) = Ret (find (name_matches prefix) devs).
Proof.
  unfold find_alternative.
  destruct (find (name_matches prefix) devs); [|reflexivity].
  unfold bind. now rewrite log_run.
Qed.

(** What [discover_device] returns once the initial scan has completed:
    the match of the filtered scan if it has one, otherwise the first
    match in the list of the initial scan. *)
Lemma discover_device_result {fin : Type} (E : env fin) (G : globals)
      (w : world fin) :
  io_outcome E (steps w) = None ->
  (forall e, io_outcome E (S (steps w)) = Some e -> is_Exception e = true) ->
  fst (discover_device E G w) =
  Ret (match (match io_outcome E (S (steps w)) with
              | None => find (name_matches (product_class (SF_PRODUCT_ID G)))
                             (filter_stream E)
              | Some _ => None
              end) with
       | Some d => Some d
       | None => find (name_matches (product_class (SF_PRODUCT_ID G)))
                      (all_advertisers E)
       end).
Proof.
  intros H1 H2. unfold discover_device.
  set (prefix := product_class (SF_PRODUCT_ID G)).
  rewrite (bind_ret_run _ _ _ _ _ (log_run _ _ _)).
  rewrite (bind_ret_run _ _ _ _ _ (log_run _ _ _)).
  unfold bind at 1. rewrite await_run. simpl steps. rewrite H1.
  set (w1 := advance (advance (advance w _ 0) _ 0) _ 1).
  assert (Hs : steps w1 = S (steps w)) by reflexivity.
  assert (Hlogs : exists w2,
             (match all_advertisers E with
              | [] => log WARNING NoDevicesAtAll
              | _ :: _ =>
                  (log DEBUG (FoundDevices (List.length (all_advertisers E))) ;;
                   for_each
                     (combine (seq 1 (List.length (all_advertisers E)))
                              (all_advertisers E))
                     (fun id => log DEBUG (DeviceSeen (fst id) (snd id))))%py
              end) w1 = (Ret tt, w2) /\ steps w2 = S (steps w)).
  { destruct (all_advertisers E) as [|d0 ds].
    - rewrite log_run. eexists; split; reflexivity.
    - unfold bind. rewrite log_run. unfold log.
      rewrite for_each_emit. eexists; split; reflexivity. }
  destruct Hlogs as (w2 & Hw2 & Hs2).
  rewrite (bind_ret_run _ _ _ _ _ Hw2).
  unfold bind at 1, try_except.
  rewrite (bind_ret_run _ _ _ _ _ (log_run _ _ _)).
  unfold find_device_by_filter, bind at 1. rewrite await_run. simpl steps.
  rewrite Hs2.
  destruct (io_outcome E (S (steps w))) as [e|] eqn:Ho.
  - rewrite (H2 e eq_refl).
    rewrite (bind_ret_run _ _ _ _ _ (log_run _ _ _)). unfold ret.
    rewrite (bind_ret_run _ _ _ _ _ (log_run _ _ _)).
    apply find_alternative_result.
  - unfold ret.
    destruct (find (name_matches prefix) (filter_stream E)); [reflexivity|].
    rewrite (bind_ret_run _ _ _ _ _ (log_run _ _ _)).
    apply find_alternative_result.
Qed.

Lemma find_unique {A : Type} (f : A -> bool) (l : list A) (d : A) :
  In d l -> f d = true ->
  (forall x, In x l -> f x = true -> x = d) ->
  find f l = Some d.
Proof.
  intros Hin Hf Hu.
  destruct (find f l) as [x|] eqn:Hfind.
  - apply find_some in Hfind. destruct Hfind as [Hx Hfx].
    f_equal. now apply Hu.
  - eapply find_none in Hfind; [|exact Hin]. congruence.
Qed.

(** C4, as amended: [discover_device] tries the filtered scan first and,
    if it raised or matched nothing, goes through the list of the initial
    scan with the same predicate (case-insensitive name prefix); it
    returns the first match of the strategy that found one, and [None] if
    neither did.  Hence, when an entry named ["ZenE-1234"] is the only
    entry that matches prefix ["zene"] among the advertisers of either
    scan, [discover_device] returns that entry whichever strategy finds
    it. *)
Theorem discover_device_two_strategies :
  forall (fin : Type) (E : env fin) (G : globals) (w : world fin),
    let matches := name_matches (product_class (SF_PRODUCT_ID G)) in
    let primary :=
      match io_outcome E (S (steps w)) with
      | None => find matches (filter_stream E)
      | Some _ => None
      end in
    io_outcome E (steps w) = None ->
    (forall e, io_outcome E (S (steps w)) = Some e -> is_Exception e = true) ->
    fst (discover_device E G w) =
      Ret (match primary with
           | Some d => Some d
           | None => find matches (all_advertisers E)
           end) /\
    (fst (discover_device E G w) = Ret None <->
       primary = None /\ find matches (all_advertisers E) = None) /\
    (forall d,
        name d = Some (lit "ZenE-1234") ->
        product_class (SF_PRODUCT_ID G) = lit "zene" ->
        In d (all_advertisers E) ->
        (forall d', In d' (all_advertisers E ++ filter_stream E) ->
                    matches d' = true -> d' = d) ->
        fst (discover_device E G w) = Ret (Some d)).
Proof.
  intros fin E G w matches primary H1 H2.
  pose proof (discover_device_result E G w H1 H2) as Hr.
  fold matches in Hr. fold primary in Hr.
  split; [exact Hr|]. split.
  - rewrite Hr. split.
    + intros H. destruct primary; [discriminate|].
      split; [reflexivity|]. congruence.
    + intros [Hp Hf]. rewrite Hp, Hf. reflexivity.
  - intros d Hname Hprefix Hin Huniq.
    rewrite Hr.
    assert (Hm : matches d = true).
    { unfold matches, name_matches. rewrite Hname, Hprefix. reflexivity. }
    assert (Hall : find matches (all_advertisers E) = Some d).
    { apply find_unique; auto.
      intros x Hx. apply Huniq. apply in_or_app. now left. }
    destruct primary as [p|] eqn:Hp; [|now rewrite Hall].
    unfold primary in Hp.
    destruct (io_outcome E (S (steps w))); [discriminate|].
    apply find_some in Hp. destruct Hp as [Hpin Hpm].
    do 2 f_equal. apply Huniq; [|exact Hpm].
    apply in_or_app. now right.
Qed.

Lemma discover_device_two_strategies_witness :
  fst (discover_device ex_env ex_globals (start false)) = Ret (Some hub).
Proof.
  apply (proj2 (proj2 (discover_device_two_strategies
                         Z ex_env ex_globals (start false)
                         eq_refl
                         (fun e (H : None = Some e) =>
                            match H in (_ = o)
                                  return (match o with
                                          | Some x => is_Exception x = true
                                          | None => True
                                          end)
                            with eq_refl => I end)))).
  - reflexivity.
  - reflexivity.
  - simpl. now left.
  - simpl. intros d' [H|[]] _. now symmetry.
Defined.

(** C4, the claim as stated fails: the list of the initial scan holds an
    entry named ["ZenE-1234"], the product id resolves to ["zene"], and
    [discover_device] returns another entry, the first one that matches
    the prefix. *)
Lemma discover_device_counterexample :
  In hub (all_advertisers ex_env_two_hubs) /\
  name hub = Some (lit "ZenE-1234") /\
  product_class (SF_PRODUCT_ID ex_globals) = lit "zene" /\
  fst (discover_device ex_env_two_hubs ex_globals (start false))
  = Ret (Some other_hub) /\
  other_hub <> hub.
Proof.
  repeat split; try (vm_compute; reflexivity).
  - simpl. right. now left.
  - discriminate.
Qed.

(* --------------------------------------------------------------------- *)
(** ** Commands are ASCII text *)

Lemma ascii_text_app (a b : pystr) :
  ascii_text a -> ascii_text b -> ascii_text (a ++ b).
Proof. intros Ha Hb. apply Forall_app. now split. Qed.

Lemma ascii_text_lit_check (s : pystr) :
  forallb (fun c => N.ltb c 128) s = true -> ascii_text s.
Proof.
  intros H. apply Forall_forall. intros c Hc.
  rewrite forallb_forall in H. apply N.ltb_lt. now apply H.
Qed.

Lemma bytes_of_ords_latin1 (s : pystr) :
  Forall (fun c => (c < 256)%N) s -> bytes_of_ords s = Ret (latin1 s).
Proof.
  induction 1 as [|c s Hc Hs IH]; simpl; [reflexivity|].
  destruct (Byte.of_N c) eqn:Hb.
  - now rewrite IH.
  - apply Byte.of_N_None_iff in Hb. lia.
Qed.

Lemma bytes_of_ords_ascii (s : pystr) :
  ascii_text s -> bytes_of_ords s = Ret (latin1 s).
Proof.
  intros H. apply bytes_of_ords_latin1.
  eapply Forall_impl; [|exact H]. simpl. intros; lia.
Qed.

Lemma to_N_latin1 (s : pystr) :
  Forall (fun c => (c < 256)%N) s -> map Byte.to_N (latin1 s) = s.
Proof.
  induction 1 as [|c s Hc Hs IH]; simpl; [reflexivity|].
  rewrite IH. f_equal.
  destruct (Byte.of_N c) eqn:Hb.
  - now apply Byte.to_of_N.
  - apply Byte.of_N_None_iff in Hb. lia.
Qed.

Lemma utf8_decode_ascii (s : pystr) :
  ascii_text s -> utf8_decode_N s = Some s.
Proof.
  induction 1 as [|c s Hc Hs IH]; [reflexivity|].
  cbn [utf8_decode_N].
  apply N.ltb_lt in Hc. rewrite Hc, IH. reflexivity.
Qed.

Lemma decode_utf8_ascii (s : pystr) :
  ascii_text s -> decode_utf8 (latin1 s) = Ret s.
Proof.
  intros H. unfold decode_utf8. rewrite to_N_latin1.
  - now rewrite utf8_decode_ascii.
  - eapply Forall_impl; [|exact H]. simpl. intros; lia.
Qed.

Lemma escape_cp_plain (c : N) : plain_cp c -> escape_cp c = [c].
Proof.
  intros H. unfold escape_cp, in_range.
  destruct (N.eqb_spec c 34); [unfold plain_cp in H; lia|].
  destruct (N.eqb_spec c 92); [unfold plain_cp in H; lia|].
  destruct (N.eqb_spec c 10); [unfold plain_cp in H; lia|].
  destruct (N.eqb_spec c 13); [unfold plain_cp in H; lia|].
  destruct (N.eqb_spec c 9); [unfold plain_cp in H; lia|].
  destruct (N.eqb_spec c 8); [unfold plain_cp in H; lia|].
  destruct (N.eqb_spec c 12); [unfold plain_cp in H; lia|].
  destruct (N.leb_spec 32 c); [|unfold plain_cp in H; lia].
  destruct (N.leb_spec c 126); [|unfold plain_cp in H; lia].
  reflexivity.
Qed.

Lemma flat_map_escape_plain (s : pystr) :
  Forall plain_cp s -> flat_map escape_cp s = s.
Proof.
  induction 1 as [|c s Hc Hs IH]; simpl; [reflexivity|].
  now rewrite escape_cp_plain, IH.
Qed.

Lemma digits_of_uint_plain (d : Decimal.uint) : Forall plain_cp (digits_of_uint d).
Proof.
  induction d; simpl; constructor; auto; unfold plain_cp; lia.
Qed.

Lemma str_of_Z_plain (z : Z) : Forall plain_cp (str_of_Z z).
Proof.
  unfold str_of_Z. destruct (Z.to_int z).
  - apply digits_of_uint_plain.
  - constructor; [unfold plain_cp; lia | apply digits_of_uint_plain].
Qed.

Lemma plain_ascii (s : pystr) : Forall plain_cp s -> ascii_text s.
Proof.
  intros H. eapply Forall_impl; [|exact H].
  unfold plain_cp. simpl. intros; lia.
Qed.

Lemma encode_str_of_Z (z : Z) :
  encode_basestring_ascii (str_of_Z z) = 34%N :: str_of_Z z ++ [34%N].
Proof.
  unfold encode_basestring_ascii.
  now rewrite flat_map_escape_plain by apply str_of_Z_plain.
Qed.

Lemma info_cmd_text {fin : Type} (fr : fin -> pystr) (t : Z) :
  json_dumps fr (info_cmd t) = getInfo_text t.
Proof.
  unfold info_cmd, getInfo_text.
  cbn [json_dumps map join fst snd].
  rewrite encode_str_of_Z.
  unfold quoted, encode_basestring_ascii.
  cbn -[str_of_Z].
  repeat (rewrite <- app_assoc; cbn -[str_of_Z]).
  reflexivity.
Qed.

Lemma properties_cmd_text {fin : Type} (fr : fin -> pystr) (t : Z) :
  json_dumps fr (properties_cmd t) = getAll_text t.
Proof.
  unfold properties_cmd, getAll_text.
  cbn [json_dumps map join fst snd].
  rewrite encode_str_of_Z.
  unfold quoted, encode_basestring_ascii.
  cbn -[str_of_Z].
  repeat (rewrite <- app_assoc; cbn -[str_of_Z]).
  reflexivity.
Qed.

Lemma getInfo_text_ascii (t : Z) : ascii_text (getInfo_text t).
Proof.
  unfold getInfo_text.
  repeat first
    [ apply ascii_text_app
    | apply plain_ascii, str_of_Z_plain
    | apply ascii_text_lit_check; reflexivity
    | apply Forall_cons; [reflexivity|] ].
Qed.

Lemma getAll_text_ascii (t : Z) : ascii_text (getAll_text t).
Proof.
  unfold getAll_text.
  repeat first
    [ apply ascii_text_app
    | apply plain_ascii, str_of_Z_plain
    | apply ascii_text_lit_check; reflexivity
    | apply Forall_cons; [reflexivity|] ].
Qed.

(* --------------------------------------------------------------------- *)
(** ** [getInfo] *)

Lemma skipn_length_app {A : Type} (l r : list A) :
  skipn (List.length l) (l ++ r) = r.
Proof. induction l; simpl; auto. Qed.

Lemma events_of_advance {fin A : Type} (m : M fin A) (w : world fin) r evs k :
  m w = (r, advance w evs k) -> events_of m w = evs.
Proof.
  intros H. unfold events_of. rewrite H. simpl. apply skipn_length_app.
Qed.

(** A guarded write: [try: log; b = ...; await write  except Exception:
    log the error]. *)
Lemma attempt_run {fin : Type} (E : env fin) lv before text b failed
      (w : world fin) :
  bytes_of_ords text = Ret b ->
  try_except (log lv before ;; write_command E text)%py
             (fun e => log ERROR (failed e)) w
  = (match io_outcome E (steps w) with
     | None => Ret tt
     | Some e => if is_Exception e then Ret tt else Raise e
     end,
     advance w
       (Log lv before :: Io (WriteGatt b) (io_outcome E (steps w)) ::
        match io_outcome E (steps w) with
        | Some e => if is_Exception e then [Log ERROR (failed e)] else []
        | None => []
        end) 1).
Proof.
  intros Hb. unfold try_except, write_command, bind, liftR.
  rewrite log_run, Hb, await_run. cbn [steps advance plus].
  destruct (io_outcome E (steps w)) as [e|].
  - destruct (is_Exception e).
    + rewrite log_run, !advance_advance. reflexivity.
    + rewrite advance_advance. reflexivity.
  - rewrite advance_advance. reflexivity.
Qed.

(** [getInfo] when neither write is cancelled: both commands are
    attempted, a failure of either is logged, and [getInfo] returns. *)
Lemma getInfo_run {fin : Type} (fr : fin -> pystr) (E : env fin)
      (w : world fin) :
  never_cancelled E ->
  getInfo fr E w =
  (Ret tt,
   advance w
     (attempt (Log DEBUG SendingGetInfo)
              (latin1 (getInfo_text (now E (steps w))))
              (io_outcome E (steps w)) GetInfoFailed
      ++ attempt (Log DEBUG SendingGetAll)
                 (latin1 (getAll_text (now E (steps w))))
                 (io_outcome E (S (steps w))) GetPropertiesFailed) 2).
Proof.
  intros Hc. unfold getInfo, time_time.
  unfold bind at 1. unfold bind at 1.
  rewrite (attempt_run E DEBUG SendingGetInfo _
             (latin1 (getInfo_text (now E (steps w)))) GetInfoFailed w)
    by (rewrite info_cmd_text; apply bytes_of_ords_ascii, getInfo_text_ascii).
  set (w1 := advance w _ 1).
  assert (Hr : (match io_outcome E (steps w) with
                | None => Ret tt
                | Some e => if is_Exception e then Ret tt else Raise e
                end) = (Ret tt : result unit)).
  { destruct (io_outcome E (steps w)) as [e|] eqn:Ho; [|reflexivity].
    now rewrite (Hc _ _ Ho). }
  rewrite Hr.
  rewrite (attempt_run E DEBUG SendingGetAll _
             (latin1 (getAll_text (now E (steps w)))) GetPropertiesFailed w1)
    by (rewrite properties_cmd_text;
        apply bytes_of_ords_ascii, getAll_text_ascii).
  change (steps w1) with (S (steps w)).
  assert (Hr2 : (match io_outcome E (S (steps w)) with
                 | None => Ret tt
                 | Some e => if is_Exception e then Ret tt else Raise e
                 end) = (Ret tt : result unit)).
  { destruct (io_outcome E (S (steps w))) as [e|] eqn:Ho; [|reflexivity].
    now rewrite (Hc _ _ Ho). }
  rewrite Hr2. unfold w1. rewrite advance_advance. f_equal. f_equal.
  unfold attempt.
  destruct (io_outcome E (steps w)) as [e|] eqn:Ho1;
    destruct (io_outcome E (S (steps w))) as [e'|] eqn:Ho2;
    rewrite ?(Hc _ _ Ho1), ?(Hc _ _ Ho2); reflexivity.
Qed.

(** The first command [getInfo] writes, whatever happens to the write. *)
Lemma getInfo_first_command {fin : Type} (fr : fin -> pystr) (E : env fin)
      (w : world fin) :
  hd_error (commands_written (events_of (getInfo fr E) w))
  = Some (latin1 (getInfo_text (now E (steps w)))).
Proof.
  unfold events_of, getInfo, time_time.
  unfold bind at 1. unfold bind at 1.
  rewrite (attempt_run E DEBUG SendingGetInfo _
             (latin1 (getInfo_text (now E (steps w)))) GetInfoFailed w)
    by (rewrite info_cmd_text; apply bytes_of_ords_ascii, getInfo_text_ascii).
  set (w1 := advance w _ 1).
  assert (Hgo : forall (r : result unit * world fin),
             (exists evs, trace (snd r) = trace w1 ++ evs) ->
             hd_error (commands_written
                         (skipn (List.length (trace w)) (trace (snd r))))
             = Some (latin1 (getInfo_text (now E (steps w))))).
  { intros r [evs Hevs]. rewrite Hevs. unfold w1. cbn [advance trace].
    rewrite <- app_assoc, skipn_length_app. reflexivity. }
  destruct (io_outcome E (steps w)) as [e|] eqn:Ho.
  - destruct (is_Exception e).
    + rewrite (attempt_run E DEBUG SendingGetAll _
                 (latin1 (getAll_text (now E (steps w))))
                 GetPropertiesFailed w1)
        by (rewrite properties_cmd_text;
            apply bytes_of_ords_ascii, getAll_text_ascii).
      apply Hgo. eexists. reflexivity.
    + apply Hgo. exists []. now rewrite app_nil_r.
  - rewrite (attempt_run E DEBUG SendingGetAll _
               (latin1 (getAll_text (now E (steps w))))
               GetPropertiesFailed w1)
      by (rewrite properties_cmd_text;
          apply bytes_of_ords_ascii, getAll_text_ascii).
    apply Hgo. eexists. reflexivity.
Qed.

(** C9: the GetInfo command is the JSON object with the three fields
    [messageId], [method] and [timestamp] in this order and with the
    separators of [json.dumps], the time stamp being the decimal text of
    the clock reading in seconds; the bytes written are the UTF-8 (ASCII)
    encoding of that text; and the bytes depend on nothing but the clock
    reading: two calls of [getInfo] at the same instant write the same
    bytes, whatever the surroundings, the state and the float type. *)
Theorem getInfo_encoding_deterministic :
  forall (fin fin' : Type) (fr : fin -> pystr) (fr' : fin' -> pystr)
         (E : env fin) (E' : env fin') (w : world fin) (w' : world fin')
         (t : Z),
    json_dumps fr (info_cmd t) = getInfo_text t /\
    bytes_of_ords (json_dumps fr (info_cmd t)) = Ret (latin1 (getInfo_text t)) /\
    decode_utf8 (latin1 (getInfo_text t)) = Ret (getInfo_text t) /\
    hd_error (commands_written (events_of (getInfo fr E) w))
    = Some (latin1 (getInfo_text (now E (steps w)))) /\
    (now E (steps w) = now E' (steps w') ->
     hd_error (commands_written (events_of (getInfo fr E) w))
     = hd_error (commands_written (events_of (getInfo fr' E') w'))).
Proof.
  intros. split; [apply info_cmd_text|].
  split; [rewrite info_cmd_text; apply bytes_of_ords_ascii, getInfo_text_ascii|].
  split; [apply decode_utf8_ascii, getInfo_text_ascii|].
  split; [apply getInfo_first_command|].
  intros Ht. rewrite !getInfo_first_command, Ht. reflexivity.
Qed.

Lemma getInfo_encoding_deterministic_witness :
  hd_error (commands_written (events_of (getInfo ex_float_repr ex_env)
                                        (start false)))
  = hd_error (commands_written
                (events_of (getInfo ex_float_repr (ex_env_fault 0))
                           (start true))).
Proof.
  apply (getInfo_encoding_deterministic
           Z Z ex_float_repr ex_float_repr ex_env (ex_env_fault 0)
           (start false) (start true) 0%Z).
  reflexivity.
Defined.

(* --------------------------------------------------------------------- *)
(** ** The polling loop *)



Lemma subscriptions_app {fin : Type} (a b : list (event fin)) :
  subscriptions (a ++ b) = subscriptions a + subscriptions b.
Proof. unfold subscriptions. now rewrite filter_app, length_app. Qed.


Lemma world_eta {fin : Type} (w : world fin) (t : list (event fin)) (s : nat)
      (g : bool) :
  g = getinfo w ->
  {| trace := t; steps := s; mq_client := mq_client w; getinfo := g |}
  = {| trace := t; steps := s; mq_client := mq_client w;
       getinfo := getinfo w |}.
Proof. now intros ->. Qed.




Lemma poll_try_run {fin : Type} (fr : fin -> pystr) (E : env fin)
      (G : globals) (w : world fin) :
  never_cancelled E ->
  getinfo w = true ->
  poll_try fr E G w =
  match io_outcome E (steps w) with
  | Some e => (Raise e, advance w [Io StartNotify (Some e)] 1)
  | None =>
      (Ret tt,
       advance w
         (Io StartNotify None ::
          (attempt (Log DEBUG SendingGetInfo)
                   (latin1 (getInfo_text (now E (S (steps w)))))
                   (io_outcome E (S (steps w))) GetInfoFailed
           ++ attempt (Log DEBUG SendingGetAll)
                      (latin1 (getAll_text (now E (S (steps w)))))
                      (io_outcome E (S (S (steps w)))) GetPropertiesFailed)
          ++ [Io (Sleep (GLOBAL_INFO_POLLING_INTERVAL G)) None]) 4)
  end.
Proof.
  intros Hc Hg. unfold poll_try.
  unfold bind at 1. rewrite await_run.
  destruct (io_outcome E (steps w)) as [e|] eqn:Ho; [reflexivity|].
  unfold bind at 1. unfold get_getinfo.
  cbn [getinfo advance]. rewrite Hg. unfold when.
  unfold bind at 1. unfold bind at 1.
  rewrite (getInfo_run fr E _ Hc). unfold set_getinfo.
  unfold bind. rewrite sleep_run
    by (intros Hx; apply Hc in Hx; discriminate).
  cbn [steps advance trace mq_client getinfo plus].
  f_equal. unfold advance. cbn [trace steps mq_client getinfo plus].
  rewrite Hg. f_equal.
  rewrite <- !app_assoc. reflexivity.
Qed.

(** A turn in which [start_notify] raises: the exception is logged, the
    back-off sleep follows, and the turn returns. *)
Lemma poll_iteration_fault {fin : Type} (fr : fin -> pystr) (E : env fin)
      (G : globals) (w : world fin) (e : exn) :
  never_cancelled E ->
  io_outcome E (steps w) = Some e ->
  poll_iteration fr E G w = (Ret tt, advance w (failed_turn e) 2).
Proof.
  intros Hc Ho. unfold poll_iteration, try_except, poll_try.
  unfold bind at 1. rewrite await_run, Ho, (Hc _ _ Ho).
  unfold bind. rewrite log_run, sleep_run
    by (intros Hx; apply Hc in Hx; discriminate).
  rewrite !advance_advance. reflexivity.
Qed.



Lemma ex_env_fault_never_cancelled (k : nat) : never_cancelled (ex_env_fault k).
Proof.
  intros i e. unfold ex_env_fault. simpl.
  destruct (Nat.eqb i k); intros H; inversion H. reflexivity.
Defined.


Lemma never_fails_never_cancelled {fin : Type} (E : env fin) :
  never_fails E -> never_cancelled E.
Proof. intros H k e Hk. rewrite H in Hk. discriminate. Qed.

Lemma poll_loop_turns {fin : Type} (fr : fin -> pystr) (E : env fin)
      (G : globals) (n : nat) :
  never_fails E ->
  forall w : world fin,
    getinfo w = true ->
    poll_loop fr E G n w
    = (Running, advance w (turns E G n (steps w)) (4 * n)).
Proof.
  intros Hf. induction n as [|n IH]; intros w Hg.
  - cbn [poll_loop turns]. now rewrite advance_nil.
  - cbn [poll_loop]. unfold bind, poll_iteration, try_except.
    rewrite (poll_try_run fr E G w (never_fails_never_cancelled E Hf) Hg).
    rewrite !Hf.
    rewrite IH by exact Hg.
    rewrite advance_advance. cbn [steps advance turns].
    f_equal. f_equal. lia.
Qed.

Lemma subscriptions_turns {fin : Type} (E : env fin) (G : globals) (n s : nat) :
  subscriptions (turns E G n s) = n.
Proof.
  revert s. induction n as [|n IH]; intros s; [reflexivity|].
  cbn [turns]. rewrite subscriptions_app, IH. reflexivity.
Qed.

Lemma commands_written_turns {fin : Type} (E : env fin) (G : globals)
      (n s : nat) :
  List.length (commands_written (turns E G n s)) = 2 * n.
Proof.
  revert s. induction n as [|n IH]; intros s; [reflexivity|].
  cbn [turns]. unfold commands_written in *.
  rewrite flat_map_app, length_app, IH. cbn. lia.
Qed.

Lemma poll_iteration_run {fin : Type} (fr : fin -> pystr) (E : env fin)
      (G : globals) (w : world fin) :
  never_cancelled E ->
  getinfo w = true ->
  poll_iteration fr E G w
  = (Ret tt, advance w (turn_events E G (steps w)) (turn_steps E (steps w))).
Proof.
  intros Hc Hg. unfold turn_events, turn_steps.
  destruct (io_outcome E (steps w)) as [e|] eqn:Ho.
  - now apply poll_iteration_fault.
  - unfold poll_iteration, try_except.
    rewrite (poll_try_run fr E G w Hc Hg), Ho. reflexivity.
Qed.

Lemma poll_loop_run {fin : Type} (fr : fin -> pystr) (E : env fin)
      (G : globals) (n : nat) :
  never_cancelled E ->
  forall w : world fin,
    getinfo w = true ->
    poll_loop fr E G n w
    = (Running,
       advance w (loop_events E G n (steps w)) (loop_steps E n (steps w))).
Proof.
  intros Hc. induction n as [|n IH]; intros w Hg.
  - cbn [poll_loop loop_events loop_steps]. now rewrite advance_nil.
  - cbn [poll_loop]. unfold bind.
    rewrite (poll_iteration_run fr E G w Hc Hg).
    rewrite IH by exact Hg.
    rewrite advance_advance. reflexivity.
Qed.

Lemma turn_events_head {fin : Type} (E : env fin) (G : globals) (s : nat) :
  hd_error (turn_events E G s) = Some (Io StartNotify (io_outcome E s)).
Proof. unfold turn_events. now destruct (io_outcome E s). Qed.

Lemma turn_events_subscriptions {fin : Type} (E : env fin) (G : globals)
      (s : nat) :
  subscriptions (turn_events E G s) = 1.
Proof.
  unfold turn_events, attempt.
  destruct (io_outcome E s); [reflexivity|].
  destruct (io_outcome E (S s)), (io_outcome E (S (S s))); reflexivity.
Qed.

Lemma turn_events_commands {fin : Type} (E : env fin) (G : globals)
      (s : nat) :
  commands_written (turn_events E G s)
  = match io_outcome E s with
    | Some _ => []
    | None => [latin1 (getInfo_text (now E (S s)));
               latin1 (getAll_text (now E (S s)))]
    end.
Proof.
  unfold turn_events, attempt.
  destruct (io_outcome E s); [reflexivity|].
  destruct (io_outcome E (S s)), (io_outcome E (S (S s))); reflexivity.
Qed.

Lemma loop_events_subscriptions {fin : Type} (E : env fin) (G : globals)
      (n s : nat) :
  subscriptions (loop_events E G n s) = n.
Proof.
  revert s. induction n as [|n IH]; intros s; [reflexivity|].
  cbn [loop_events].
  now rewrite subscriptions_app, turn_events_subscriptions, IH.
Qed.

Lemma loop_events_commands {fin : Type} (E : env fin) (G : globals)
      (n s : nat) :
  List.length (commands_written (loop_events E G n s))
  = 2 * subscribed_turns E n s.
Proof.
  revert s. induction n as [|n IH]; intros s; [reflexivity|].
  cbn [loop_events subscribed_turns]. unfold commands_written in *.
  rewrite flat_map_app, length_app, IH.
  fold (commands_written (turn_events E G s)).
  rewrite turn_events_commands.
  destruct (io_outcome E s); cbn [List.length]; lia.
Qed.

Lemma loop_events_never_fails {fin : Type} (E : env fin) (G : globals)
      (n s : nat) :
  never_fails E ->
  loop_events E G n s = turns E G n s /\ subscribed_turns E n s = n.
Proof.
  intros Hf. revert s. induction n as [|n IH]; intros s; [now split|].
  cbn [loop_events subscribed_turns turns].
  unfold turn_events, turn_steps, attempt. rewrite !Hf.
  destruct (IH (4 + s)) as [I1 I2]. rewrite I1, I2. now split.
Qed.

(** C6, as amended: in continuous mode the subscribe operation is inside
    the loop: every turn first calls [start_notify]; a turn in which it
    succeeds then issues the GetInfo + GetAllProperties pair and sleeps
    for the polling interval, a turn in which it raises issues no
    command, logs the error and sleeps 5 seconds.  So, when no awaited
    operation is cancelled, [n] turns hold [n] subscribe operations,
    none of them before the loop, and one command pair for each turn
    whose subscribe operation succeeded; when nothing fails they are
    exactly [n] repetitions of subscribe, GetInfo, GetAllProperties,
    sleep, with [n] command pairs. *)
Theorem continuous_mode_subscribes_every_turn :
  forall (fin : Type) (fr : fin -> pystr) (E : env fin) (G : globals)
         (n : nat) (w : world fin) broker port info_only connect disconnect
         ssid,
    never_cancelled E ->
    select_mode G broker port info_only connect disconnect ssid
    = ContinuousModeSel ->
    let body := session fr E G broker port info_only connect disconnect
                        ssid n in
    let before_loop :=
      [Log DEBUG Services;
       Log INFO (ContinuousMode (GLOBAL_INFO_POLLING_INTERVAL G))] in
    fst (body w) = Running /\
    events_of body w = before_loop ++ loop_events E G n (steps w) /\
    (forall s,
        hd_error (turn_events E G s) = Some (Io StartNotify (io_outcome E s)) /\
        subscriptions (turn_events E G s) = 1 /\
        commands_written (turn_events E G s)
        = match io_outcome E s with
          | Some _ => []
          | None => [latin1 (getInfo_text (now E (S s)));
                     latin1 (getAll_text (now E (S s)))]
          end) /\
    subscriptions (events_of body w) = n /\
    List.length (commands_written (events_of body w))
    = 2 * subscribed_turns E n (steps w) /\
    (never_fails E ->
     events_of body w = before_loop ++ turns E G n (steps w) /\
     List.length (commands_written (events_of body w)) = 2 * n).
Proof.
  intros fin fr E G n w broker port info_only connect disconnect ssid Hc Hm
         body before_loop.
  assert (Hs : body w
               = (Running,
                  advance
                    {| trace := trace w; steps := steps w;
                       mq_client := mq_client w; getinfo := true |}
                    (before_loop ++ loop_events E G n (steps w))
                    (loop_steps E n (steps w)))).
  { unfold body, session. rewrite Hm.
    unfold bind, set_getinfo. rewrite !log_run.
    rewrite poll_loop_run by (exact Hc || reflexivity).
    unfold advance. cbn [trace steps mq_client getinfo plus].
    rewrite <- !app_assoc. reflexivity. }
  assert (He : events_of body w
               = before_loop ++ loop_events E G n (steps w)).
  { unfold events_of. rewrite Hs. cbn [snd trace advance].
    apply skipn_length_app. }
  assert (Hsub : subscriptions (events_of body w) = n).
  { rewrite He, subscriptions_app, loop_events_subscriptions. reflexivity. }
  assert (Hcmd : List.length (commands_written (events_of body w))
                 = 2 * subscribed_turns E n (steps w)).
  { rewrite He. unfold commands_written. rewrite flat_map_app, length_app.
    fold (commands_written (loop_events E G n (steps w))).
    rewrite loop_events_commands. reflexivity. }
  split; [now rewrite Hs|]. split; [exact He|]. split.
  { intros s. split; [apply turn_events_head|].
    split; [apply turn_events_subscriptions|apply turn_events_commands]. }
  split; [exact Hsub|]. split; [exact Hcmd|].
  intros Hf.
  destruct (loop_events_never_fails E G n (steps w) Hf) as [H1 H2].
  split.
  - now rewrite He, H1.
  - now rewrite Hcmd, H2.
Qed.

Lemma ex_env_never_fails : never_fails ex_env.
Proof. intros k. reflexivity. Defined.

Lemma continuous_mode_subscribes_every_turn_witness :
  let t := events_of (session ex_float_repr (ex_env_fault 0) ex_globals
                              None None false false false None 2)
                     (start false) in
  subscriptions t = 2 /\ List.length (commands_written t) = 2.
Proof.
  pose proof (continuous_mode_subscribes_every_turn
                Z ex_float_repr (ex_env_fault 0) ex_globals 2 (start false)
                None None false false false None
                (ex_env_fault_never_cancelled 0) eq_refl) as H.
  cbv zeta in H. destruct H as (_ & _ & _ & Hsub & Hcmd & _).
  cbv zeta. split; [exact Hsub|exact Hcmd].
Defined.

(** C6, the claim as stated fails: two turns of the continuous mode, with
    nothing failing, subscribe twice, and the second subscribe comes after
    the first pair of commands. *)
Lemma subscribe_once_counterexample :
  let t := events_of (session ex_float_repr ex_env ex_globals None None
                              false false false None 2) (start false) in
  select_mode ex_globals None None false false false None = ContinuousModeSel /\
  subscriptions t <> 1 /\
  subscriptions t = 2 /\
  nth_error t 2 = Some (Io StartNotify None) /\
  nth_error t 8 = Some (Io StartNotify None).
Proof.
  cbv zeta. repeat split; try (vm_compute; reflexivity).
  vm_compute. discriminate.
Qed.

(* --------------------------------------------------------------------- *)
(** ** The cloud-toggle mode *)

Lemma hex_digit_ascii (n : N) : (n < 16)%N -> (hex_digit n < 128)%N.
Proof.
  intros H. unfold hex_digit. destruct (N.ltb_spec n 10); lia.
Qed.

Lemma hex4_ascii (n : N) : ascii_text (hex4 n).
Proof.
  unfold hex4.
  repeat (apply Forall_cons;
          [apply hex_digit_ascii, N.mod_lt; discriminate|]).
  constructor.
Qed.

Lemma escape_cp_ascii (c : N) : ascii_text (escape_cp c).
Proof.
  unfold escape_cp.
  repeat match goal with
         | |- context [if ?b then _ else _] => destruct b eqn:?
         end;
    try (apply ascii_text_lit_check; reflexivity).
  - apply Forall_cons; [|constructor].
    match goal with
    | H : in_range 32 126 c = true |- _ =>
        unfold in_range in H; apply andb_true_iff in H;
        destruct H as [_ H]; apply N.leb_le in H; lia
    end.
  - repeat (apply Forall_cons; [reflexivity|]). apply hex4_ascii.
  - apply ascii_text_app;
      (repeat (apply Forall_cons; [reflexivity|])); apply hex4_ascii.
Qed.

Lemma encode_basestring_ascii_ascii (s : pystr) :
  ascii_text (encode_basestring_ascii s).
Proof.
  unfold encode_basestring_ascii.
  apply Forall_cons; [reflexivity|].
  apply ascii_text_app; [|apply ascii_text_lit_check; reflexivity].
  induction s as [|c s IH]; simpl; [constructor|].
  apply ascii_text_app; [apply escape_cp_ascii | exact IH].
Qed.

Lemma opt_json_dumps_ascii {fin : Type} (fr : fin -> pystr) (o : option pystr) :
  ascii_text (json_dumps fr (opt_json o)).
Proof.
  destruct o; simpl.
  - apply encode_basestring_ascii_ascii.
  - apply ascii_text_lit_check. reflexivity.
Qed.

Lemma c1_ascii {fin : Type} (fr : fin -> pystr) (G : globals) broker ssid :
  ascii_text (json_dumps fr (c1 G broker ssid)).
Proof.
  unfold c1. cbn [json_dumps map join fst snd].
  apply Forall_cons; [reflexivity|].
  repeat first
    [ apply ascii_text_app
    | apply encode_basestring_ascii_ascii
    | apply (opt_json_dumps_ascii fr)
    | apply ascii_text_lit_check; reflexivity ].
Qed.

(** The guarded write of [set_IoT_Url]: the bytes are built first, then
    the record is written, then the command. *)
Lemma attempt_run' {fin : Type} (E : env fin) lv before text b failed
      (w : world fin) :
  bytes_of_ords text = Ret b ->
  try_except (x <- liftR (bytes_of_ords text) ;;
              log lv before ;; await E (WriteGatt x))%py
             (fun e => log ERROR (failed e)) w
  = (match io_outcome E (steps w) with
     | None => Ret tt
     | Some e => if is_Exception e then Ret tt else Raise e
     end,
     advance w
       (Log lv before :: Io (WriteGatt b) (io_outcome E (steps w)) ::
        match io_outcome E (steps w) with
        | Some e => if is_Exception e then [Log ERROR (failed e)] else []
        | None => []
        end) 1).
Proof.
  intros Hb. unfold try_except, bind, liftR.
  rewrite Hb, log_run, await_run. cbn [steps advance plus].
  destruct (io_outcome E (steps w)) as [e|].
  - destruct (is_Exception e).
    + rewrite log_run, !advance_advance. reflexivity.
    + rewrite advance_advance. reflexivity.
  - rewrite advance_advance. reflexivity.
Qed.

Lemma attempt_never_cancelled {fin : Type} (E : env fin) (s : nat)
      (before : event fin) b failed :
  never_cancelled E ->
  (match io_outcome E s with
   | None => Ret tt
   | Some e => if is_Exception e then Ret tt else Raise e
   end = (Ret tt : result unit)) /\
  before :: Io (WriteGatt b) (io_outcome E s) ::
    match io_outcome E s with
    | Some e => if is_Exception e then [Log ERROR (failed e)] else []
    | None => []
    end = attempt before b (io_outcome E s) failed.
Proof.
  intros Hc. unfold attempt.
  destruct (io_outcome E s) as [e|] eqn:Ho; [|split; reflexivity].
  rewrite (Hc _ _ Ho). split; reflexivity.
Qed.

(** [set_IoT_Url] when no write is cancelled and the MQTT client takes the
    acknowledgment: token command, station command, acknowledgment. *)
Lemma set_IoT_Url_run {fin : Type} (fr : fin -> pystr) (E : env fin)
      (G : globals) broker port ssid deviceid (w : world fin) :
  never_cancelled E ->
  (forall payload,
      publish_rejects E (register_topic G deviceid) payload = None) ->
  set_IoT_Url fr E G broker port ssid deviceid w
  = (Ret tt,
     advance w (set_IoT_Url_events fr E G broker ssid deviceid
                                   (mq_client w) (steps w)) 2).
Proof.
  intros Hc Hp. unfold set_IoT_Url, time_time.
  unfold bind at 1. unfold bind at 1.
  rewrite (attempt_run' E INFO _ _ (latin1 (json_dumps fr (c1 G broker ssid)))
             SetUrlFailed w)
    by (apply bytes_of_ords_ascii, c1_ascii).
  destruct (attempt_never_cancelled E (steps w)
              (Log INFO (SettingIoTUrl (json_dumps fr (c1 G broker ssid))))
              (latin1 (json_dumps fr (c1 G broker ssid))) SetUrlFailed Hc)
    as [Hr1 He1].
  rewrite Hr1, He1. clear Hr1 He1.
  unfold bind at 1.
  rewrite (attempt_run' E INFO _ _ (latin1 cmd2) SetWifiModeFailed)
    by (apply bytes_of_ords_ascii, ascii_text_lit_check; reflexivity).
  cbn [steps advance plus].
  destruct (attempt_never_cancelled E (S (steps w))
              (Log INFO SettingStationMode) (latin1 cmd2)
              SetWifiModeFailed Hc) as [Hr2 He2].
  rewrite Hr2, He2. clear Hr2 He2.
  unfold bind at 1. unfold get_getinfo, get_mq_client.
  cbn [mq_client advance]. unfold set_IoT_Url_events.
  destruct (mq_client w) eqn:Hmq.
  - unfold when, bind, publish. rewrite log_run.
    fold (register_topic G deviceid). rewrite Hp, emit_run.
    rewrite !advance_advance, <- ?app_assoc. reflexivity.
  - unfold when, ret. rewrite !advance_advance, app_nil_r. reflexivity.
Qed.

Lemma commands_written_app {fin : Type} (a b : list (event fin)) :
  commands_written (a ++ b) = commands_written a ++ commands_written b.
Proof. apply flat_map_app. Qed.

Lemma published_app {fin : Type} (a b : list (event fin)) :
  published (a ++ b) = published a ++ published b.
Proof. apply flat_map_app. Qed.

Lemma attempt_log_facts {fin : Type} lv m b o (failed : exn -> logmsg fin) :
  subscriptions (attempt (Log lv m) b o failed) = 0 /\
  commands_written (attempt (Log lv m) b o failed) = [b] /\
  published (attempt (Log lv m) b o failed) = [].
Proof. destruct o; repeat split; reflexivity. Qed.

Lemma cloud_toggle_events_facts {fin : Type} (fr : fin -> pystr) (E : env fin)
      (G : globals) m broker ssid mq s :
  let evs := cloud_toggle_events fr E G m broker ssid mq s in
  subscriptions evs = 0 /\
  commands_written evs
  = [latin1 (json_dumps fr (c1 G (toggle_broker m broker) ssid)); latin1 cmd2] /\
  published evs
  = if mq
    then [(register_topic G (SF_DEVICE_ID G), JStr (reply (now E s)), true)]
    else [].
Proof.
  cbv zeta. unfold cloud_toggle_events, set_IoT_Url_events.
  repeat split.
  - rewrite !subscriptions_app.
    rewrite (proj1 (attempt_log_facts _ _ _ _ _)).
    rewrite (proj1 (attempt_log_facts _ _ _ _ _)).
    destruct mq; reflexivity.
  - rewrite !commands_written_app.
    rewrite (proj1 (proj2 (attempt_log_facts _ _ _ _ _))).
    rewrite (proj1 (proj2 (attempt_log_facts _ _ _ _ _))).
    destruct mq; reflexivity.
  - rewrite !published_app.
    rewrite (proj2 (proj2 (attempt_log_facts _ _ _ _ _))).
    rewrite (proj2 (proj2 (attempt_log_facts _ _ _ _ _))).
    destruct mq; reflexivity.
Qed.

Lemma session_cloud_toggle {fin : Type} (fr : fin -> pystr) (E : env fin)
      (G : globals) (w : world fin) broker port info_only connect disconnect
      ssid n :
  never_cancelled E ->
  (forall payload,
      publish_rejects E (register_topic G (SF_DEVICE_ID G)) payload = None) ->
  let m := select_mode G broker port info_only connect disconnect ssid in
  m = DisconnectMode \/ m = ConnectMode ->
  session fr E G broker port info_only connect disconnect ssid n w
  = (Ret tt,
     advance w (cloud_toggle_events fr E G m broker ssid (mq_client w)
                                    (steps w)) 3).
Proof.
  intros Hc Hp m Hm. unfold session. fold m.
  unfold cloud_toggle_events, toggle_broker.
  destruct Hm as [Hm | Hm]; rewrite Hm;
    unfold bind; rewrite !log_run;
    rewrite (set_IoT_Url_run fr E G _ _ _ _ _ Hc Hp);
    rewrite log_run;
    rewrite sleep_run by (intros Hx; apply Hc in Hx; discriminate);
    rewrite !advance_advance; cbn [steps mq_client advance plus];
    rewrite <- ?app_assoc; reflexivity.
Qed.

(** C7, as amended: in a cloud-toggle mode the session does not subscribe
    to notifications.  It writes the token command and then the
    station-mode command, in this order (a write that raises is logged
    and the sequence goes on, without retry); then, whenever an MQTT
    client is set, in disconnect mode and in connect mode alike, it
    publishes the retained registration acknowledgment on
    [iot/<productId>/<deviceId>/register/replay]; it sleeps 30 seconds
    and returns, and leaving the [with] block disconnects. *)
Theorem cloud_toggle_sequence :
  forall (fin : Type) (fr : fin -> pystr) (E : env fin) (G : globals)
         (w : world fin) (d : device) broker port info_only connect
         disconnect ssid n,
    never_cancelled E ->
    (forall payload,
        publish_rejects E (register_topic G (SF_DEVICE_ID G)) payload = None) ->
    let m := select_mode G broker port info_only connect disconnect ssid in
    let body := session fr E G broker port info_only connect disconnect ssid n in
    m = DisconnectMode \/ m = ConnectMode ->
    fst (body w) = Ret tt /\
    events_of body w
    = cloud_toggle_events fr E G m broker ssid (mq_client w) (steps w) /\
    subscriptions (events_of body w) = 0 /\
    commands_written (events_of body w)
    = [latin1 (json_dumps fr (c1 G (toggle_broker m broker) ssid));
       latin1 cmd2] /\
    published (events_of body w)
    = (if mq_client w
       then [(register_topic G (SF_DEVICE_ID G),
              JStr (reply (now E (steps w))), true)]
       else []) /\
    (io_outcome E (steps w) = None ->
     events_of (with_client E d body) w
     = Io (BleConnect d) None ::
       cloud_toggle_events fr E G m broker ssid (mq_client w) (S (steps w))
       ++ [Io BleDisconnect (io_outcome E (4 + steps w))]).
Proof.
  intros fin fr E G w d broker port info_only connect disconnect ssid n
         Hc Hp m body Hm.
  assert (Hbody : forall w0,
             body w0 = (Ret tt,
                        advance w0 (cloud_toggle_events fr E G m broker ssid
                                      (mq_client w0) (steps w0)) 3)).
  { intros w0. apply session_cloud_toggle; assumption. }
  pose proof (events_of_advance _ _ _ _ _ (Hbody w)) as Hev.
  destruct (cloud_toggle_events_facts fr E G m broker ssid (mq_client w)
              (steps w)) as (F1 & F2 & F3).
  split; [now rewrite Hbody|]. split; [exact Hev|].
  rewrite Hev. split; [exact F1|]. split; [exact F2|]. split; [exact F3|].
  intros Hconn. unfold events_of, with_client, bind, finally.
  rewrite await_run, Hconn, Hbody, await_run.
  cbn [steps mq_client advance plus].
  destruct (io_outcome E (S (S (S (S (steps w)))))); cbn [snd trace advance];
    rewrite <- !app_assoc, skipn_length_app; reflexivity.
Qed.

Lemma ex_env_accepts (topic : pystr) (payload : json Z) :
  publish_rejects ex_env topic payload = None.
Proof. reflexivity. Defined.

Lemma cloud_toggle_sequence_witness :
  subscriptions
    (events_of (session ex_float_repr ex_env ex_globals
                        (Some (lit "192.168.1.100")) (Some 1883%Z)
                        false false true (Some (lit "home")) 0)
               (start true)) = 0.
Proof.
  apply (cloud_toggle_sequence
           Z ex_float_repr ex_env ex_globals (start true) hub
           (Some (lit "192.168.1.100")) (Some 1883%Z)
           false false true (Some (lit "home")) 0
           (never_fails_never_cancelled ex_env ex_env_never_fails)
           (ex_env_accepts _)
           (or_introl eq_refl)).
Defined.

(** C7, the claim as stated fails twice.  In disconnect mode [run] goes
    through to its end without a single [start_notify]; and in connect
    mode with a broker on the command line the registration
    acknowledgment is published too. *)
Lemma cloud_toggle_counterexample :
  let disconnect_run :=
    run ex_float_repr ex_env ex_globals (Some (lit "192.168.1.100"))
        (Some 1883%Z) false false true (Some (lit "home"))
        (Some (lit "dev1")) 0 in
  let connect_run :=
    run ex_float_repr ex_env ex_globals (Some (lit "192.168.1.100"))
        (Some 1883%Z) false true false (Some (lit "home"))
        (Some (lit "dev1")) 0 in
  fst (disconnect_run (start false)) = Ret tt /\
  subscriptions (events_of disconnect_run (start false)) = 0 /\
  List.length (commands_written (events_of disconnect_run (start false))) = 2 /\
  fst (connect_run (start false)) = Ret tt /\
  published (events_of connect_run (start false))
  = [(lit "iot/ja72U0ha/dev1/register/replay",
      JStr (reply 1700000003), true)].
Proof.
  cbv zeta. repeat split; vm_compute; reflexivity.
Qed.

(* --------------------------------------------------------------------- *)
(** ** [json.loads] always answers *)

Lemma skip_ws_length (s : pystr) : List.length (skip_ws s) <= List.length s.
Proof.
  induction s as [|c s IH]; simpl; [lia|].
  destruct (is_ws c); simpl; lia.
Qed.

Lemma push_some c o x r :
  push c o = Some (x, r) -> exists x', o = Some (x', r) /\ x = c :: x'.
Proof.
  destruct o as [[x' r']|]; simpl; [|discriminate].
  intros H. injection H as <- <-. eauto.
Qed.

(** [scanstring] reads at least the closing quote. *)
Lemma scanstring_length (k : nat) :
  forall s x r,
    List.length s <= k -> scanstring s = Some (x, r) ->
    List.length r < List.length s.
Proof.
  induction k as [|k IH]; intros s x r Hk H.
  - destruct s; [discriminate|simpl in Hk; lia].
  - destruct s as [|c s1]; [discriminate|].
    cbn [scanstring] in H. simpl in Hk.
    destruct (N.eqb c 34).
    { injection H as _ <-. simpl. lia. }
    destruct (N.eqb c 92).
    2:{ destruct (N.ltb c 32); [discriminate|].
        apply push_some in H. destruct H as (x' & H & _).
        apply IH in H; [simpl; lia | lia]. }
    destruct s1 as [|e s2]; [discriminate|]. simpl in Hk.
    destruct (N.eqb e 117).
    2:{ destruct (unescape e); [|discriminate].
        apply push_some in H. destruct H as (x' & H & _).
        apply IH in H; [simpl; lia | lia]. }
    destruct s2 as [|h1 [|h2 [|h3 [|h4 s3]]]]; try discriminate.
    simpl in Hk.
    destruct (hex4_val h1 h2 h3 h4) as [uni|]; [|discriminate].
    assert (Hlone : forall x0, push uni (scanstring s3) = Some (x0, r) ->
                               List.length r < List.length
                                 (c :: e :: h1 :: h2 :: h3 :: h4 :: s3)).
    { intros x0 Hp. apply push_some in Hp. destruct Hp as (x' & Hp & _).
      apply IH in Hp; [simpl; lia | lia]. }
    destruct (is_high_surrogate uni); [|eauto].
    destruct s3 as [|b [|u [|l1 [|l2 [|l3 [|l4 s4]]]]]]; eauto.
    destruct (N.eqb b 92 && N.eqb u 117)%bool; eauto.
    destruct (hex4_val l1 l2 l3 l4) as [uni2|]; [|discriminate].
    destruct (is_low_surrogate uni2); eauto.
    apply push_some in H. destruct H as (x' & H & _).
    apply IH in H; [simpl; lia | simpl in Hk; lia].
Qed.

Lemma scanstring_shorter s x r :
  scanstring s = Some (x, r) -> List.length r < List.length s.
Proof. apply (scanstring_length (List.length s)). lia. Qed.

Lemma span_digits_length (s : pystr) :
  List.length (fst (span_digits s)) + List.length (snd (span_digits s))
  = List.length s.
Proof.
  induction s as [|c s IH]; simpl; [reflexivity|].
  destruct (is_digit c); [|reflexivity].
  destruct (span_digits s) as [ds r]. simpl in *. lia.
Qed.

Lemma match_int_length s ds r :
  match_int s = Some (ds, r) -> List.length r < List.length s.
Proof.
  unfold match_int. destruct s as [|c s]; [discriminate|].
  destruct (N.eqb c 48).
  - intros H. injection H as _ <-. simpl. lia.
  - destruct (is_digit c); [|discriminate].
    pose proof (span_digits_length s) as Hl.
    destruct (span_digits s) as [ds' r']. simpl in Hl.
    intros H. injection H as _ <-. simpl. lia.
Qed.

Lemma match_frac_length s :
  List.length (snd (match_frac s)) <= List.length s.
Proof.
  unfold match_frac. destruct s as [|c s]; [simpl; lia|].
  destruct (N.eqb c 46); [|simpl; lia].
  pose proof (span_digits_length s) as Hl.
  destruct (span_digits s) as [[|d ds] r]; simpl in *; lia.
Qed.

Lemma match_exp_length s :
  List.length (snd (match_exp s)) <= List.length s.
Proof.
  unfold match_exp. destruct s as [|c s]; [simpl; lia|].
  destruct (N.eqb c 101 || N.eqb c 69)%bool; [|simpl; lia].
  destruct s as [|sg s1]; [simpl; lia|].
  destruct (N.eqb sg 45 || N.eqb sg 43)%bool.
  - pose proof (span_digits_length s1) as Hl.
    destruct (span_digits s1) as [[|d ds] r]; simpl in *; lia.
  - pose proof (span_digits_length (sg :: s1)) as Hl.
    destruct (span_digits (sg :: s1)) as [[|d ds] r]; simpl in *; lia.
Qed.

Lemma match_number_length {fin : Type} (fol : pystr -> pyfloat fin) s v r :
  match_number fol s = Some (v, r) -> List.length r < List.length s.
Proof.
  unfold match_number.
  set (p := match s with
            | c :: r0 => if N.eqb c 45 then ([c], r0) else ([], s)
            | [] => ([], s)
            end).
  assert (Hp : List.length (snd p) <= List.length s).
  { unfold p. destruct s as [|c s']; [simpl; lia|].
    destruct (N.eqb c 45); simpl; lia. }
  destruct p as [sign s1]. simpl in Hp.
  destruct (match_int s1) as [[ds r1]|] eqn:Hi; [|discriminate].
  apply match_int_length in Hi.
  pose proof (match_frac_length r1) as Hf.
  destruct (match_frac r1) as [fr r2]. simpl in Hf.
  pose proof (match_exp_length r2) as He.
  destruct (match_exp r2) as [ex r3]. simpl in He.
  destruct fr, ex; intros H; injection H as _ <-; lia.
Qed.

Lemma startswith_skipn s p :
  startswith s p = true ->
  List.length (skipn (List.length p) s) + List.length p = List.length s.
Proof.
  revert s. induction p as [|y p IH]; intros s H; simpl.
  - lia.
  - destruct s as [|x s]; [discriminate|]. simpl in H.
    apply andb_true_iff in H. destruct H as [_ H].
    apply IH in H. simpl. lia.
Qed.

(** The unfolding equations of the three scanning functions. *)
Lemma scan_once_S {fin : Type} (fol : pystr -> pyfloat fin) (n : nat) (s : pystr) :
  scan_once fol (S n) s =
  match s with
  | [] => PErr
  | c :: r =>
      if N.eqb c 34 then
        match scanstring r with
        | Some (str, r') => POk (JStr str) r'
        | None => PErr
        end
      else if N.eqb c 123 then
        match skip_ws r with
        | c1 :: r1 =>
            if N.eqb c1 125 then POk (JObj []) r1
            else
              match JSONObject fol n (skip_ws r) with
              | POk ps r' => POk (JObj (dict_of_pairs ps)) r'
              | PErr => PErr
              | PFuel => PFuel
              end
        | [] => PErr
        end
      else if N.eqb c 91 then
        match skip_ws r with
        | c1 :: r1 =>
            if N.eqb c1 93 then POk (JArr []) r1
            else
              match JSONArray fol n (skip_ws r) with
              | POk vs r' => POk (JArr vs) r'
              | PErr => PErr
              | PFuel => PFuel
              end
        | [] => PErr
        end
      else if startswith s (lit "null") then POk JNull (skipn 4 s)
      else if startswith s (lit "true") then POk (JBool true) (skipn 4 s)
      else if startswith s (lit "false") then POk (JBool false) (skipn 5 s)
      else
        match match_number fol s with
        | Some (v, r') => POk v r'
        | None =>
            if startswith s (lit "NaN") then POk (JFloat FNaN) (skipn 3 s)
            else if startswith s (lit "Infinity")
            then POk (JFloat FInf) (skipn 8 s)
            else if startswith s (lit "-Infinity")
            then POk (JFloat FNegInf) (skipn 9 s)
            else PErr
        end
  end.
Proof. reflexivity. Qed.

Lemma JSONObject_S {fin : Type} (fol : pystr -> pyfloat fin) (n : nat) (s : pystr) :
  JSONObject fol (S n) s =
  match s with
  | q :: r =>
      if N.eqb q 34 then
        match scanstring r with
        | None => PErr
        | Some (key, r1) =>
            match skip_ws r1 with
            | col :: r2 =>
                if N.eqb col 58 then
                  match scan_once fol n (skip_ws r2) with
                  | POk v r3 =>
                      match skip_ws r3 with
                      | d :: r4 =>
                          if N.eqb d 125 then POk [(key, v)] r4
                          else if N.eqb d 44 then
                            match JSONObject fol n (skip_ws r4) with
                            | POk ps r5 => POk ((key, v) :: ps) r5
                            | PErr => PErr
                            | PFuel => PFuel
                            end
                          else PErr
                      | [] => PErr
                      end
                  | PErr => PErr
                  | PFuel => PFuel
                  end
                else PErr
            | [] => PErr
            end
        end
      else PErr
  | [] => PErr
  end.
Proof. reflexivity. Qed.

Lemma JSONArray_S {fin : Type} (fol : pystr -> pyfloat fin) (n : nat) (s : pystr) :
  JSONArray fol (S n) s =
  match scan_once fol n s with
  | POk v r =>
      match skip_ws r with
      | d :: r1 =>
          if N.eqb d 93 then POk [v] r1
          else if N.eqb d 44 then
            match JSONArray fol n (skip_ws r1) with
            | POk vs r2 => POk (v :: vs) r2
            | PErr => PErr
            | PFuel => PFuel
            end
          else PErr
      | [] => PErr
      end
  | PErr => PErr
  | PFuel => PFuel
  end.
Proof. reflexivity. Qed.

(** With fuel above twice the length of the text the scanner never runs
    out of fuel, and what it reads is not empty. *)
Lemma scan_fuel {fin : Type} (fol : pystr -> pyfloat fin) (n : nat) :
  (forall s, 2 * List.length s + 1 <= n ->
             scan_once fol n s <> PFuel /\
             forall v r, scan_once fol n s = POk v r ->
                         List.length r < List.length s) /\
  (forall s, 2 * List.length s + 2 <= n ->
             JSONObject fol n s <> PFuel /\
             forall ps r, JSONObject fol n s = POk ps r ->
                          List.length r < List.length s) /\
  (forall s, 2 * List.length s + 2 <= n ->
             JSONArray fol n s <> PFuel /\
             forall vs r, JSONArray fol n s = POk vs r ->
                          List.length r < List.length s).
Proof.
  induction n as [|n (IHv & IHo & IHa)].
  - repeat split; intros; lia.
  - split; [|split].
    + (* scan_once *)
      intros s Hn. rewrite scan_once_S.
      destruct s as [|c r]; [pres_done|]. simpl in Hn.
      pose proof (skip_ws_length r) as Hws.
      destruct (N.eqb c 34).
      { destruct (scanstring r) as [[str r']|] eqn:Hs; pres_done.
        injection Heq as _ <-. apply scanstring_shorter in Hs. simpl. lia. }
      destruct (N.eqb c 123).
      { destruct (skip_ws r) as [|c1 r1] eqn:Hr1; [pres_done|].
        destruct (N.eqb c1 125).
        { pres_done. injection Heq as _ <-. simpl in *. lia. }
        destruct (IHo (c1 :: r1)) as [Hf Hl]; [simpl in *; lia|].
        destruct (JSONObject fol n (c1 :: r1)) as [ps r'| |] eqn:Ho;
          [|pres_done|congruence].
        pres_done. injection Heq as _ <-.
        specialize (Hl _ _ eq_refl). simpl in *. lia. }
      destruct (N.eqb c 91).
      { destruct (skip_ws r) as [|c1 r1] eqn:Hr1; [pres_done|].
        destruct (N.eqb c1 93).
        { pres_done. injection Heq as _ <-. simpl in *. lia. }
        destruct (IHa (c1 :: r1)) as [Hf Hl]; [simpl in *; lia|].
        destruct (JSONArray fol n (c1 :: r1)) as [vs r'| |] eqn:Ho;
          [|pres_done|congruence].
        pres_done. injection Heq as _ <-.
        specialize (Hl _ _ eq_refl). simpl in *. lia. }
      destruct (startswith (c :: r) (lit "null")) eqn:H1.
      { pres_done. injection Heq as _ <-.
        apply startswith_skipn in H1. simpl in *. lia. }
      destruct (startswith (c :: r) (lit "true")) eqn:H2.
      { pres_done. injection Heq as _ <-.
        apply startswith_skipn in H2. simpl in *. lia. }
      destruct (startswith (c :: r) (lit "false")) eqn:H3.
      { pres_done. injection Heq as _ <-.
        apply startswith_skipn in H3. simpl in *. lia. }
      destruct (match_number fol (c :: r)) as [[v' r']|] eqn:Hm.
      { pres_done. injection Heq as _ <-.
        apply match_number_length in Hm. exact Hm. }
      destruct (startswith (c :: r) (lit "NaN")) eqn:H4.
      { pres_done. injection Heq as _ <-.
        apply startswith_skipn in H4. simpl in *. lia. }
      destruct (startswith (c :: r) (lit "Infinity")) eqn:H5.
      { pres_done. injection Heq as _ <-.
        apply startswith_skipn in H5. simpl in *. lia. }
      destruct (startswith (c :: r) (lit "-Infinity")) eqn:H6.
      { pres_done. injection Heq as _ <-.
        apply startswith_skipn in H6. simpl in *. lia. }
      pres_done.
    + (* JSONObject *)
      intros s Hn. rewrite JSONObject_S.
      destruct s as [|q r]; [pres_done|]. simpl in Hn.
      destruct (N.eqb q 34); [|pres_done].
      destruct (scanstring r) as [[key r1]|] eqn:Hs; [|pres_done].
      apply scanstring_shorter in Hs.
      pose proof (skip_ws_length r1) as Hw1.
      destruct (skip_ws r1) as [|col r2] eqn:Hr2; [pres_done|].
      destruct (N.eqb col 58); [|pres_done].
      pose proof (skip_ws_length r2) as Hw2.
      destruct (IHv (skip_ws r2)) as [Hf Hl]; [simpl in *; lia|].
      destruct (scan_once fol n (skip_ws r2)) as [v r3| |] eqn:Hv;
        [|pres_done|congruence].
      specialize (Hl _ _ eq_refl).
      pose proof (skip_ws_length r3) as Hw3.
      destruct (skip_ws r3) as [|d r4] eqn:Hr4; [pres_done|].
      destruct (N.eqb d 125).
      { pres_done. injection Heq as _ <-. simpl in *. lia. }
      destruct (N.eqb d 44); [|pres_done].
      pose proof (skip_ws_length r4) as Hw4.
      destruct (IHo (skip_ws r4)) as [Hf' Hl']; [simpl in *; lia|].
      destruct (JSONObject fol n (skip_ws r4)) as [ps r5| |] eqn:Ho;
        [|pres_done|congruence].
      pres_done. injection Heq as _ <-.
      specialize (Hl' _ _ eq_refl). simpl in *. lia.
    + (* JSONArray *)
      intros s Hn. rewrite JSONArray_S.
      destruct (IHv s) as [Hf Hl]; [lia|].
      destruct (scan_once fol n s) as [v r| |] eqn:Hv;
        [|pres_done|congruence].
      specialize (Hl _ _ eq_refl).
      pose proof (skip_ws_length r) as Hw.
      destruct (skip_ws r) as [|d r1] eqn:Hr1; [pres_done|].
      destruct (N.eqb d 93).
      { pres_done. injection Heq as _ <-. simpl in *. lia. }
      destruct (N.eqb d 44); [|pres_done].
      pose proof (skip_ws_length r1) as Hw1.
      destruct (IHa (skip_ws r1)) as [Hf' Hl']; [simpl in *; lia|].
      destruct (JSONArray fol n (skip_ws r1)) as [vs r2| |] eqn:Ha;
        [|pres_done|congruence].
      pres_done. injection Heq as _ <-.
      specialize (Hl' _ _ eq_refl). simpl in *. lia.
Qed.

(** [json.loads] returns a value or raises [JSONDecodeError]. *)
Lemma json_loads_total {fin : Type} (fol : pystr -> pyfloat fin) (s : pystr) :
  (exists v, json_loads fol s = Ret v) \/
  json_loads fol s = Raise JSONDecodeError.
Proof.
  unfold json_loads.
  destruct (startswith s [65279%N]); [now right|].
  destruct (proj1 (scan_fuel fol (loads_fuel s)) (skip_ws s)) as [Hf _].
  { unfold loads_fuel. pose proof (skip_ws_length s). lia. }
  destruct (scan_once fol (loads_fuel s) (skip_ws s)) as [v r| |];
    [|now right|congruence].
  destruct (skip_ws r); [left; eauto | now right].
Qed.

(* --------------------------------------------------------------------- *)
(** ** [handle_rx] never lets an exception through *)

Lemma benign_ret {fin A : Type} (a : A) : benign (ret (fin := fin) a).
Proof. intros w. exact I. Qed.

Lemma benign_bind {fin A B : Type} (m : M fin A) (k : A -> M fin B) :
  benign m -> (forall a, benign (k a)) -> benign (bind m k).
Proof.
  intros Hm Hk w. unfold bind. specialize (Hm w).
  destruct (m w) as [[a|e|] w']; simpl in *; auto. apply Hk.
Qed.

Lemma benign_liftR {fin A : Type} (r : result A) :
  catchable r -> benign (liftR (fin := fin) r).
Proof. intros H w. exact H. Qed.

Lemma benign_log {fin : Type} lv (m : logmsg fin) : benign (log lv m).
Proof. intros w. exact I. Qed.

Lemma benign_when {fin : Type} (b : bool) (m : M fin unit) :
  benign m -> benign (when b m).
Proof. intros H. destruct b; [exact H | apply benign_ret]. Qed.

Lemma benign_publish {fin : Type} (E : env fin) topic payload retain :
  benign (publish E topic payload retain).
Proof.
  intros w. unfold publish.
  destruct (publish_rejects E topic payload) as [[]|]; exact I || reflexivity.
Qed.

Lemma benign_for_each {fin A : Type} (xs : list A) (body : A -> M fin unit) :
  (forall x, benign (body x)) -> benign (for_each xs body).
Proof.
  intros H. induction xs as [|x xs IH]; simpl.
  - apply benign_ret.
  - apply benign_bind; auto.
Qed.

Lemma benign_get_mq_client {fin : Type} : benign (get_mq_client (fin := fin)).
Proof. intros w. exact I. Qed.

Lemma catchable_py_contains {fin : Type} k (v : json fin) :
  catchable (py_contains k v).
Proof. destruct v; simpl; auto. Qed.

Lemma catchable_py_getitem {fin : Type} (v : json fin) k :
  catchable (py_getitem v k).
Proof.
  destruct v; simpl; auto. destruct (dict_get kvs k); simpl; auto.
Qed.

Lemma catchable_py_len {fin : Type} (v : json fin) : catchable (py_len v).
Proof. destruct v; simpl; auto. Qed.

Lemma catchable_py_items {fin : Type} (v : json fin) : catchable (py_items v).
Proof. destruct v; simpl; auto. Qed.

Lemma catchable_py_iter {fin : Type} (v : json fin) : catchable (py_iter v).
Proof. destruct v; simpl; auto. Qed.

Lemma catchable_py_pop {fin : Type} (v : json fin) k : catchable (py_pop v k).
Proof.
  destruct v; simpl; auto. destruct (dict_get kvs k); simpl; auto.
Qed.

Lemma catchable_decode_utf8 (data : pybytes) : catchable (decode_utf8 data).
Proof.
  unfold decode_utf8. destruct (utf8_decode_N _); simpl; auto.
Qed.

Lemma catchable_json_loads {fin : Type} (fol : pystr -> pyfloat fin) s :
  catchable (json_loads fol s).
Proof.
  destruct (json_loads_total fol s) as [[v ->] | ->]; simpl; auto.
Qed.

Ltac benign_step :=
  first
    [ apply benign_bind; [|intros ?]
    | apply benign_when
    | apply benign_for_each; intros ?
    | apply benign_log
    | apply benign_publish
    | apply benign_get_mq_client
    | apply benign_ret
    | apply benign_liftR;
      first [ apply catchable_py_contains | apply catchable_py_getitem
            | apply catchable_py_len | apply catchable_py_items
            | apply catchable_py_iter | apply catchable_py_pop
            | apply catchable_decode_utf8 | apply catchable_json_loads ] ].

Lemma benign_dispatch {fin : Type} (fr : fin -> pystr) cs (E : env fin) G payload :
  benign (dispatch fr cs E G payload).
Proof.
  unfold dispatch, log_info_response, publish_properties, publish_packs,
    publish_pack.
  repeat benign_step.
  match goal with |- benign (if ?b then _ else _) => destruct b end;
    repeat benign_step.
Qed.

Lemma benign_handle_rx_body {fin : Type} fol (fr : fin -> pystr) cs E G data :
  benign (handle_rx_body fol fr cs E G data).
Proof.
  unfold handle_rx_body.
  apply benign_bind; [apply benign_liftR, catchable_decode_utf8|intros text].
  apply benign_bind; [apply benign_liftR, catchable_json_loads|intros payload].
  apply benign_dispatch.
Qed.

Lemma handle_rx_unfold {fin : Type} fol (fr : fin -> pystr) cs E G data :
  handle_rx fol fr cs E G data
  = try_except (handle_rx_body fol fr cs E G data) (handle_rx_handler data).
Proof. reflexivity. Qed.

Lemma handle_rx_returns {fin : Type} fol (fr : fin -> pystr) cs E G data
      (w : world fin) :
  exists w', handle_rx fol fr cs E G data w = (Ret tt, w').
Proof.
  rewrite handle_rx_unfold. unfold try_except.
  pose proof (benign_handle_rx_body fol fr cs E G data w) as Hb.
  destruct (handle_rx_body fol fr cs E G data w) as [[[]|e|] w1]; simpl in Hb;
    [eauto| |contradiction].
  rewrite Hb. unfold handle_rx_handler.
  destruct e; try (unfold bind; rewrite !log_run; eauto); eauto.
Qed.

Lemma dispatch_unrecognized {fin : Type} (fr : fin -> pystr) cs (E : env fin)
      G kvs (w : world fin) :
  unrecognized kvs ->
  dispatch fr cs E G (JObj kvs) w
  = (Ret tt, advance w [Log DEBUG (Received (JObj kvs))] 0).
Proof.
  intros (Hm & Hp & Hk).
  assert (Hex : forall k, dict_get kvs k = None ->
                          existsb (fun kv => pystr_eqb (fst kv) k) kvs = false).
  { intros k. unfold dict_get. clear. induction kvs as [|[k' v] l IH]; simpl;
      [reflexivity|].
    destruct (pystr_eqb k' k); [discriminate|exact IH]. }
  unfold dispatch, log_info_response, bind, liftR, py_contains, when,
    get_mq_client.
  rewrite log_run, (Hex _ Hm), (Hex _ Hp), (Hex _ Hk).
  unfold ret. cbn [mq_client advance].
  destruct (mq_client w); reflexivity.
Qed.

(** C1: [handle_rx] is total over byte input.  For every byte sequence it
    returns (it never lets an exception through and always ends); the
    bytes are either not UTF-8, or UTF-8 text that [json.loads] refuses,
    or the text of a JSON value.  Bytes that are not UTF-8 end in the
    [except Exception] clause with the [UnicodeDecodeError] logged; text
    that is not JSON ends in the [except json.JSONDecodeError] clause,
    as does ["{not json"]; an object with none of the known keys is
    logged as received and nothing else happens. *)
Theorem handle_rx_total :
  forall (fin : Type) (fol : pystr -> pyfloat fin) (fr : fin -> pystr)
         (cs : json fin -> pystr) (E : env fin) (G : globals)
         (data : pybytes) (w : world fin),
    (exists w', handle_rx fol fr cs E G data w = (Ret tt, w')) /\
    (decode_utf8 data = Raise UnicodeDecodeError \/
     exists text,
       decode_utf8 data = Ret text /\
       (json_loads fol text = Raise JSONDecodeError \/
        exists payload, json_loads fol text = Ret payload)) /\
    (decode_utf8 data = Raise UnicodeDecodeError ->
     handle_rx fol fr cs E G data w
     = (Ret tt,
        advance w [Log ERROR (ErrorHandlingData UnicodeDecodeError);
                   Log DEBUG (RawData data)] 0)) /\
    (forall text,
        decode_utf8 data = Ret text ->
        json_loads fol text = Raise JSONDecodeError ->
        handle_rx fol fr cs E G data w
        = (Ret tt, advance w [Log ERROR (InvalidJson data)] 0)) /\
    (forall text kvs,
        decode_utf8 data = Ret text ->
        json_loads fol text = Ret (JObj kvs) ->
        unrecognized kvs ->
        handle_rx fol fr cs E G data w
        = (Ret tt, advance w [Log DEBUG (Received (JObj kvs))] 0)) /\
    handle_rx fol fr cs E G (bytes_lit "{not json") w
    = (Ret tt, advance w [Log ERROR (InvalidJson (bytes_lit "{not json"))] 0).
Proof.
  intros fin fol fr cs E G data w.
  split; [apply handle_rx_returns|].
  split.
  { unfold decode_utf8. destruct (utf8_decode_N _) as [text|]; [|now left].
    right. exists text. split; [reflexivity|].
    destruct (json_loads_total fol text) as [[v Hv] | Hv]; eauto. }
  split.
  { intros Hd. rewrite handle_rx_unfold.
    unfold try_except, handle_rx_body, bind, liftR. rewrite Hd.
    cbn [is_Exception handle_rx_handler]. unfold bind.
    rewrite !log_run, advance_advance. reflexivity. }
  split.
  { intros text Hd Hj. rewrite handle_rx_unfold.
    unfold try_except, handle_rx_body, bind, liftR. rewrite Hd, Hj.
    reflexivity. }
  split.
  { intros text kvs Hd Hj Hu. rewrite handle_rx_unfold.
    unfold try_except, handle_rx_body, bind, liftR. rewrite Hd, Hj.
    now rewrite (dispatch_unrecognized fr cs E G kvs w Hu). }
  assert (Hd : decode_utf8 (bytes_lit "{not json") = Ret (lit "{not json"))
    by reflexivity.
  assert (Hj : json_loads fol (lit "{not json") = Raise JSONDecodeError)
    by (vm_compute; reflexivity).
  rewrite handle_rx_unfold.
  unfold try_except, handle_rx_body, bind, liftR.
  rewrite Hd, Hj. reflexivity.
Qed.

Lemma handle_rx_total_witness :
  handle_rx ex_float_of_literal ex_float_repr ex_container_str ex_env
            ex_globals [Byte.xff] (start true)
  = (Ret tt,
     advance (start true)
             [Log ERROR (ErrorHandlingData UnicodeDecodeError);
              Log DEBUG (RawData [Byte.xff])] 0).
Proof.
  apply (handle_rx_total Z ex_float_of_literal ex_float_repr ex_container_str
           ex_env ex_globals [Byte.xff] (start true)).
  reflexivity.
Defined.

(* --------------------------------------------------------------------- *)
(** ** [json.loads] reads back what [json.dumps] writes: strings *)

Lemma hex_val_hex_digit (d : N) :
  (d < 16)%N -> hex_val (hex_digit d) = Some d.
Proof.
  intros H.
  assert (Hc : In d [0;1;2;3;4;5;6;7;8;9;10;11;12;13;14;15]%N).
  { simpl. lia. }
  simpl in Hc.
  repeat (destruct Hc as [<-|Hc]; [reflexivity|]). contradiction.
Qed.

Lemma hex4_val_hex4 (n : N) :
  (n < 65536)%N ->
  hex4_val (hex_digit (N.modulo (N.div n 4096) 16))
           (hex_digit (N.modulo (N.div n 256) 16))
           (hex_digit (N.modulo (N.div n 16) 16))
           (hex_digit (N.modulo n 16)) = Some n.
Proof.
  intros H. unfold hex4_val.
  rewrite !hex_val_hex_digit by (apply N.mod_lt; discriminate).
  f_equal. zify. Z.to_euclidean_division_equations. lia.
Qed.

(** [scanstring] on a [\u] escape. *)
Lemma scanstring_u (h1 h2 h3 h4 : N) (t : pystr) (uni : N) :
  hex4_val h1 h2 h3 h4 = Some uni ->
  scanstring (92 :: 117 :: h1 :: h2 :: h3 :: h4 :: t)%N =
  if is_high_surrogate uni then
    (if starts_u_low t then
       match t with
       | b :: u :: l1 :: l2 :: l3 :: l4 :: r3 =>
           match hex4_val l1 l2 l3 l4 with
           | None => None
           | Some uni2 => push (join_surrogates uni uni2) (scanstring r3)
           end
       | _ => None
       end
     else push uni (scanstring t))
  else push uni (scanstring t).
Proof.
  intros H. cbn [scanstring].
  change (N.eqb 92 34) with false. change (N.eqb 92 92) with true.
  change (N.eqb 117 117) with true. cbv beta iota.
  rewrite H. destruct (is_high_surrogate uni); [|reflexivity].
  unfold starts_u_low.
  destruct t as [|b [|u [|l1 [|l2 [|l3 [|l4 r3]]]]]]; try reflexivity;
    try (destruct (N.eqb b 92 && N.eqb u 117)%bool; reflexivity).
  destruct (N.eqb b 92 && N.eqb u 117)%bool; [|reflexivity].
  destruct (hex4_val l1 l2 l3 l4); [|reflexivity].
  destruct (is_low_surrogate n); reflexivity.
Qed.

Lemma high_half_range (n : N) :
  let hi := (55296 + N.modulo (N.div n 1024) 1024)%N in
  (hi < 65536)%N /\ is_high_surrogate hi = true /\ is_low_surrogate hi = false.
Proof.
  cbv zeta. pose proof (N.mod_lt (N.div n 1024) 1024 ltac:(discriminate)) as H.
  unfold is_high_surrogate, is_low_surrogate, in_range.
  generalize dependent (N.modulo (N.div n 1024) 1024). intros m H.
  repeat split.
  - lia.
  - apply andb_true_iff. split; apply N.leb_le; lia.
  - apply andb_false_iff. left. apply N.leb_gt. lia.
Qed.

Lemma low_half_range (n : N) :
  let lo := (56320 + N.modulo n 1024)%N in
  (lo < 65536)%N /\ is_low_surrogate lo = true.
Proof.
  cbv zeta. pose proof (N.mod_lt n 1024 ltac:(discriminate)) as H.
  unfold is_low_surrogate, in_range.
  generalize dependent (N.modulo n 1024). intros m H. split; [lia|].
  apply andb_true_iff. split; apply N.leb_le; lia.
Qed.

Lemma join_halves (c : N) :
  (65536 <= c < 1114112)%N ->
  join_surrogates (55296 + N.modulo (N.div (c - 65536) 1024) 1024)
                  (56320 + N.modulo (c - 65536) 1024) = c.
Proof.
  intros H. unfold join_surrogates.
  set (n := (c - 65536)%N).
  assert (Hn : (n < 1048576)%N) by (unfold n; lia).
  rewrite (N.add_comm 55296), (N.add_comm 56320), !N.add_sub.
  rewrite (N.mod_small (N.div n 1024) 1024)
    by (apply N.Div0.div_lt_upper_bound; lia).
  pose proof (N.div_mod n 1024 ltac:(discriminate)) as Hd.
  assert (Hc : c = (65536 + n)%N) by (unfold n; lia).
  generalize dependent (N.modulo n 1024).
  generalize dependent (N.div n 1024). intros; lia.
Qed.

Lemma escape_cp_form (c : N) : escape_form c (escape_cp c).
Proof.
  unfold escape_cp.
  destruct (N.eqb_spec c 34); [subst; now apply EscSimple|].
  destruct (N.eqb_spec c 92); [subst; now apply EscSimple|].
  destruct (N.eqb_spec c 10); [subst; now apply EscSimple|].
  destruct (N.eqb_spec c 13); [subst; now apply EscSimple|].
  destruct (N.eqb_spec c 9); [subst; now apply EscSimple|].
  destruct (N.eqb_spec c 8); [subst; now apply EscSimple|].
  destruct (N.eqb_spec c 12); [subst; now apply EscSimple|].
  destruct (in_range 32 126 c) eqn:Hr.
  - apply EscPlain; auto.
    unfold in_range in Hr. apply andb_true_iff in Hr. destruct Hr as [Hr _].
    apply N.leb_le in Hr. apply N.ltb_ge. exact Hr.
  - destruct (N.ltb_spec c 65536).
    + now apply EscBmp.
    + now apply EscPair.
Qed.

Lemma starts_u_low_escaped (r rest : pystr) :
  match r with lo :: _ => is_low_surrogate lo | [] => false end = false ->
  starts_u_low (flat_map escape_cp r ++ 34%N :: rest) = false.
Proof.
  destruct r as [|c r']; cbn [flat_map Datatypes.app].
  - intros _. destruct rest; reflexivity.
  - intros Hlow. rewrite <- app_assoc.
    set (t := flat_map escape_cp r' ++ 34%N :: rest).
    destruct (escape_cp_form c) as [x Hx Hu | H34 H92 H32 | Hb | Hp].
    + cbn [Datatypes.app]. unfold starts_u_low.
      apply N.eqb_neq in Hu. rewrite Hu. reflexivity.
    + cbn [Datatypes.app]. unfold starts_u_low. destruct t; [reflexivity|].
      apply N.eqb_neq in H92. rewrite H92. reflexivity.
    + unfold hex4. cbn [Datatypes.app]. unfold starts_u_low.
      change (N.eqb 92 92 && N.eqb 117 117)%bool with true. cbv beta iota.
      rewrite hex4_val_hex4 by exact Hb. exact Hlow.
    + unfold hex4. cbn [Datatypes.app]. unfold starts_u_low.
      change (N.eqb 92 92 && N.eqb 117 117)%bool with true. cbv beta iota.
      destruct (high_half_range (c - 65536)) as (Hlt & _ & Hnl).
      rewrite hex4_val_hex4 by exact Hlt. exact Hnl.
Qed.

(** [scanstring] reads an escaped string back, up to its closing quote. *)
Lemma scanstring_escaped (s rest : pystr) :
  str_ok s = true ->
  scanstring (flat_map escape_cp s ++ 34%N :: rest) = Some (s, rest).
Proof.
  induction s as [|c r IH]; intros Hok.
  - reflexivity.
  - cbn [str_ok] in Hok.
    apply andb_true_iff in Hok. destruct Hok as [Hok Hr].
    apply andb_true_iff in Hok. destruct Hok as [Hc Hpair].
    apply N.ltb_lt in Hc. apply negb_true_iff in Hpair.
    specialize (IH Hr).
    cbn [flat_map]. rewrite <- app_assoc.
    set (t := flat_map escape_cp r ++ 34%N :: rest) in *.
    destruct (escape_cp_form c) as [x Hx Hu | H34 H92 H32 | Hb | Hp].
    + cbn [Datatypes.app scanstring].
      change (N.eqb 92 34) with false. change (N.eqb 92 92) with true.
      cbv beta iota. apply N.eqb_neq in Hu. rewrite Hu, Hx, IH. reflexivity.
    + cbn [Datatypes.app scanstring].
      apply N.eqb_neq in H34, H92. rewrite H34, H92, H32, IH. reflexivity.
    + unfold hex4. cbn [Datatypes.app].
      rewrite (scanstring_u _ _ _ _ t c (hex4_val_hex4 c Hb)).
      destruct (is_high_surrogate c) eqn:Hh; [|now rewrite IH].
      assert (Hs : starts_u_low t = false).
      { apply starts_u_low_escaped. simpl in Hpair. exact Hpair. }
      now rewrite Hs, IH.
    + unfold hex4. cbn [Datatypes.app].
      destruct (high_half_range (c - 65536)) as (Hlt & Hhi & _).
      destruct (low_half_range (c - 65536)) as (Hlt2 & Hlo).
      rewrite (scanstring_u _ _ _ _ _ _ (hex4_val_hex4 _ Hlt)).
      rewrite Hhi. unfold starts_u_low.
      change (N.eqb 92 92 && N.eqb 117 117)%bool with true. cbv beta iota.
      rewrite (hex4_val_hex4 _ Hlt2), Hlo, IH.
      cbn [push]. rewrite join_halves by lia. reflexivity.
Qed.

Lemma scanstring_encoded (s rest : pystr) :
  str_ok s = true ->
  exists t, encode_basestring_ascii s ++ rest = 34%N :: t /\
            scanstring t = Some (s, rest).
Proof.
  intros Hok. unfold encode_basestring_ascii.
  exists (flat_map escape_cp s ++ 34%N :: rest). split.
  - cbn [Datatypes.app]. now rewrite <- app_assoc.
  - now apply scanstring_escaped.
Qed.

(* --------------------------------------------------------------------- *)
(** ** [json.loads] reads back what [json.dumps] writes: integers *)

Lemma digits_of_uint_digits (d : Decimal.uint) :
  Forall (fun c => is_digit c = true) (digits_of_uint d).
Proof. induction d; simpl; constructor; auto. Qed.

Lemma uint_of_digits_of_uint (d : Decimal.uint) :
  uint_of_digits (digits_of_uint d) = d.
Proof. induction d; simpl; congruence. Qed.

Lemma span_digits_app (ds rest : pystr) :
  Forall (fun c => is_digit c = true) ds ->
  match rest with [] => True | c :: _ => is_digit c = false end ->
  span_digits (ds ++ rest) = (ds, rest).
Proof.
  intros Hd Hr. induction Hd as [|c ds Hc Hd IH]; cbn [Datatypes.app].
  - destruct rest as [|c r]; [reflexivity|]. simpl. now rewrite Hr.
  - cbn [span_digits]. now rewrite Hc, IH.
Qed.

Lemma pos_to_uint_normal (p : positive) :
  Decimal.unorm (Pos.to_uint p) = Pos.to_uint p.
Proof.
  pose proof (DecimalPos.Unsigned.to_of (Pos.to_uint p)) as H.
  rewrite DecimalPos.Unsigned.of_to in H. simpl in H. congruence.
Qed.

Lemma pos_to_uint_head (p : positive) :
  exists c tl,
    digits_of_uint (Pos.to_uint p) = c :: tl /\
    N.eqb c 48 = false /\ is_digit c = true.
Proof.
  pose proof (pos_to_uint_normal p) as Hn.
  pose proof (DecimalPos.Unsigned.to_uint_nonzero p) as Hz.
  pose proof (DecimalPos.Unsigned.to_uint_nonnil p) as Hnil.
  destruct (Pos.to_uint p) as [|u|u|u|u|u|u|u|u|u|u] eqn:Hd;
    try (simpl; do 2 eexists; repeat split; reflexivity).
  - congruence.
  - exfalso. rewrite DecimalFacts.unorm_D0 in Hn.
    unfold Decimal.unorm in Hn.
    destruct (Decimal.nzhead u) eqn:Hh;
      apply (DecimalFacts.nzhead_nonzero u u); congruence.
Qed.

Lemma delimited_num_end (rest : pystr) :
  delimited rest ->
  match rest with
  | [] => True
  | c :: _ => is_digit c = false /\ N.eqb c 46 = false /\
              (N.eqb c 101 || N.eqb c 69)%bool = false
  end.
Proof.
  destruct rest as [|c r]; [auto|].
  intros [-> | [-> | ->]]; repeat split; reflexivity.
Qed.

Lemma match_int_digits (d : Decimal.uint) (rest : pystr) :
  d = Decimal.zero \/ (exists p, d = Pos.to_uint p) ->
  match rest with [] => True | c :: _ => is_digit c = false end ->
  match_int (digits_of_uint d ++ rest) = Some (digits_of_uint d, rest).
Proof.
  intros [-> | [p ->]] Hr.
  - reflexivity.
  - destruct (pos_to_uint_head p) as (c & tl & Heq & H48 & Hdig).
    pose proof (digits_of_uint_digits (Pos.to_uint p)) as Hall.
    rewrite Heq in *. cbn [Datatypes.app]. unfold match_int.
    rewrite H48, Hdig.
    inversion Hall as [|? ? _ Htl]; subst.
    now rewrite span_digits_app.
Qed.

Lemma match_frac_none (rest : pystr) :
  match rest with [] => True | c :: _ => N.eqb c 46 = false end ->
  match_frac rest = ([], rest).
Proof.
  destruct rest as [|c r]; [reflexivity|]. simpl. now intros ->.
Qed.

Lemma match_exp_none (rest : pystr) :
  match rest with
  | [] => True
  | c :: _ => (N.eqb c 101 || N.eqb c 69)%bool = false
  end ->
  match_exp rest = ([], rest).
Proof.
  destruct rest as [|c r]; [reflexivity|]. simpl. now intros ->.
Qed.

(** [match_number] reads [str(z)] back as the [int] [z]. *)
Lemma match_number_int {fin : Type} (fol : pystr -> pyfloat fin) (z : Z)
      (rest : pystr) :
  delimited rest ->
  match_number fol (str_of_Z z ++ rest) = Some (JInt z, rest).
Proof.
  intros Hdel. apply delimited_num_end in Hdel.
  assert (Hr1 : match rest with [] => True | c :: _ => is_digit c = false end)
    by (destruct rest; tauto).
  assert (Hr2 : match rest with [] => True | c :: _ => N.eqb c 46 = false end)
    by (destruct rest; tauto).
  assert (Hr3 : match rest with
                | [] => True
                | c :: _ => (N.eqb c 101 || N.eqb c 69)%bool = false
                end) by (destruct rest; tauto).
  pose proof (DecimalZ.of_to z) as Hz.
  unfold str_of_Z, match_number.
  assert (Hshape : forall d,
             (d = Decimal.zero \/ exists p, d = Pos.to_uint p) ->
             match_int (digits_of_uint d ++ rest)
             = Some (digits_of_uint d, rest))
    by (intros d Hd; now apply match_int_digits).
  destruct z as [|p|p]; cbn [Z.to_int] in *.
  - cbn -[match_frac match_exp Z.of_int].
    rewrite match_frac_none, match_exp_none by assumption.
    reflexivity.
  - destruct (pos_to_uint_head p) as (c & tl & Heq & H48 & Hdig).
    assert (H45 : N.eqb c 45 = false).
    { unfold is_digit in Hdig. apply andb_true_iff in Hdig.
      destruct Hdig as [Hd _]. apply N.leb_le in Hd. apply N.eqb_neq. lia. }
    specialize (Hshape (Pos.to_uint p)).
    rewrite Heq in *. cbn [Datatypes.app] in *. rewrite H45.
    rewrite Hshape by (right; eauto).
    rewrite match_frac_none, match_exp_none by assumption.
    rewrite <- Heq, uint_of_digits_of_uint. now rewrite Hz.
  - cbn [Datatypes.app]. change (N.eqb 45 45) with true. cbv beta iota.
    rewrite (Hshape (Pos.to_uint p)) by (right; eauto).
    rewrite match_frac_none, match_exp_none by assumption.
    rewrite uint_of_digits_of_uint.
    destruct (digits_of_uint (Pos.to_uint p)); now rewrite Hz.
Qed.

(* --------------------------------------------------------------------- *)
(** ** [json.loads] reads back what [json.dumps] writes: values *)

Lemma json_induction {fin : Type} (P : json fin -> Prop) :
  P JNull ->
  (forall b, P (JBool b)) ->
  (forall z, P (JInt z)) ->
  (forall f, P (JFloat f)) ->
  (forall s, P (JStr s)) ->
  (forall l, Forall P l -> P (JArr l)) ->
  (forall kvs, Forall (fun kv => P (snd kv)) kvs -> P (JObj kvs)) ->
  forall v, P v.
Proof.
  intros Hn Hb Hi Hf Hs Ha Ho.
  fix IH 1. intros [| b | z | f | s | l | kvs].
  - exact Hn.
  - apply Hb.
  - apply Hi.
  - apply Hf.
  - apply Hs.
  - apply Ha. induction l as [|x l IHl]; constructor; [apply IH | exact IHl].
  - apply Ho. induction kvs as [|[k x] kvs IHl]; constructor;
      [apply IH | exact IHl].
Qed.

(** More fuel does not change an answer. *)
Lemma scan_more_fuel {fin : Type} (fol : pystr -> pyfloat fin) (n : nat) :
  (forall s, scan_once fol n s <> PFuel ->
             scan_once fol (S n) s = scan_once fol n s) /\
  (forall s, JSONObject fol n s <> PFuel ->
             JSONObject fol (S n) s = JSONObject fol n s) /\
  (forall s, JSONArray fol n s <> PFuel ->
             JSONArray fol (S n) s = JSONArray fol n s).
Proof.
  induction n as [|n (IHv & IHo & IHa)].
  - repeat split; intros s H; exfalso; apply H; reflexivity.
  - split; [|split].
    + intros s. rewrite (scan_once_S fol (S n)), (scan_once_S fol n).
      destruct s as [|c r]; [reflexivity|].
      destruct (N.eqb c 34); [reflexivity|].
      destruct (N.eqb c 123).
      { destruct (skip_ws r) as [|c1 r1]; [reflexivity|].
        destruct (N.eqb c1 125); [reflexivity|].
        intros H. rewrite IHo; [reflexivity|].
        intros Hf. rewrite Hf in H. now apply H. }
      destruct (N.eqb c 91).
      { destruct (skip_ws r) as [|c1 r1]; [reflexivity|].
        destruct (N.eqb c1 93); [reflexivity|].
        intros H. rewrite IHa; [reflexivity|].
        intros Hf. rewrite Hf in H. now apply H. }
      reflexivity.
    + intros s. rewrite (JSONObject_S fol (S n)), (JSONObject_S fol n).
      destruct s as [|q r]; [reflexivity|].
      destruct (N.eqb q 34); [|reflexivity].
      destruct (scanstring r) as [[key r1]|]; [|reflexivity].
      destruct (skip_ws r1) as [|col r2]; [reflexivity|].
      destruct (N.eqb col 58); [|reflexivity].
      intros H.
      rewrite IHv by (intros Hf; rewrite Hf in H; now apply H).
      destruct (scan_once fol n (skip_ws r2)) as [v r3| |]; try reflexivity.
      destruct (skip_ws r3) as [|d r4]; [reflexivity|].
      destruct (N.eqb d 125); [reflexivity|].
      destruct (N.eqb d 44); [|reflexivity].
      rewrite IHo by (intros Hf; rewrite Hf in H; now apply H).
      reflexivity.
    + intros s. rewrite (JSONArray_S fol (S n)), (JSONArray_S fol n).
      intros H.
      rewrite IHv by (intros Hf; rewrite Hf in H; now apply H).
      destruct (scan_once fol n s) as [v r| |]; try reflexivity.
      destruct (skip_ws r) as [|d r1]; [reflexivity|].
      destruct (N.eqb d 93); [reflexivity|].
      destruct (N.eqb d 44); [|reflexivity].
      rewrite IHa by (intros Hf; rewrite Hf in H; now apply H).
      reflexivity.
Qed.

Lemma scan_once_mono {fin : Type} (fol : pystr -> pyfloat fin) n m s :
  n <= m -> scan_once fol n s <> PFuel ->
  scan_once fol m s = scan_once fol n s.
Proof.
  induction 1 as [|m Hle IH]; [reflexivity|].
  intros H. rewrite (proj1 (scan_more_fuel fol m)); rewrite IH; auto.
Qed.

Lemma JSONObject_mono {fin : Type} (fol : pystr -> pyfloat fin) n m s :
  n <= m -> JSONObject fol n s <> PFuel ->
  JSONObject fol m s = JSONObject fol n s.
Proof.
  induction 1 as [|m Hle IH]; [reflexivity|].
  intros H. rewrite (proj1 (proj2 (scan_more_fuel fol m))); rewrite IH; auto.
Qed.

Lemma JSONArray_mono {fin : Type} (fol : pystr -> pyfloat fin) n m s :
  n <= m -> JSONArray fol n s <> PFuel ->
  JSONArray fol m s = JSONArray fol n s.
Proof.
  induction 1 as [|m Hle IH]; [reflexivity|].
  intros H. rewrite (proj2 (proj2 (scan_more_fuel fol m))); rewrite IH; auto.
Qed.

Lemma scan_once_ok_mono {fin : Type} (fol : pystr -> pyfloat fin) n m s v r :
  n <= m -> scan_once fol n s = POk v r -> scan_once fol m s = POk v r.
Proof.
  intros Hle H. rewrite (scan_once_mono fol n m s Hle); [exact H|].
  rewrite H. discriminate.
Qed.

Lemma JSONObject_ok_mono {fin : Type} (fol : pystr -> pyfloat fin) n m s v r :
  n <= m -> JSONObject fol n s = POk v r -> JSONObject fol m s = POk v r.
Proof.
  intros Hle H. rewrite (JSONObject_mono fol n m s Hle); [exact H|].
  rewrite H. discriminate.
Qed.

Lemma JSONArray_ok_mono {fin : Type} (fol : pystr -> pyfloat fin) n m s v r :
  n <= m -> JSONArray fol n s = POk v r -> JSONArray fol m s = POk v r.
Proof.
  intros Hle H. rewrite (JSONArray_mono fol n m s Hle); [exact H|].
  rewrite H. discriminate.
Qed.

Lemma match_number_head {fin : Type} (fol : pystr -> pyfloat fin) s v r :
  match_number fol s = Some (v, r) ->
  exists c tl, s = c :: tl /\ (c = 45%N \/ is_digit c = true).
Proof.
  unfold match_number. destruct s as [|c r0]; [discriminate|].
  destruct (N.eqb_spec c 45); [eauto|].
  unfold match_int.
  destruct (N.eqb_spec c 48); [subst; eauto|].
  destruct (is_digit c) eqn:Hd; [eauto|discriminate].
Qed.

(** A text that starts as a number is read by [match_number]. *)
Lemma scan_once_number {fin : Type} (fol : pystr -> pyfloat fin) n s v r :
  match_number fol s = Some (v, r) -> scan_once fol (S n) s = POk v r.
Proof.
  intros H. destruct (match_number_head fol s v r H) as (c & tl & -> & Hc).
  rewrite scan_once_S, H.
  assert (Hn : N.eqb c 34 = false /\ N.eqb c 123 = false /\ N.eqb c 91 = false
               /\ N.eqb c 110 = false /\ N.eqb c 116 = false
               /\ N.eqb c 102 = false).
  { destruct Hc as [-> | Hd]; [repeat split; reflexivity|].
    unfold is_digit in Hd. apply andb_true_iff in Hd. destruct Hd as [H1 H2].
    apply N.leb_le in H1, H2.
    repeat split; apply N.eqb_neq; lia. }
  destruct Hn as (H1 & H2 & H3 & H4 & H5 & H6).
  rewrite H1, H2, H3.
  cbn [startswith lit list_ascii_of_string map].
  change (N_of_ascii "n") with 110%N. change (N_of_ascii "t") with 116%N.
  change (N_of_ascii "f") with 102%N.
  rewrite H4, H5, H6. reflexivity.
Qed.

Lemma dict_set_fresh {V : Type} (d : list (pystr * V)) k v :
  existsb (pystr_eqb k) (map fst d) = false ->
  dict_set d k v = d ++ [(k, v)].
Proof.
  induction d as [|[k' v'] d IH]; simpl; [reflexivity|].
  intros H. apply orb_false_iff in H. destruct H as [Hk Hd].
  assert (Hk' : pystr_eqb k' k = false).
  { apply pystr_eqb_neq. apply pystr_eqb_neq in Hk. congruence. }
  rewrite Hk', IH by exact Hd. reflexivity.
Qed.

Lemma existsb_app_false {A : Type} (f : A -> bool) (a b : list A) :
  existsb f (a ++ b) = false <-> existsb f a = false /\ existsb f b = false.
Proof. rewrite existsb_app. apply orb_false_iff. Qed.

Lemma fold_dict_set_distinct {V : Type} (ps acc : list (pystr * V)) :
  distinct (map fst ps) = true ->
  (forall kv, In kv ps -> existsb (pystr_eqb (fst kv)) (map fst acc) = false) ->
  fold_left (fun d kv => dict_set d (fst kv) (snd kv)) ps acc = acc ++ ps.
Proof.
  revert acc. induction ps as [|[k v] ps IH]; intros acc Hd Hacc; simpl.
  - now rewrite app_nil_r.
  - simpl in Hd. apply andb_true_iff in Hd. destruct Hd as [Hk Hd].
    apply negb_true_iff in Hk.
    rewrite dict_set_fresh by (apply (Hacc (k, v)); now left).
    rewrite IH; [now rewrite <- app_assoc| exact Hd |].
    intros [k' v'] Hin. rewrite map_app. apply existsb_app_false. split.
    + apply Hacc. now right.
    + simpl. rewrite orb_false_r.
      destruct (pystr_eqb k' k) eqn:Hkk; [|reflexivity].
      apply pystr_eqb_eq in Hkk. subst k'.
      assert (Hex : existsb (pystr_eqb k) (map fst ps) = true).
      { apply existsb_exists. exists k. split; [|apply pystr_eqb_refl].
        apply in_map_iff. exists (k, v'). auto. }
      congruence.
Qed.

Lemma dict_of_pairs_distinct {V : Type} (ps : list (pystr * V)) :
  distinct (map fst ps) = true -> dict_of_pairs ps = ps.
Proof.
  intros H. unfold dict_of_pairs.
  rewrite fold_dict_set_distinct; auto.
Qed.

Lemma opens_value_number {fin : Type} (fol : pystr -> pyfloat fin) s v :
  match_number fol (s ++ []) = Some (v, []) -> opens_value s.
Proof.
  rewrite app_nil_r. intros H.
  destruct (match_number_head fol s v [] H) as (c & tl & -> & Hc).
  exists c, tl. split; [reflexivity|].
  destruct Hc as [-> | Hd]; [repeat split; reflexivity|].
  unfold is_digit in Hd. apply andb_true_iff in Hd. destruct Hd as [H1 H2].
  apply N.leb_le in H1, H2. unfold is_ws.
  repeat split; try (apply N.eqb_neq; lia).
  repeat (apply orb_false_iff; split); apply N.eqb_neq; lia.
Qed.

Lemma json_dumps_opens {fin : Type} (fol : pystr -> pyfloat fin)
      (fr : fin -> pystr) (v : json fin) :
  repr_reads_back fol fr -> opens_value (json_dumps fr v).
Proof.
  intros Hrepr.
  destruct v as [| [|] | z | [| | |x] | s | l | kvs]; cbn [json_dumps float_dumps];
    try (do 2 eexists; split; [reflexivity|]; repeat split; reflexivity).
  - apply (opens_value_number fol _ (JInt z)).
    apply match_number_int. exact I.
  - apply (opens_value_number fol _ (JFloat (FFin x))).
    apply Hrepr. exact I.
Qed.

Lemma skip_ws_opens (s rest : pystr) :
  opens_value s -> skip_ws (s ++ rest) = s ++ rest.
Proof.
  intros (c & tl & -> & Hws & _). cbn [Datatypes.app skip_ws]. now rewrite Hws.
Qed.

Section RoundTrip.

Variable fin : Type.
Variable fol : pystr -> pyfloat fin.
Variable fr : fin -> pystr.
Hypothesis Hrepr : repr_reads_back fol fr.

Lemma join_cons_cons (sep p q : pystr) (ps : list pystr) :
  join sep (p :: q :: ps) = p ++ sep ++ join sep (q :: ps).
Proof. reflexivity. Qed.

Lemma join_dumps_opens (x : json fin) (l : list (json fin)) :
  opens_value (join (lit ", ") (map (json_dumps fr) (x :: l))).
Proof.
  destruct (json_dumps_opens fol fr x Hrepr) as (c & tl & Hx & H).
  destruct l as [|y l]; cbn [map].
  - cbn [join]. rewrite Hx. exists c, tl. auto.
  - rewrite join_cons_cons, Hx. exists c. eexists. split; [reflexivity|exact H].
Qed.

Lemma array_items_read_back (l : list (json fin)) :
  Forall (reads_back fol fr) l -> l <> [] ->
  forall rest,
  exists n,
    JSONArray fol n (join (lit ", ") (map (json_dumps fr) l) ++ 93%N :: rest)
    = POk l rest.
Proof.
  induction 1 as [|x l Hx Hl IH]; [congruence|]. intros _ rest.
  destruct l as [|y l'].
  - cbn [map join].
    destruct (Hx (93%N :: rest)) as [n Hn]; [simpl; auto|].
    exists (S n). rewrite JSONArray_S, Hn. reflexivity.
  - destruct (IH ltac:(discriminate) rest) as [n2 H2].
    set (J := join (lit ", ") (map (json_dumps fr) (y :: l'))) in *.
    assert (HJ : join (lit ", ") (map (json_dumps fr) (x :: y :: l'))
                 = json_dumps fr x ++ lit ", " ++ J) by reflexivity.
    rewrite HJ, <- !app_assoc.
    destruct (Hx (lit ", " ++ J ++ 93%N :: rest)) as [n1 H1]; [simpl; auto|].
    exists (S (Nat.max n1 n2)). rewrite JSONArray_S.
    rewrite (scan_once_ok_mono fol n1 _ _ _ _ (Nat.le_max_l n1 n2) H1).
    change (lit ", " ++ J ++ 93%N :: rest)
      with (44%N :: 32%N :: J ++ 93%N :: rest).
    cbn [skip_ws]. change (is_ws 44) with false. cbv beta iota.
    change (N.eqb 44 93) with false. change (N.eqb 44 44) with true.
    cbv beta iota. cbn [skip_ws]. change (is_ws 32) with true.
    cbv beta iota.
    assert (Hsk : skip_ws (J ++ 93%N :: rest) = J ++ 93%N :: rest)
      by (unfold J; apply skip_ws_opens, join_dumps_opens).
    rewrite Hsk.
    rewrite (JSONArray_ok_mono fol n2 _ _ _ _ (Nat.le_max_r n1 n2) H2).
    reflexivity.
Qed.

Lemma member_text_head (kv : pystr * json fin) :
  exists tl, (member_text fr) kv = 34%N :: tl.
Proof. unfold member_text, encode_basestring_ascii. eexists. reflexivity. Qed.

Lemma join_members_head (kv : pystr * json fin) (l : list (pystr * json fin))
      (rest : pystr) :
  exists tl, join (lit ", ") (map (member_text fr) (kv :: l)) ++ rest = 34%N :: tl.
Proof.
  destruct (member_text_head kv) as [tl Htl].
  destruct l as [|kv' l]; cbn [map].
  - cbn [join]. rewrite Htl. eexists. reflexivity.
  - rewrite join_cons_cons, Htl. eexists. reflexivity.
Qed.

Lemma object_members_read_back (kvs : list (pystr * json fin)) :
  Forall (fun kv => (reads_back fol fr) (snd kv)) kvs ->
  forallb (fun kv => str_ok (fst kv)) kvs = true ->
  kvs <> [] ->
  forall rest,
  exists n,
    JSONObject fol n (join (lit ", ") (map (member_text fr) kvs) ++ 125%N :: rest)
    = POk kvs rest.
Proof.
  induction 1 as [|[k v] l Hx Hl IH]; [congruence|]. intros Hk _ rest.
  cbn [forallb fst] in Hk. apply andb_true_iff in Hk. destruct Hk as [Hk Hks].
  cbn [snd] in Hx.
  assert (Hone : forall tail,
             delimited tail ->
             exists n, forall m, n <= m ->
               JSONObject fol (S m) ((member_text fr) (k, v) ++ tail)
               = match tail with
                 | d :: r4 =>
                     if N.eqb d 125 then POk [(k, v)] r4
                     else if N.eqb d 44 then
                       match JSONObject fol m (skip_ws r4) with
                       | POk ps r5 => POk ((k, v) :: ps) r5
                       | PErr => PErr
                       | PFuel => PFuel
                       end
                     else PErr
                 | [] => PErr
                 end).
  { intros tail Hd. destruct (Hx tail Hd) as [n Hn]. exists n. intros m Hm.
    rewrite JSONObject_S. unfold member_text, encode_basestring_ascii.
    cbn [fst snd]. rewrite <- !app_assoc.
    change ((34%N :: flat_map escape_cp k ++ [34%N])
            ++ lit ": " ++ json_dumps fr v ++ tail)
      with (34%N :: (flat_map escape_cp k ++ [34%N])
                     ++ lit ": " ++ json_dumps fr v ++ tail).
    rewrite <- app_assoc.
    change ([34%N] ++ lit ": " ++ json_dumps fr v ++ tail)
      with (34%N :: 58%N :: 32%N :: json_dumps fr v ++ tail).
    change (N.eqb 34 34) with true. cbv beta iota.
    rewrite (scanstring_escaped k _ Hk).
    cbn [skip_ws]. change (is_ws 58) with false. cbv beta iota.
    change (N.eqb 58 58) with true. cbv beta iota.
    cbn [skip_ws]. change (is_ws 32) with true. cbv beta iota.
    rewrite (skip_ws_opens _ _ (json_dumps_opens fol fr v Hrepr)).
    rewrite (scan_once_ok_mono fol n m _ _ _ Hm Hn).
    destruct tail as [|d r4]; [reflexivity|].
    assert (Hws : is_ws d = false)
      by (destruct Hd as [-> | [-> | ->]]; reflexivity).
    cbn [skip_ws]. rewrite Hws. reflexivity. }
  destruct l as [|kv' l'].
  - cbn [map join].
    destruct (Hone (125%N :: rest)) as [n Hn]; [simpl; auto|].
    exists (S n). rewrite (Hn n (le_n n)). reflexivity.
  - destruct (IH Hks ltac:(discriminate) rest) as [n2 H2].
    set (J := join (lit ", ") (map (member_text fr) (kv' :: l'))) in *.
    assert (HJ : join (lit ", ") (map (member_text fr) ((k, v) :: kv' :: l'))
                 = (member_text fr) (k, v) ++ lit ", " ++ J) by reflexivity.
    rewrite HJ, <- !app_assoc.
    destruct (Hone (lit ", " ++ J ++ 125%N :: rest)) as [n1 H1];
      [simpl; auto|].
    exists (S (Nat.max n1 n2)).
    rewrite (H1 _ (Nat.le_max_l n1 n2)).
    change (lit ", " ++ J ++ 125%N :: rest)
      with (44%N :: 32%N :: J ++ 125%N :: rest).
    change (N.eqb 44 125) with false. change (N.eqb 44 44) with true.
    cbv beta iota.
    cbn [skip_ws]. change (is_ws 32) with true. cbv beta iota.
    destruct (join_members_head kv' l' (125%N :: rest)) as [tl Htl].
    assert (Hsk : skip_ws (J ++ 125%N :: rest) = J ++ 125%N :: rest).
    { unfold J. rewrite Htl. reflexivity. }
    rewrite Hsk.
    rewrite (JSONObject_ok_mono fol n2 _ _ _ _ (Nat.le_max_r n1 n2) H2).
    reflexivity.
Qed.

(** Every well-formed value is read back from its text. *)
Lemma value_reads_back (v : json fin) : json_ok v = true -> (reads_back fol fr) v.
Proof.
  induction v as [| b | z | f | s | l IHl | kvs IHk] using json_induction;
    intros Hok rest Hdel.
  - exists 1. reflexivity.
  - exists 1. destruct b; reflexivity.
  - exists 1. apply scan_once_number. now apply match_number_int.
  - destruct f as [| | |x].
    + exists 1. reflexivity.
    + exists 1. reflexivity.
    + exists 1. reflexivity.
    + exists 1. apply scan_once_number. now apply Hrepr.
  - exists 1. cbn [json_dumps json_ok] in *.
    destruct (scanstring_encoded s rest Hok) as (t & Ht & Hs).
    rewrite Ht, scan_once_S. change (N.eqb 34 34) with true.
    cbv beta iota. now rewrite Hs.
  - cbn [json_dumps json_ok] in *.
    assert (Hall : Forall (reads_back fol fr) l).
    { rewrite forallb_forall in Hok. rewrite Forall_forall in *.
      intros x Hx. apply IHl; auto. }
    destruct l as [|x l'].
    + exists 1. reflexivity.
    + destruct (array_items_read_back (x :: l') Hall ltac:(discriminate) rest)
        as [n Hn].
      exists (S n). rewrite scan_once_S.
      cbn [Datatypes.app]. rewrite <- app_assoc. cbn [Datatypes.app].
      change (N.eqb 91 34) with false. change (N.eqb 91 123) with false.
      change (N.eqb 91 91) with true. cbv beta iota.
      destruct (join_dumps_opens x l') as (c & tl & Hj & Hws & H93 & _).
      rewrite (skip_ws_opens _ _ (join_dumps_opens x l')).
      rewrite Hn. rewrite Hj. cbn [Datatypes.app]. now rewrite H93.
  - cbn [json_ok] in Hok.
    apply andb_true_iff in Hok. destruct Hok as [Hdist Hok].
    assert (Hall : Forall (fun kv => (reads_back fol fr) (snd kv)) kvs).
    { rewrite forallb_forall in Hok. rewrite Forall_forall in *.
      intros kv Hkv. apply IHk; auto.
      specialize (Hok kv Hkv). apply andb_true_iff in Hok. tauto. }
    assert (Hkeys : forallb (fun kv => str_ok (fst kv)) kvs = true).
    { rewrite forallb_forall in *. intros kv Hkv.
      specialize (Hok kv Hkv). apply andb_true_iff in Hok. tauto. }
    destruct kvs as [|kv l'].
    + exists 1. reflexivity.
    + destruct (object_members_read_back (kv :: l') Hall Hkeys
                  ltac:(discriminate) rest) as [n Hn].
      destruct (join_members_head kv l' (125%N :: rest)) as [tl Htl].
      set (J := join (lit ", ") (map (member_text fr) (kv :: l'))) in *.
      change (json_dumps fr (JObj (kv :: l'))) with (123%N :: J ++ [125%N]).
      exists (S n). rewrite scan_once_S.
      cbn [Datatypes.app]. rewrite <- app_assoc. cbn [Datatypes.app].
      change (N.eqb 123 34) with false. change (N.eqb 123 123) with true.
      cbv beta iota.
      assert (Hsk : skip_ws (J ++ 125%N :: rest) = J ++ 125%N :: rest)
        by (rewrite Htl; reflexivity).
      rewrite Hsk, Hn. rewrite Htl.
      change (N.eqb 34 125) with false. cbv beta iota.
      now rewrite dict_of_pairs_distinct.
Qed.

(** [json.loads(json.dumps(v)) == v] *)
Lemma json_loads_dumps (v : json fin) :
  json_ok v = true -> json_loads fol (json_dumps fr v) = Ret v.
Proof.
  intros Hok.
  destruct (value_reads_back v Hok [] I) as [n Hn].
  rewrite app_nil_r in Hn.
  destruct (json_dumps_opens fol fr v Hrepr) as (c & tl & Hd & Hws & _).
  unfold json_loads.
  assert (Hbom : startswith (json_dumps fr v) [65279%N] = false).
  { rewrite Hd. cbn [startswith].
    destruct (N.eqb_spec c 65279) as [-> | _]; [|reflexivity].
    exfalso.
    assert (Hh : exists x y, json_dumps fr v = x :: y /\ (x < 128)%N).
    { clear - Hrepr.
      destruct v as [| [|] | z | [| | |x] | s | l | kvs];
        cbn [json_dumps float_dumps];
        try (do 2 eexists; split; [reflexivity|reflexivity]).
      - pose proof (match_number_int fol z [] I) as Hm.
        apply match_number_head in Hm. destruct Hm as (c & tl & Hm & Hc).
        rewrite app_nil_r in Hm. rewrite Hm. exists c, tl. split; [reflexivity|].
        destruct Hc as [-> | Hc]; [reflexivity|].
        unfold is_digit in Hc. apply andb_true_iff in Hc.
        destruct Hc as [_ Hc]. apply N.leb_le in Hc. lia.
      - pose proof (Hrepr x [] I) as Hm.
        apply match_number_head in Hm. destruct Hm as (c & tl & Hm & Hc).
        rewrite app_nil_r in Hm. rewrite Hm. exists c, tl. split; [reflexivity|].
        destruct Hc as [-> | Hc]; [reflexivity|].
        unfold is_digit in Hc. apply andb_true_iff in Hc.
        destruct Hc as [_ Hc]. apply N.leb_le in Hc. lia. }
    destruct Hh as (x & y & Hxy & Hlt). rewrite Hd in Hxy.
    injection Hxy as <- _. lia. }
  rewrite Hbom.
  assert (Hsk : skip_ws (json_dumps fr v) = json_dumps fr v).
  { rewrite Hd. cbn [skip_ws]. now rewrite Hws. }
  rewrite Hsk.
  destruct (proj1 (scan_fuel fol (loads_fuel (json_dumps fr v)))
                  (json_dumps fr v)) as [Hf _].
  { unfold loads_fuel. lia. }
  set (k := loads_fuel (json_dumps fr v)) in *.
  assert (Hk : scan_once fol k (json_dumps fr v) = POk v []).
  { rewrite <- (scan_once_mono fol k (Nat.max k n) _ (Nat.le_max_l k n) Hf).
    apply (scan_once_ok_mono fol n (Nat.max k n) _ _ _ (Nat.le_max_r k n) Hn). }
  rewrite Hk. reflexivity.
Qed.

End RoundTrip.

(* --------------------------------------------------------------------- *)
(** ** What [bytes.decode] and [json.loads] build is well formed *)





Lemma small_not_surrogate (c : N) :
  (c < 55296)%N -> is_high_surrogate c = false /\ is_low_surrogate c = false.
Proof.
  intros H. unfold is_high_surrogate, is_low_surrogate, in_range.
  split; apply andb_false_iff; left; apply N.leb_gt; lia.
Qed.
























(* --------------------------------------------------------------------- *)
(** ** Telemetry: what [handle_rx] hands to the MQTT client *)

Lemma accepted_app {fin : Type} (E : env fin) (a b : list (event fin)) :
  accepted E (a ++ b) <-> accepted E a /\ accepted E b.
Proof. apply Forall_app. Qed.

Lemma publish_run {fin : Type} (E : env fin) topic payload retain
      (w : world fin) :
  accepted E [Publish topic payload retain] ->
  publish E topic payload retain w
  = (Ret tt, advance w [Publish topic payload retain] 0).
Proof.
  intros H. apply Forall_inv in H. unfold publish. now rewrite H.
Qed.

Lemma for_each_events {fin A : Type} (E : env fin) (xs : list A)
      (body : A -> M fin unit) (evs : A -> list (event fin)) :
  (forall x w, In x xs -> accepted E (evs x) ->
               body x w = (Ret tt, advance w (evs x) 0)) ->
  forall w, accepted E (flat_map evs xs) ->
            for_each xs body w = (Ret tt, advance w (flat_map evs xs) 0).
Proof.
  induction xs as [|x xs IH]; intros Hb w Hacc; simpl.
  - unfold ret. now rewrite advance_nil.
  - simpl in Hacc. apply accepted_app in Hacc. destruct Hacc as [H1 H2].
    unfold bind. rewrite (Hb x w (or_introl eq_refl) H1).
    rewrite IH; [now rewrite advance_advance| |exact H2].
    intros y w0 Hy. apply Hb. now right.
Qed.

Lemma contains_dict_get {V : Type} (kvs : list (pystr * V)) k :
  existsb (fun kv => pystr_eqb (fst kv) k) kvs
  = match dict_get kvs k with Some _ => true | None => false end.
Proof.
  unfold dict_get. induction kvs as [|[k' v] l IH]; simpl; [reflexivity|].
  destruct (pystr_eqb k' k); [reflexivity|exact IH].
Qed.

Lemma publish_pack_run {fin : Type} (fr : fin -> pystr) cs (E : env fin)
      (pack : json fin) (w : world fin) :
  has_serial pack -> accepted E (pack_events fr cs pack) ->
  publish_pack fr cs E pack w = (Ret tt, advance w (pack_events fr cs pack) 0).
Proof.
  destruct pack as [| | | | | |kvs]; try contradiction.
  unfold has_serial, pack_events, publish_pack, bind, liftR, py_pop.
  destruct (dict_get kvs (lit "sn")) as [sn|]; [|congruence].
  intros _ Hacc. cbn [fst snd py_items]. rewrite log_run.
  apply Forall_inv_tail in Hacc.
  set (items := dict_remove kvs (lit "sn")) in *.
  set (ev := fun kv : pystr * json fin =>
               Publish (pack_topic fr cs sn (fst kv)) (snd kv) false) in *.
  assert (Hflat : flat_map (fun kv => [ev kv]) items = map ev items).
  { clear. induction items; simpl; congruence. }
  rewrite (for_each_events E items _ (fun kv => [ev kv])).
  - now rewrite advance_advance, Hflat.
  - intros x w0 _ Hx. now apply publish_run.
  - now rewrite Hflat.
Qed.

Lemma log_info_response_plain {fin : Type} (top : list (pystr * json fin))
      (w : world fin) :
  dict_get top (lit "method") = None ->
  log_info_response (JObj top) w = (Ret tt, w).
Proof.
  intros Hm. unfold log_info_response, bind, liftR, py_contains.
  now rewrite contains_dict_get, Hm.
Qed.

Lemma dispatch_packs {fin : Type} (fr : fin -> pystr) cs (E : env fin) G
      (top : list (pystr * json fin)) (packs : list (json fin))
      (w : world fin) :
  dict_get top (lit "method") = None ->
  dict_get top (lit "properties") = None ->
  dict_get top (lit "packData") = Some (JArr packs) ->
  Forall has_serial packs ->
  accepted E (packs_events fr cs packs) ->
  mq_client w = true ->
  dispatch fr cs E G (JObj top) w
  = (Ret tt,
     advance w (Log DEBUG (Received (JObj top)) :: packs_events fr cs packs) 0).
Proof.
  intros Hm Hp Hk Hsn Hacc Hmq.
  unfold dispatch, bind. rewrite log_run, log_info_response_plain by exact Hm.
  unfold get_mq_client. cbn [mq_client advance]. rewrite Hmq.
  unfold when, bind, liftR, py_contains.
  rewrite !contains_dict_get, Hp, Hk.
  unfold ret, publish_packs, bind, liftR, py_getitem. rewrite Hk.
  cbn [py_len]. destruct packs as [|p ps]; [reflexivity|].
  cbn [List.length Nat.ltb Nat.leb when py_iter].
  unfold bind. rewrite log_run.
  unfold packs_events in Hacc |- *. apply Forall_inv_tail in Hacc.
  rewrite (for_each_events E (p :: ps) _ (pack_events fr cs)).
  - now rewrite !advance_advance.
  - intros x w0 Hx Hax. apply publish_pack_run; [|exact Hax].
    exact (proj1 (Forall_forall _ _) Hsn x Hx).
  - exact Hacc.
Qed.

Lemma publish_properties_run {fin : Type} (fr : fin -> pystr) (E : env fin) G
      (top props : list (pystr * json fin)) (w : world fin) :
  dict_get top (lit "properties") = Some (JObj props) ->
  accepted E (flat_map property_events props) ->
  accepted E [Publish (state_topic G)
                      (JStr (json_dumps fr (JObj props))) false] ->
  publish_properties fr E G (JObj top) w
  = (Ret tt,
     advance w (Log DEBUG (PropertiesReceived (List.length props))
                :: flat_map property_events props
                ++ [Publish (state_topic G)
                            (JStr (json_dumps fr (JObj props))) false]) 0).
Proof.
  intros Hp Hacc Hagg.
  unfold publish_properties, bind, liftR, py_getitem. rewrite Hp.
  cbn [py_len py_items]. rewrite log_run.
  rewrite (for_each_events E props _ property_events).
  - rewrite publish_run by exact Hagg. rewrite !advance_advance. reflexivity.
  - intros [k v] w0 _ Hx. unfold property_events in *. cbn [fst snd] in *.
    unfold bind, when. destruct (is_number v).
    + rewrite log_run. apply Forall_inv_tail in Hx.
      rewrite publish_run by exact Hx. now rewrite advance_advance.
    + unfold ret. now apply publish_run.
  - exact Hacc.
Qed.


Lemma log_info_response_identified {fin : Type}
      (top : list (pystr * json fin)) (w : world fin) :
  identified top ->
  log_info_response (JObj top) w = (Ret tt, advance w (info_records top) 0).
Proof.
  unfold identified, info_records, is_info_response.
  intros Hid. unfold log_info_response, bind, liftR, py_contains, py_getitem.
  rewrite contains_dict_get.
  destruct (dict_get top (lit "method")) as [m|];
    [|unfold ret, when; now rewrite advance_nil].
  unfold ret. destruct (is_str m (lit "getInfo-rsp"));
    [|unfold when, ret; now rewrite advance_nil].
  destruct (Hid eq_refl) as [Hi Hs]. unfold when.
  destruct (dict_get top (lit "deviceId")) as [id|]; [|congruence].
  destruct (dict_get top (lit "deviceSn")) as [sn|]; [|congruence].
  now rewrite !log_run, advance_advance.
Qed.

(** Past the [getInfo-rsp] block, with an MQTT client set. *)
Lemma dispatch_identified {fin : Type} (fr : fin -> pystr) cs (E : env fin) G
      (top : list (pystr * json fin)) (w : world fin) :
  identified top ->
  mq_client w = true ->
  dispatch fr cs E G (JObj top) w
  = ((has_props <- liftR (py_contains (lit "properties") (JObj top)) ;;
      when has_props (publish_properties fr E G (JObj top)) ;;
      has_packs <- liftR (py_contains (lit "packData") (JObj top)) ;;
      when has_packs (publish_packs fr cs E (JObj top)))%py
       (advance w (Log DEBUG (Received (JObj top)) :: info_records top) 0)).
Proof.
  intros Hid Hmq. unfold dispatch, bind.
  rewrite log_run, (log_info_response_identified top _ Hid).
  rewrite advance_advance.
  unfold get_mq_client. cbn [mq_client advance]. rewrite Hmq. reflexivity.
Qed.

Lemma published_info_records {fin : Type} (top : list (pystr * json fin)) :
  published (info_records top) = [].
Proof.
  unfold info_records.
  destruct (is_info_response top); [|reflexivity].
  destruct (dict_get top (lit "deviceId")); [|reflexivity].
  destruct (dict_get top (lit "deviceSn")); reflexivity.
Qed.

Lemma published_packs_events {fin : Type} (fr : fin -> pystr) cs
      (packs : list (json fin)) :
  published (packs_events fr cs packs)
  = published (flat_map (pack_events fr cs) packs).
Proof. destruct packs; reflexivity. Qed.

Lemma publish_packs_run {fin : Type} (fr : fin -> pystr) cs (E : env fin)
      (top : list (pystr * json fin)) (packs : list (json fin))
      (w : world fin) :
  dict_get top (lit "packData") = Some (JArr packs) ->
  Forall has_serial packs ->
  accepted E (packs_events fr cs packs) ->
  publish_packs fr cs E (JObj top) w
  = (Ret tt, advance w (packs_events fr cs packs) 0).
Proof.
  intros Hk Hsn Hacc.
  unfold publish_packs, bind, liftR, py_getitem. rewrite Hk.
  cbn [py_len]. destruct packs as [|p ps].
  { cbn [List.length Nat.ltb Nat.leb when packs_events]. unfold ret.
    now rewrite advance_nil. }
  cbn [List.length Nat.ltb Nat.leb when py_iter].
  unfold bind. rewrite log_run.
  unfold packs_events in Hacc |- *. apply Forall_inv_tail in Hacc.
  rewrite (for_each_events E (p :: ps) _ (pack_events fr cs)).
  - now rewrite !advance_advance.
  - intros x w0 Hx Hax. apply publish_pack_run; [|exact Hax].
    exact (proj1 (Forall_forall _ _) Hsn x Hx).
  - exact Hacc.
Qed.

(** The properties block of an object whose properties, if any, are a
    mapping the client takes. *)
Lemma properties_block_run {fin : Type} (fr : fin -> pystr) (E : env fin) G
      (top : list (pystr * json fin)) (w : world fin) :
  properties_ok top ->
  accepted E (properties_block fr G top) ->
  (has_props <- liftR (py_contains (lit "properties") (JObj top)) ;;
   when has_props (publish_properties fr E G (JObj top)))%py w
  = (Ret tt, advance w (properties_block fr G top) 0).
Proof.
  unfold properties_ok, properties_block. intros Hok Hacc.
  unfold bind, liftR, py_contains. rewrite contains_dict_get.
  destruct (dict_get top (lit "properties")) as [v|] eqn:Hp;
    [|unfold when, ret; now rewrite advance_nil].
  destruct v as [| | | | | |props]; try contradiction.
  unfold when. apply Forall_inv_tail in Hacc.
  apply accepted_app in Hacc. destruct Hacc as [H1 H2].
  exact (publish_properties_run fr E G top props w Hp H1 H2).
Qed.

(** The pack block of an object whose pack data, if any, is a list of
    packs with a serial that the client takes. *)
Lemma pack_data_block_run {fin : Type} (fr : fin -> pystr) cs (E : env fin)
      (top : list (pystr * json fin)) (w : world fin) :
  pack_data_ok top ->
  accepted E (pack_data_block fr cs top) ->
  (has_packs <- liftR (py_contains (lit "packData") (JObj top)) ;;
   when has_packs (publish_packs fr cs E (JObj top)))%py w
  = (Ret tt, advance w (pack_data_block fr cs top) 0).
Proof.
  unfold pack_data_ok, pack_data_block. intros Hok Hacc.
  unfold bind, liftR, py_contains. rewrite contains_dict_get.
  destruct (dict_get top (lit "packData")) as [v|] eqn:Hk;
    [|unfold when, ret; now rewrite advance_nil].
  destruct v as [| | | | |packs|]; try contradiction.
  unfold when.
  exact (publish_packs_run fr cs E top packs w Hk Hok Hacc).
Qed.

(** [dispatch] on an object none of whose blocks raises: the records of
    the device information, the properties block, the pack block. *)
Lemma dispatch_fan_out {fin : Type} (fr : fin -> pystr) cs (E : env fin) G
      (top : list (pystr * json fin)) (w : world fin) :
  identified top ->
  properties_ok top ->
  pack_data_ok top ->
  accepted E (properties_block fr G top) ->
  accepted E (pack_data_block fr cs top) ->
  mq_client w = true ->
  dispatch fr cs E G (JObj top) w
  = (Ret tt,
     advance w (Log DEBUG (Received (JObj top))
                :: info_records top
                ++ properties_block fr G top
                ++ pack_data_block fr cs top) 0).
Proof.
  intros Hid Hpo Hko Hpa Hka Hmq.
  rewrite (dispatch_identified fr cs E G top w Hid Hmq).
  set (w1 := advance w (Log DEBUG (Received (JObj top)) :: info_records top) 0).
  pose proof (properties_block_run fr E G top w1 Hpo Hpa) as Hp.
  unfold bind in Hp |- *.
  destruct (liftR (py_contains (lit "properties") (JObj top)) w1)
    as [[hp| |] w2] eqn:Hc; try discriminate Hp.
  destruct (when hp (publish_properties fr E G (JObj top)) w2)
    as [[[]| |] w3]; try discriminate Hp.
  injection Hp as ->.
  pose proof (pack_data_block_run
                fr cs E top (advance w1 (properties_block fr G top) 0)
                Hko Hka) as Hk.
  unfold bind in Hk. rewrite Hk. unfold w1. rewrite !advance_advance.
  cbn [Datatypes.app plus]. rewrite <- ?app_assoc. reflexivity.
Qed.

Lemma handle_rx_dispatch {fin : Type} fol (fr : fin -> pystr) cs E G data
      text payload (w : world fin) w' :
  decode_utf8 data = Ret text ->
  json_loads fol text = Ret payload ->
  dispatch fr cs E G payload w = (Ret tt, w') ->
  handle_rx fol fr cs E G data w = (Ret tt, w').
Proof.
  intros Hd Hj Hrun. rewrite handle_rx_unfold.
  unfold try_except, handle_rx_body, bind, liftR. now rewrite Hd, Hj, Hrun.
Qed.

Lemma published_property_events {fin : Type}
      (props : list (pystr * json fin)) :
  published (flat_map property_events props)
  = map (fun kv => (property_topic (fst kv), snd kv, false)) props.
Proof.
  induction props as [|[k v] l IH]; [reflexivity|].
  cbn [flat_map map]. unfold published in *. rewrite flat_map_app, IH.
  unfold property_events. cbn [fst snd]. destruct (is_number v); reflexivity.
Qed.

Lemma dict_remove_In {V : Type} (kvs : list (pystr * V)) k kv :
  In kv (dict_remove kvs k) <-> In kv kvs /\ fst kv <> k.
Proof.
  unfold dict_remove. rewrite filter_In, negb_true_iff, pystr_eqb_neq.
  reflexivity.
Qed.
(** The floats of the examples satisfy what is assumed of Python's. *)
Lemma ex_repr_reads_back : repr_reads_back ex_float_of_literal ex_float_repr.
Proof.
  intros x rest Hdel. apply delimited_num_end in Hdel.
  assert (Hr1 : match rest with [] => True | c :: _ => is_digit c = false end)
    by (destruct rest; tauto).
  assert (Hr3 : match rest with
                | [] => True
                | c :: _ => (N.eqb c 101 || N.eqb c 69)%bool = false
                end) by (destruct rest; tauto).
  assert (Hfrac : match_frac (46 :: 48 :: rest)%N = ([46; 48]%N, rest)).
  { unfold match_frac. change (N.eqb 46 46) with true. cbv beta iota.
    change (48 :: rest)%N with ([48%N] ++ rest).
    rewrite (span_digits_app [48%N] rest);
      [reflexivity|repeat constructor|assumption]. }
  assert (Hdot : forall d,
             (d = Decimal.zero \/ exists p, d = Pos.to_uint p) ->
             match_int (digits_of_uint d ++ 46 :: 48 :: rest)%N
             = Some (digits_of_uint d, (46 :: 48 :: rest)%N))
    by (intros d Hd; now apply match_int_digits).
  assert (Hspan : forall d,
             span_digits (digits_of_uint d ++ [46; 48]%N)
             = (digits_of_uint d, [46; 48]%N)).
  { intros d. apply span_digits_app; [apply digits_of_uint_digits|reflexivity]. }
  pose proof (DecimalZ.of_to x) as Hz.
  unfold ex_float_repr, str_of_Z, match_number, ex_float_of_literal.
  rewrite <- app_assoc. cbn [lit list_ascii_of_string map Datatypes.app].
  change (N_of_ascii ".") with 46%N. change (N_of_ascii "0") with 48%N.
  destruct x as [|p|p]; cbn [Z.to_int] in *.
  - cbn -[match_frac match_exp Z.of_int int_prefix].
    rewrite Hfrac, match_exp_none by assumption. reflexivity.
  - destruct (pos_to_uint_head p) as (c & tl & Heq & H48 & Hdig).
    assert (H45 : N.eqb c 45 = false).
    { unfold is_digit in Hdig. apply andb_true_iff in Hdig.
      destruct Hdig as [Hd _]. apply N.leb_le in Hd. apply N.eqb_neq. lia. }
    specialize (Hdot (Pos.to_uint p)). specialize (Hspan (Pos.to_uint p)).
    rewrite Heq in *. cbn [Datatypes.app] in *. rewrite H45.
    rewrite Hdot by (right; eauto).
    rewrite Hfrac, match_exp_none by assumption.
    cbn [Datatypes.app]. unfold int_prefix.
    rewrite H45, Hspan. cbn [fst].
    rewrite <- Heq, uint_of_digits_of_uint. now rewrite Hz.
  - cbn [Datatypes.app]. change (N.eqb 45 45) with true. cbv beta iota.
    rewrite (Hdot (Pos.to_uint p)) by (right; eauto).
    rewrite Hfrac, match_exp_none by assumption.
    cbn [Datatypes.app]. unfold int_prefix.
    change (N.eqb 45 45) with true. cbv beta iota.
    rewrite Hspan. cbn [fst].
    rewrite uint_of_digits_of_uint. now rewrite Hz.
Qed.

(** C2: the serial of a pack entry is consumed as the identifier of the
    pack.  For every notification whose [packData] is a list of packs
    that carry an [sn], whatever its [method] and whether or not it has
    properties (the blocks of [handle_rx] that come before the packs
    must not raise: a device information response carries its two
    identifiers, the properties are a mapping), [handle_rx], with an
    MQTT client set that takes the messages, logs the number of packs
    and then, pack by pack, the serial and one message per remaining
    property on [solarflow-hub/telemetry/batteries/<sn>/<property>];
    [pop] takes [sn] out of the pack, so that no message is published
    for it.  For the body with the one pack [ABC123], [volt] 52.1 and
    [temp] 30: one pack, serial [ABC123], and exactly the two messages
    for [volt] and [temp]. *)
Theorem pack_serial_consumed :
  forall (fin : Type) (fol : pystr -> pyfloat fin) (fr : fin -> pystr)
         (cs : json fin -> pystr) (E : env fin) (G : globals)
         (w : world fin),
    mq_client w = true ->
    (forall data text top packs,
        decode_utf8 data = Ret text ->
        json_loads fol text = Ret (JObj top) ->
        identified top ->
        properties_ok top ->
        dict_get top (lit "packData") = Some (JArr packs) ->
        Forall has_serial packs ->
        accepted E (properties_block fr G top) ->
        accepted E (packs_events fr cs packs) ->
        let hx := handle_rx fol fr cs E G data in
        hx w
        = (Ret tt,
           advance w (Log DEBUG (Received (JObj top))
                      :: info_records top
                      ++ properties_block fr G top
                      ++ packs_events fr cs packs) 0) /\
        published (events_of hx w)
        = published (properties_block fr G top)
          ++ published (flat_map (pack_events fr cs) packs)) /\
    (forall kvs sn,
        dict_get kvs (lit "sn") = Some sn ->
        py_pop (JObj kvs) (lit "sn")
        = Ret (sn, JObj (dict_remove kvs (lit "sn"))) /\
        pack_events fr cs (JObj kvs)
        = Log DEBUG (PackSN sn)
          :: map (fun kv =>
                    Publish (pack_topic fr cs sn (fst kv)) (snd kv) false)
                 (dict_remove kvs (lit "sn")) /\
        (forall kv, In kv (dict_remove kvs (lit "sn"))
                    <-> In kv kvs /\ fst kv <> lit "sn") /\
        dict_get (dict_remove kvs (lit "sn")) (lit "sn") = None) /\
    (let volt := JFloat (fol (lit "52.1")) in
     let pack := [(lit "sn", JStr (lit "ABC123")); (lit "volt", volt);
                  (lit "temp", JInt 30)] in
     let payload := JObj [(lit "packData", JArr [JObj pack])] in
     let messages :=
       [Publish (lit "solarflow-hub/telemetry/batteries/ABC123/volt")
                volt false;
        Publish (lit "solarflow-hub/telemetry/batteries/ABC123/temp")
                (JInt 30) false] in
     py_pop (JObj pack) (lit "sn")
     = Ret (JStr (lit "ABC123"),
            JObj [(lit "volt", volt); (lit "temp", JInt 30)]) /\
     (accepted E messages ->
      handle_rx fol fr cs E G ex_pack_notification w
      = (Ret tt,
         advance w ([Log DEBUG (Received payload);
                     Log INFO (BatteryPacks 1);
                     Log DEBUG (PackSN (JStr (lit "ABC123")))]
                    ++ messages) 0))).
Proof.
  intros fin fol fr cs E G w Hmq. split; [|split].
  - intros data text top packs Hd Hj Hid Hpo Hk Hsn Hpa Hacc hx.
    assert (Hblock : pack_data_block fr cs top = packs_events fr cs packs)
      by (unfold pack_data_block; now rewrite Hk).
    assert (Hrun : hx w
                   = (Ret tt,
                      advance w (Log DEBUG (Received (JObj top))
                                 :: info_records top
                                 ++ properties_block fr G top
                                 ++ packs_events fr cs packs) 0)).
    { apply (handle_rx_dispatch fol fr cs E G data text (JObj top) w _ Hd Hj).
      rewrite <- Hblock. apply dispatch_fan_out; try assumption.
      - unfold pack_data_ok. now rewrite Hk.
      - now rewrite Hblock. }
    split; [exact Hrun|].
    rewrite (events_of_advance _ _ _ _ _ Hrun).
    change (published (Log DEBUG (Received (JObj top)) :: ?l))
      with (published l).
    now rewrite !published_app, published_info_records,
      published_packs_events.
  - intros kvs sn Hsn. split; [|split; [|split]].
    + unfold py_pop. now rewrite Hsn.
    + unfold pack_events. now rewrite Hsn.
    + intros kv. apply dict_remove_In.
    + destruct (dict_get (dict_remove kvs (lit "sn")) (lit "sn")) as [x|] eqn:Hx;
        [|reflexivity].
      unfold dict_get in Hx.
      destruct (find _ _) as [kv|] eqn:Hf; [|discriminate].
      apply find_some in Hf. destruct Hf as [Hin Heq].
      apply dict_remove_In in Hin. apply pystr_eqb_eq in Heq. tauto.
  - cbv zeta. split; [reflexivity|]. intros Hacc.
    assert (Hd : decode_utf8 ex_pack_notification
                 = Ret (lit "{" ++ quoted "packData" ++ lit ":[{" ++ quoted "sn"
                        ++ lit ":" ++ quoted "ABC123" ++ lit "," ++ quoted "volt"
                        ++ lit ":52.1," ++ quoted "temp" ++ lit ":30}]}"))
      by (vm_compute; reflexivity).
    eapply (handle_rx_dispatch fol fr cs E G _ _ _ w _ Hd).
    + vm_compute. reflexivity.
    + change (lit "52.1") with [53; 50; 46; 49]%N.
      rewrite (dispatch_packs fr cs E G _
                 [JObj [(lit "sn", JStr (lit "ABC123"));
                        (lit "volt", JFloat (fol [53; 50; 46; 49]%N));
                        (lit "temp", JInt 30)]] w);
        try reflexivity; try assumption.
      * repeat constructor. discriminate.
      * constructor; [exact I|]. constructor; [exact I|]. exact Hacc.
Qed.

Lemma pack_serial_consumed_witness :
  published
    (events_of (handle_rx ex_float_of_literal ex_float_repr ex_container_str
                          ex_env ex_globals (latin1 ex_report_text))
               (start true))
  = [(lit "solarflow-hub/telemetry/soc", JInt 80, false);
     (lit "ja72U0ha/dev1/state",
      JStr (lit "{" ++ quoted "soc" ++ lit ": 80}"), false);
     (lit "solarflow-hub/telemetry/batteries/A1/volt", JInt 1, false)] /\
  handle_rx ex_float_of_literal ex_float_repr ex_container_str ex_env
            ex_globals ex_pack_notification (start true)
  = (Ret tt,
     advance (start true)
       [Log DEBUG
          (Received
             (JObj [(lit "packData",
                     JArr [JObj [(lit "sn", JStr (lit "ABC123"));
                                 (lit "volt", JFloat (FFin 52%Z));
                                 (lit "temp", JInt 30)]])]));
        Log INFO (BatteryPacks 1);
        Log DEBUG (PackSN (JStr (lit "ABC123")));
        Publish (lit "solarflow-hub/telemetry/batteries/ABC123/volt")
                (JFloat (FFin 52%Z)) false;
        Publish (lit "solarflow-hub/telemetry/batteries/ABC123/temp")
                (JInt 30) false] 0).
Proof.
  pose proof (pack_serial_consumed
                Z ex_float_of_literal ex_float_repr ex_container_str
                ex_env ex_globals (start true) eq_refl) as H.
  destruct H as (Hgen & _ & Hex). cbv zeta in Hex. destruct Hex as [_ Hex].
  assert (Hid : identified ex_report)
    by (intros Hm; vm_compute in Hm; discriminate Hm).
  assert (Hsn : Forall (has_serial (fin := Z))
                       [JObj [(lit "sn", JStr (lit "A1"));
                              (lit "volt", JInt 1)]])
    by (repeat constructor; discriminate).
  assert (Hpa : accepted ex_env
                         (properties_block ex_float_repr ex_globals ex_report))
    by (repeat constructor).
  assert (Hka : accepted ex_env
                  (packs_events ex_float_repr ex_container_str
                     [JObj [(lit "sn", JStr (lit "A1"));
                            (lit "volt", JInt 1)]]))
    by (repeat constructor).
  pose proof (Hgen (latin1 ex_report_text) ex_report_text ex_report _
                   eq_refl eq_refl Hid I eq_refl Hsn Hpa Hka) as Hrep.
  cbv zeta in Hrep. split; [exact (proj2 Hrep)|].
  apply Hex. repeat constructor.
Defined.



(* --------------------------------------------------------------------- *)
(** ** [handle_rx]: the device information response *)

Lemma handle_rx_dispatch_raise {fin : Type} fol (fr : fin -> pystr) cs E G
      data text payload (w : world fin) e evs :
  decode_utf8 data = Ret text ->
  json_loads fol text = Ret payload ->
  dispatch fr cs E G payload w = (Raise e, advance w evs 0) ->
  is_Exception e = true -> e <> JSONDecodeError ->
  handle_rx fol fr cs E G data w
  = (Ret tt, advance w (evs ++ handler_records e data) 0).
Proof.
  intros Hd Hj Hrun He Hne. rewrite handle_rx_unfold.
  unfold try_except, handle_rx_body, bind, liftR. rewrite Hd, Hj, Hrun, He.
  unfold handle_rx_handler, handler_records.
  destruct e; try congruence; unfold bind;
    rewrite !log_run, !advance_advance; reflexivity.
Qed.

Lemma log_info_response_run {fin : Type} (top : list (pystr * json fin))
      (w : world fin) :
  dict_get top (lit "method") = Some (JStr (lit "getInfo-rsp")) ->
  log_info_response (JObj top) w
  = match dict_get top (lit "deviceId") with
    | None => (Raise KeyError, w)
    | Some id =>
        match dict_get top (lit "deviceSn") with
        | None => (Raise KeyError, advance w [Log SUCCESS (DeviceId id)] 0)
        | Some sn =>
            (Ret tt, advance w [Log SUCCESS (DeviceId id);
                                Log SUCCESS (DeviceSn sn)] 0)
        end
    end.
Proof.
  intros Hm. unfold log_info_response, bind, liftR, py_contains, py_getitem.
  rewrite contains_dict_get, Hm. cbn [ret is_str when].
  change (pystr_eqb (lit "getInfo-rsp") (lit "getInfo-rsp")) with true.
  cbv beta iota.
  destruct (dict_get top (lit "deviceId")) as [id|]; [|reflexivity].
  unfold when. rewrite log_run.
  destruct (dict_get top (lit "deviceSn")) as [sn|]; [|reflexivity].
  now rewrite log_run, advance_advance.
Qed.

(** X3: a device information response logs the identifier and the serial of
    the hub; when one of them is missing the [KeyError] ends in the
    generic clause, and nothing of the notification is published, even
    with properties in it and an MQTT client set. *)
Theorem info_response_identifiers :
  forall (fin : Type) (fol : pystr -> pyfloat fin) (fr : fin -> pystr)
         (cs : json fin -> pystr) (E : env fin) (G : globals)
         (data : pybytes) (text : pystr) (top : list (pystr * json fin))
         (w : world fin),
    decode_utf8 data = Ret text ->
    json_loads fol text = Ret (JObj top) ->
    dict_get top (lit "method") = Some (JStr (lit "getInfo-rsp")) ->
    let received := Log DEBUG (Received (JObj top)) in
    (forall id sn,
        dict_get top (lit "deviceId") = Some id ->
        dict_get top (lit "deviceSn") = Some sn ->
        dict_get top (lit "properties") = None ->
        dict_get top (lit "packData") = None ->
        handle_rx fol fr cs E G data w
        = (Ret tt,
           advance w [received; Log SUCCESS (DeviceId id);
                      Log SUCCESS (DeviceSn sn)] 0)) /\
    (dict_get top (lit "deviceId") = None ->
     handle_rx fol fr cs E G data w
     = (Ret tt, advance w (received :: handler_records KeyError data) 0)) /\
    (forall id,
        dict_get top (lit "deviceId") = Some id ->
        dict_get top (lit "deviceSn") = None ->
        handle_rx fol fr cs E G data w
        = (Ret tt,
           advance w (received :: Log SUCCESS (DeviceId id)
                      :: handler_records KeyError data) 0)).
Proof.
  intros fin fol fr cs E G data text top w Hd Hj Hm received.
  pose proof (log_info_response_run top) as Hrun.
  split; [|split].
  - intros id sn Hid Hsn Hp Hk.
    apply (handle_rx_dispatch fol fr cs E G data text (JObj top) w _ Hd Hj).
    unfold dispatch, bind. rewrite log_run, (Hrun _ Hm), Hid, Hsn.
    unfold get_mq_client, when, bind, liftR, py_contains.
    rewrite !contains_dict_get, Hp, Hk. unfold ret.
    rewrite advance_advance. now destruct (mq_client _).
  - intros Hid.
    apply (handle_rx_dispatch_raise fol fr cs E G data text (JObj top) w
             KeyError [received] Hd Hj); [|reflexivity|discriminate].
    unfold dispatch, bind. now rewrite log_run, (Hrun _ Hm), Hid.
  - intros id Hid Hsn.
    apply (handle_rx_dispatch_raise fol fr cs E G data text (JObj top) w
             KeyError [received; Log SUCCESS (DeviceId id)] Hd Hj);
      [|reflexivity|discriminate].
    unfold dispatch, bind. rewrite log_run, (Hrun _ Hm), Hid, Hsn.
    now rewrite advance_advance.
Qed.

Lemma info_response_identifiers_witness :
  handle_rx ex_float_of_literal ex_float_repr ex_container_str ex_env
            ex_globals ex_info_response (start true)
  = (Ret tt,
     advance (start true)
       (Log DEBUG
          (Received (JObj [(lit "method", JStr (lit "getInfo-rsp"));
                           (lit "deviceSn", JStr (lit "HUB1"))]))
        :: handler_records KeyError ex_info_response) 0).
Proof.
  apply (proj1 (proj2 (info_response_identifiers
                         Z ex_float_of_literal ex_float_repr ex_container_str
                         ex_env ex_globals ex_info_response
                         (lit "{" ++ quoted "method" ++ lit ":"
                          ++ quoted "getInfo-rsp" ++ lit ","
                          ++ quoted "deviceSn" ++ lit ":" ++ quoted "HUB1"
                          ++ lit "}")
                         [(lit "method", JStr (lit "getInfo-rsp"));
                          (lit "deviceSn", JStr (lit "HUB1"))]
                         (start true) eq_refl eq_refl eq_refl))).
  reflexivity.
Defined.

(* --------------------------------------------------------------------- *)
(** ** [handle_rx] without an MQTT client *)

Lemma published_logs {fin : Type} (evs : list (event fin)) :
  forallb is_log evs = true -> published evs = [].
Proof.
  induction evs as [|e evs IH]; [reflexivity|]. simpl. intros H.
  apply andb_true_iff in H. destruct H as [He H].
  destruct e; try discriminate. now apply IH.
Qed.

Lemma log_info_response_logs {fin : Type} (payload : json fin)
      (w : world fin) :
  exists evs,
    snd (log_info_response payload w) = advance w evs 0 /\
    forallb is_log evs = true.
Proof.
  assert (Hnil : snd (Raise TypeError : result unit, w) = advance w [] 0)
    by (simpl; now rewrite advance_nil).
  unfold log_info_response, bind, liftR.
  destruct (py_contains (lit "method") payload) as [[|]|e|];
    try (exists []; simpl; now rewrite advance_nil).
  destruct (py_getitem payload (lit "method")) as [m|e|];
    try (exists []; simpl; now rewrite advance_nil).
  unfold ret, when. destruct (is_str m (lit "getInfo-rsp"));
    [|exists []; simpl; now rewrite advance_nil].
  destruct (py_getitem payload (lit "deviceId")) as [id|e|];
    try (exists []; simpl; now rewrite advance_nil).
  rewrite log_run.
  destruct (py_getitem payload (lit "deviceSn")) as [sn|e|];
    try (exists [Log SUCCESS (DeviceId id)]; split; reflexivity).
  rewrite log_run, advance_advance.
  exists [Log SUCCESS (DeviceId id); Log SUCCESS (DeviceSn sn)].
  split; reflexivity.
Qed.

Lemma dispatch_without_client {fin : Type} (fr : fin -> pystr) cs
      (E : env fin) G payload (w : world fin) :
  mq_client w = false ->
  exists evs,
    snd (dispatch fr cs E G payload w) = advance w evs 0 /\
    forallb is_log evs = true.
Proof.
  intros Hmq. unfold dispatch, bind. rewrite log_run.
  destruct (log_info_response_logs
              payload (advance w [Log DEBUG (Received payload)] 0))
    as (evs & Hs & Hl).
  destruct (log_info_response _ _) as [[[]|e|] w1]; simpl in Hs; subst w1;
    rewrite advance_advance;
    try (exists (Log DEBUG (Received payload) :: evs); split;
         [reflexivity|exact Hl]).
  unfold get_mq_client. cbn [mq_client advance]. rewrite Hmq.
  exists (Log DEBUG (Received payload) :: evs). split; [reflexivity|exact Hl].
Qed.

(** X1: without an MQTT client [handle_rx] only writes log records, whatever
    it receives: nothing is published. *)
Theorem no_client_no_publish :
  forall (fin : Type) (fol : pystr -> pyfloat fin) (fr : fin -> pystr)
         (cs : json fin -> pystr) (E : env fin) (G : globals)
         (data : pybytes) (w : world fin),
    mq_client w = false ->
    exists evs,
      handle_rx fol fr cs E G data w = (Ret tt, advance w evs 0) /\
      forallb is_log evs = true /\
      published (events_of (handle_rx fol fr cs E G data) w) = [].
Proof.
  intros fin fol fr cs E G data w Hmq.
  assert (Hrun : exists evs,
             handle_rx fol fr cs E G data w = (Ret tt, advance w evs 0) /\
             forallb is_log evs = true).
  { rewrite handle_rx_unfold. unfold try_except, handle_rx_body, bind, liftR.
    destruct (decode_utf8 data) as [text|e|] eqn:Hd.
    - destruct (json_loads_total fol text) as [[payload Hj] | Hj]; rewrite Hj.
      + pose proof (benign_dispatch fr cs E G payload w) as Hb.
        destruct (dispatch_without_client fr cs E G payload w Hmq)
          as (evs & Hs & Hl).
        destruct (dispatch fr cs E G payload w) as [[[]|e|] w1];
          simpl in Hs, Hb; subst w1; [eauto| |contradiction].
        rewrite Hb. unfold handle_rx_handler.
        destruct e; unfold bind; rewrite !log_run, !advance_advance;
          eexists; (split; [reflexivity|]);
          rewrite forallb_app, Hl; reflexivity.
      + cbn [is_Exception handle_rx_handler]. rewrite log_run.
        eexists. split; reflexivity.
    - pose proof (catchable_decode_utf8 data) as Hc. rewrite Hd in Hc.
      simpl in Hc. rewrite Hc. unfold handle_rx_handler.
      destruct e; unfold bind; rewrite !log_run, ?advance_advance;
        eexists; split; reflexivity.
    - pose proof (catchable_decode_utf8 data) as Hc. rewrite Hd in Hc.
      contradiction. }
  destruct Hrun as (evs & Hrun & Hl). exists evs.
  split; [exact Hrun|]. split; [exact Hl|].
  rewrite (events_of_advance _ _ _ _ _ Hrun). now apply published_logs.
Qed.

Lemma no_client_no_publish_witness :
  exists evs,
    handle_rx ex_float_of_literal ex_float_repr ex_container_str ex_env
              ex_globals ex_properties_notification (start false)
    = (Ret tt, advance (start false) evs 0) /\
    forallb is_log evs = true /\
    published
      (events_of (handle_rx ex_float_of_literal ex_float_repr
                            ex_container_str ex_env ex_globals
                            ex_properties_notification) (start false)) = [].
Proof.
  apply (no_client_no_publish Z ex_float_of_literal ex_float_repr
           ex_container_str ex_env ex_globals ex_properties_notification
           (start false) eq_refl).
Defined.

(* --------------------------------------------------------------------- *)
(** ** [handle_rx]: a loop that stops half way *)

Lemma for_each_raise {fin A : Type} (E : env fin) (xs : list A) (y : A)
      (ys : list A) (body : A -> M fin unit) (evs : A -> list (event fin))
      (e : exn) (evs_y : list (event fin)) :
  (forall x w, In x xs -> accepted E (evs x) ->
               body x w = (Ret tt, advance w (evs x) 0)) ->
  accepted E (flat_map evs xs) ->
  (forall w, body y w = (Raise e, advance w evs_y 0)) ->
  forall w,
    for_each (xs ++ y :: ys) body w
    = (Raise e, advance w (flat_map evs xs ++ evs_y) 0).
Proof.
  intros Hb Hacc Hy. induction xs as [|x xs IH]; intros w; simpl.
  - unfold bind. now rewrite Hy.
  - simpl in Hacc. apply accepted_app in Hacc. destruct Hacc as [H1 H2].
    unfold bind. rewrite (Hb x w (or_introl eq_refl) H1).
    rewrite IH; [now rewrite advance_advance, <- app_assoc| |exact H2].
    intros z w0 Hz. apply Hb. now right.
Qed.

Lemma py_pop_raises {fin : Type} (v : json fin) k e :
  py_pop v k = Raise e -> is_Exception e = true /\ e <> JSONDecodeError.
Proof.
  unfold py_pop. destruct v; try (intros H; injection H as <-; now split).
  destruct (dict_get kvs k); [discriminate|].
  intros H; injection H as <-; now split.
Qed.

Lemma exn_of_pub_error_caught (p : pub_error) :
  is_Exception (exn_of_pub_error p) = true /\
  exn_of_pub_error p <> JSONDecodeError.
Proof. destruct p; split; (reflexivity || discriminate). Qed.

(** X6: a pack that [pop('sn')] fails on (no [sn] key: [KeyError]; not an
    object: [TypeError] or [AttributeError]) ends the notification in
    the generic clause: what comes before it has been published (the
    properties of the notification, if it has any, and the packs before
    that pack), the packs after it are dropped.  This holds whatever
    the [method] of the notification, as long as the blocks before the
    packs do not raise: a device information response carries its two
    identifiers, and the properties are a mapping the client takes. *)
Theorem pack_without_serial_aborts :
  forall (fin : Type) (fol : pystr -> pyfloat fin) (fr : fin -> pystr)
         (cs : json fin -> pystr) (E : env fin) (G : globals)
         (data : pybytes) (text : pystr) (top : list (pystr * json fin))
         (before after : list (json fin)) (bad : json fin) (e : exn)
         (w : world fin),
    decode_utf8 data = Ret text ->
    json_loads fol text = Ret (JObj top) ->
    identified top ->
    properties_ok top ->
    dict_get top (lit "packData") = Some (JArr (before ++ bad :: after)) ->
    Forall has_serial before ->
    py_pop bad (lit "sn") = Raise e ->
    accepted E (properties_block fr G top) ->
    accepted E (flat_map (pack_events fr cs) before) ->
    mq_client w = true ->
    let hx := handle_rx fol fr cs E G data in
    hx w
    = (Ret tt,
       advance w
         (Log DEBUG (Received (JObj top))
          :: info_records top
          ++ properties_block fr G top
          ++ Log INFO (BatteryPacks (List.length (before ++ bad :: after)))
          :: flat_map (pack_events fr cs) before
          ++ handler_records e data) 0) /\
    published (events_of hx w)
    = published (properties_block fr G top)
      ++ published (flat_map (pack_events fr cs) before).
Proof.
  intros fin fol fr cs E G data text top before after bad e w
         Hd Hj Hid Hpo Hk Hsn Hbad Hpa Hacc Hmq hx.
  destruct (py_pop_raises _ _ _ Hbad) as [He Hne].
  set (packs_part :=
         Log INFO (BatteryPacks (List.length (before ++ bad :: after)))
         :: flat_map (pack_events fr cs) before).
  assert (Hrun : hx w
                 = (Ret tt,
                    advance w
                      ((Log DEBUG (Received (JObj top))
                        :: info_records top
                        ++ properties_block fr G top ++ packs_part)
                       ++ handler_records e data) 0)).
  { apply (handle_rx_dispatch_raise fol fr cs E G data text (JObj top) w e _
             Hd Hj); [|exact He|exact Hne].
    rewrite (dispatch_identified fr cs E G top w Hid Hmq).
    set (w1 := advance w (Log DEBUG (Received (JObj top))
                          :: info_records top) 0).
    pose proof (properties_block_run fr E G top w1 Hpo Hpa) as Hp.
    unfold bind in Hp |- *.
    destruct (liftR (py_contains (lit "properties") (JObj top)) w1)
      as [[hp| |] w2] eqn:Hc; try discriminate Hp.
    destruct (when hp (publish_properties fr E G (JObj top)) w2)
      as [[[]| |] w3]; try discriminate Hp.
    injection Hp as ->.
    unfold liftR, py_contains. rewrite contains_dict_get, Hk.
    unfold when, publish_packs, bind, liftR, py_getitem. rewrite Hk.
    cbn [py_len py_iter].
    assert (Hlen : Nat.ltb 0 (List.length (before ++ bad :: after)) = true).
    { rewrite length_app. simpl. apply Nat.ltb_lt. lia. }
    rewrite Hlen. cbn [when]. unfold bind. rewrite log_run.
    rewrite (for_each_raise E before bad after _ (pack_events fr cs) e []).
    - unfold w1, packs_part. rewrite !advance_advance, app_nil_r.
      cbn [Datatypes.app plus]. repeat rewrite <- app_assoc. reflexivity.
    - intros x w0 Hx Hax. apply publish_pack_run; [|exact Hax].
      exact (proj1 (Forall_forall _ _) Hsn x Hx).
    - exact Hacc.
    - intros w0. unfold publish_pack, bind, liftR. rewrite Hbad.
      now rewrite advance_nil. }
  split.
  - rewrite Hrun. unfold packs_part. cbn [Datatypes.app].
    repeat rewrite <- app_assoc. reflexivity.
  - rewrite (events_of_advance _ _ _ _ _ Hrun).
    rewrite published_app.
    change (published (handler_records e data))
      with (@nil (pystr * json fin * bool)).
    rewrite app_nil_r.
    change (published (Log DEBUG (Received (JObj top)) :: ?l))
      with (published l).
    rewrite !published_app, published_info_records. reflexivity.
Qed.

Lemma pack_without_serial_aborts_witness :
  published
    (events_of (handle_rx ex_float_of_literal ex_float_repr ex_container_str
                          ex_env ex_globals (latin1 ex_packs_text))
               (start true))
  = [(lit "solarflow-hub/telemetry/batteries/A1/volt", JInt 1, false)].
Proof.
  assert (Hid : identified (fin := Z)
                  [(lit "packData",
                    JArr ([JObj [(lit "sn", JStr (lit "A1"));
                                 (lit "volt", JInt 1)]]
                          ++ JObj [(lit "volt", JInt 2)]
                          :: [JObj [(lit "sn", JStr (lit "C3"));
                                    (lit "volt", JInt 3)]]))])
    by (intros Hm; vm_compute in Hm; discriminate Hm).
  apply (proj2 (pack_without_serial_aborts
                  Z ex_float_of_literal ex_float_repr ex_container_str
                  ex_env ex_globals (latin1 ex_packs_text) ex_packs_text
                  [(lit "packData",
                    JArr ([JObj [(lit "sn", JStr (lit "A1"));
                                 (lit "volt", JInt 1)]]
                          ++ JObj [(lit "volt", JInt 2)]
                          :: [JObj [(lit "sn", JStr (lit "C3"));
                                    (lit "volt", JInt 3)]]))]
                  _ _ _ KeyError (start true)
                  eq_refl eq_refl Hid I eq_refl
                  ltac:(repeat constructor; discriminate)
                  eq_refl
                  ltac:(repeat constructor)
                  ltac:(repeat constructor)
                  eq_refl)).
Defined.

Lemma publish_properties_raise {fin : Type} (fr : fin -> pystr) (E : env fin)
      G (top before after : list (pystr * json fin)) k v p (w : world fin) :
  dict_get top (lit "properties") = Some (JObj (before ++ (k, v) :: after)) ->
  accepted E (flat_map property_events before) ->
  publish_rejects E (property_topic k) v = Some p ->
  publish_properties fr E G (JObj top) w
  = (Raise (exn_of_pub_error p),
     advance w
       (Log DEBUG (PropertiesReceived (List.length (before ++ (k, v) :: after)))
        :: flat_map property_events before
        ++ (if is_number v then [Log DEBUG (PropertyValue k v)] else [])) 0).
Proof.
  intros Hp Hacc Hrej.
  unfold publish_properties, bind, liftR, py_getitem. rewrite Hp.
  cbn [py_len py_items]. rewrite log_run.
  rewrite (for_each_raise E before (k, v) after _ property_events
             (exn_of_pub_error p)
             (if is_number v then [Log DEBUG (PropertyValue k v)] else [])).
  - now rewrite !advance_advance.
  - intros [k0 v0] w0 _ Hx. unfold property_events in *. cbn [fst snd] in *.
    unfold bind, when. destruct (is_number v0).
    + rewrite log_run. apply Forall_inv_tail in Hx.
      rewrite publish_run by exact Hx. now rewrite advance_advance.
    + unfold ret. now apply publish_run.
  - exact Hacc.
  - intros w0. cbn [fst snd]. unfold bind, when, publish.
    destruct (is_number v).
    + rewrite log_run. rewrite Hrej. reflexivity.
    + unfold ret. rewrite Hrej. unfold raise. now rewrite advance_nil.
Qed.

(** X5: a property the MQTT client refuses ends the notification in the
    generic clause: the properties before it have been published, the
    ones after it are not, and neither is the aggregate state message
    (nor any pack of the same notification).  This holds whatever the
    [method] of the notification, a device information response being
    one that carries its two identifiers. *)
Theorem rejected_property_stops_fan_out :
  forall (fin : Type) (fol : pystr -> pyfloat fin) (fr : fin -> pystr)
         (cs : json fin -> pystr) (E : env fin) (G : globals)
         (data : pybytes) (text : pystr) (top : list (pystr * json fin))
         (before after : list (pystr * json fin)) (k : pystr) (v : json fin)
         (p : pub_error) (w : world fin),
    decode_utf8 data = Ret text ->
    json_loads fol text = Ret (JObj top) ->
    identified top ->
    dict_get top (lit "properties") = Some (JObj (before ++ (k, v) :: after)) ->
    accepted E (flat_map property_events before) ->
    publish_rejects E (property_topic k) v = Some p ->
    mq_client w = true ->
    let hx := handle_rx fol fr cs E G data in
    hx w
    = (Ret tt,
       advance w
         (Log DEBUG (Received (JObj top))
          :: info_records top
          ++ Log DEBUG (PropertiesReceived
                          (List.length (before ++ (k, v) :: after)))
          :: flat_map property_events before
          ++ (if is_number v then [Log DEBUG (PropertyValue k v)] else [])
          ++ handler_records (exn_of_pub_error p) data) 0) /\
    published (events_of hx w)
    = map (fun kv => (property_topic (fst kv), snd kv, false)) before.
Proof.
  intros fin fol fr cs E G data text top before after k v p w
         Hd Hj Hid Hp Hacc Hrej Hmq hx.
  destruct (exn_of_pub_error_caught p) as [He Hne].
  set (logged := if is_number v
                 then [Log DEBUG (PropertyValue k v)] else []).
  set (received :=
         Log DEBUG (PropertiesReceived
                      (List.length (before ++ (k, v) :: after)))).
  assert (Hrun : hx w
                 = (Ret tt,
                    advance w
                      ((Log DEBUG (Received (JObj top))
                        :: info_records top
                        ++ received
                        :: flat_map property_events before ++ logged)
                       ++ handler_records (exn_of_pub_error p) data) 0)).
  { apply (handle_rx_dispatch_raise fol fr cs E G data text (JObj top) w _ _
             Hd Hj); [|exact He|exact Hne].
    rewrite (dispatch_identified fr cs E G top w Hid Hmq).
    unfold when, bind, liftR, py_contains.
    rewrite contains_dict_get, Hp.
    rewrite (publish_properties_raise fr E G top before after k v p _ Hp Hacc
               Hrej).
    now rewrite advance_advance. }
  split.
  - rewrite Hrun. cbn [Datatypes.app].
    repeat (rewrite <- app_assoc; cbn [Datatypes.app]). reflexivity.
  - rewrite (events_of_advance _ _ _ _ _ Hrun).
    rewrite published_app.
    change (published (handler_records (exn_of_pub_error p) data))
      with (@nil (pystr * json fin * bool)).
    rewrite app_nil_r.
    change (published (Log DEBUG (Received (JObj top)) :: ?l))
      with (published l).
    rewrite published_app, published_info_records. cbn [Datatypes.app].
    change (published (received :: ?l)) with (published l).
    rewrite published_app, published_property_events.
    assert (Hl : published logged = [])
      by (unfold logged; now destruct (is_number v)).
    now rewrite Hl, app_nil_r.
Qed.

Lemma rejected_property_stops_fan_out_witness :
  published
    (events_of (handle_rx ex_float_of_literal ex_float_repr ex_container_str
                          ex_env_strict ex_globals (latin1 ex_props_text))
               (start true))
  = [(lit "solarflow-hub/telemetry/soc", JInt 80, false)].
Proof.
  assert (Hid : identified (fin := Z)
                  [(lit "properties",
                    JObj ([(lit "soc", JInt 80)]
                          ++ (lit "tags", JArr [JInt 1])
                          :: [(lit "power", JInt 120)]))])
    by (intros Hm; vm_compute in Hm; discriminate Hm).
  apply (proj2 (rejected_property_stops_fan_out
                  Z ex_float_of_literal ex_float_repr ex_container_str
                  ex_env_strict ex_globals (latin1 ex_props_text)
                  ex_props_text
                  [(lit "properties",
                    JObj ([(lit "soc", JInt 80)]
                          ++ (lit "tags", JArr [JInt 1])
                          :: [(lit "power", JInt 120)]))]
                  _ _ _ _ BadPayload (start true)
                  eq_refl eq_refl Hid eq_refl
                  ltac:(repeat constructor)
                  eq_refl eq_refl)).
Defined.

(* --------------------------------------------------------------------- *)
(** ** [handle_rx]: properties and pack data in one notification *)

(** X4: a notification that carries both properties and pack data is
    published in the order of the code, whatever the order of the keys
    in the notification and whatever its [method] (a device information
    response being one that carries its two identifiers): the
    properties one by one, the aggregate state message, then the
    packs. *)
Theorem properties_before_packs :
  forall (fin : Type) (fol : pystr -> pyfloat fin) (fr : fin -> pystr)
         (cs : json fin -> pystr) (E : env fin) (G : globals)
         (data : pybytes) (text : pystr) (top props : list (pystr * json fin))
         (packs : list (json fin)) (w : world fin),
    decode_utf8 data = Ret text ->
    json_loads fol text = Ret (JObj top) ->
    identified top ->
    dict_get top (lit "properties") = Some (JObj props) ->
    dict_get top (lit "packData") = Some (JArr packs) ->
    Forall has_serial packs ->
    let state :=
      Publish (state_topic G) (JStr (json_dumps fr (JObj props))) false in
    accepted E (flat_map property_events props ++ state
                :: packs_events fr cs packs) ->
    mq_client w = true ->
    handle_rx fol fr cs E G data w
    = (Ret tt,
       advance w
         (Log DEBUG (Received (JObj top))
          :: info_records top
          ++ Log DEBUG (PropertiesReceived (List.length props))
          :: flat_map property_events props
          ++ state :: packs_events fr cs packs) 0).
Proof.
  intros fin fol fr cs E G data text top props packs w
         Hd Hj Hid Hp Hk Hsn state Hacc Hmq.
  apply accepted_app in Hacc. destruct Hacc as [Hprops Hrest].
  apply (handle_rx_dispatch fol fr cs E G data text (JObj top) w _ Hd Hj).
  rewrite (dispatch_identified fr cs E G top w Hid Hmq).
  unfold when, bind, liftR, py_contains.
  rewrite !contains_dict_get, Hp, Hk.
  rewrite (publish_properties_run fr E G top props _ Hp Hprops)
    by (constructor; [exact (Forall_inv Hrest)|constructor]).
  rewrite (publish_packs_run fr cs E top packs _ Hk Hsn (Forall_inv_tail Hrest)).
  rewrite !advance_advance. cbn [Datatypes.app plus].
  repeat rewrite <- app_assoc. reflexivity.
Qed.

Lemma properties_before_packs_witness :
  published
    (events_of (handle_rx ex_float_of_literal ex_float_repr ex_container_str
                          ex_env ex_globals (latin1 ex_report_text))
               (start true))
  = [(lit "solarflow-hub/telemetry/soc", JInt 80, false);
     (lit "ja72U0ha/dev1/state",
      JStr (lit "{" ++ quoted "soc" ++ lit ": 80}"), false);
     (lit "solarflow-hub/telemetry/batteries/A1/volt", JInt 1, false)].
Proof.
  assert (Hid : identified ex_report)
    by (intros Hm; vm_compute in Hm; discriminate Hm).
  rewrite (events_of_advance _ _ _ _ _
             (properties_before_packs
                Z ex_float_of_literal ex_float_repr ex_container_str
                ex_env ex_globals (latin1 ex_report_text) ex_report_text
                ex_report
                [(lit "soc", JInt 80)]
                [JObj [(lit "sn", JStr (lit "A1")); (lit "volt", JInt 1)]]
                (start true)
                eq_refl eq_refl Hid eq_refl eq_refl
                ltac:(repeat constructor; discriminate)
                ltac:(repeat constructor)
                eq_refl)).
  reflexivity.
Defined.

(* --------------------------------------------------------------------- *)
(** ** The commands of [getInfo] and [set_IoT_Url] on the wire *)

Lemma commands_written_attempt {fin : Type} (before : event fin) b o
      (failed : exn -> logmsg fin) :
  match before with Io (WriteGatt _) _ => False | _ => True end ->
  commands_written (attempt before b o failed) = [b].
Proof.
  intros Hb. unfold attempt, commands_written. cbn [flat_map].
  destruct before as [lv m| | |[] out]; try contradiction;
    cbn [Datatypes.app]; destruct o; reflexivity.
Qed.

(** X7: [getInfo] attempts both writes whatever becomes of the first one: a
    write that raises an [Exception] is logged and [getInfo] goes on and
    returns; the two commands carry the same time stamp, read once. *)
Theorem getInfo_writes_both_commands :
  forall (fin : Type) (fr : fin -> pystr) (E : env fin) (w : world fin),
    never_cancelled E ->
    let t := now E (steps w) in
    fst (getInfo fr E w) = Ret tt /\
    json_dumps fr (properties_cmd t) = getAll_text t /\
    events_of (getInfo fr E) w
    = attempt (Log DEBUG SendingGetInfo) (latin1 (getInfo_text t))
              (io_outcome E (steps w)) GetInfoFailed
      ++ attempt (Log DEBUG SendingGetAll) (latin1 (getAll_text t))
                 (io_outcome E (S (steps w))) GetPropertiesFailed /\
    commands_written (events_of (getInfo fr E) w)
    = [latin1 (getInfo_text t); latin1 (getAll_text t)].
Proof.
  intros fin fr E w Hc t.
  pose proof (getInfo_run fr E w Hc) as Hrun. fold t in Hrun.
  split; [now rewrite Hrun|]. split; [apply properties_cmd_text|].
  rewrite (events_of_advance _ _ _ _ _ Hrun). split; [reflexivity|].
  rewrite commands_written_app.
  rewrite !commands_written_attempt by exact I.
  reflexivity.
Qed.

Lemma getInfo_writes_both_commands_witness :
  commands_written (events_of (getInfo ex_float_repr (ex_env_fault 0))
                              (start false))
  = [latin1 (getInfo_text 1700000000); latin1 (getAll_text 1700000000)].
Proof.
  apply (getInfo_writes_both_commands
           Z ex_float_repr (ex_env_fault 0) (start false)
           (ex_env_fault_never_cancelled 0)).
Defined.

Lemma ascii_str_ok (s : pystr) : ascii_text s -> str_ok s = true.
Proof.
  induction 1 as [|c s Hc Hs IH]; [reflexivity|].
  cbn [str_ok]. rewrite IH, andb_true_r.
  apply andb_true_iff. split; [apply N.ltb_lt; lia|].
  destruct (small_not_surrogate c ltac:(lia)) as [-> _]. reflexivity.
Qed.

Lemma command_reads_back {fin : Type} (fol : pystr -> pyfloat fin)
      (fr : fin -> pystr) (v : json fin) :
  repr_reads_back fol fr -> json_ok v = true ->
  bytes_of_ords (json_dumps fr v) = Ret (latin1 (json_dumps fr v)) ->
  ascii_text (json_dumps fr v) ->
  exists b,
    bytes_of_ords (json_dumps fr v) = Ret b /\
    exists text, decode_utf8 b = Ret text /\ json_loads fol text = Ret v.
Proof.
  intros Hrepr Hok Hb Ha. exists (latin1 (json_dumps fr v)).
  split; [exact Hb|]. exists (json_dumps fr v).
  split; [now apply decode_utf8_ascii|now apply json_loads_dumps].
Qed.

(** X8: what the hub receives from [getInfo] decodes (UTF-8, then JSON) to
    the two dicts of the source, whatever the clock reading. *)
Theorem getInfo_commands_read_back :
  forall (fin : Type) (fol : pystr -> pyfloat fin) (fr : fin -> pystr)
         (t : Z),
    repr_reads_back fol fr ->
    (exists b, bytes_of_ords (json_dumps fr (info_cmd t)) = Ret b /\
               exists text, decode_utf8 b = Ret text /\
                            json_loads fol text = Ret (info_cmd t)) /\
    (exists b, bytes_of_ords (json_dumps fr (properties_cmd t)) = Ret b /\
               exists text, decode_utf8 b = Ret text /\
                            json_loads fol text = Ret (properties_cmd t)).
Proof.
  intros fin fol fr t Hrepr.
  assert (Hts : str_ok (str_of_Z t) = true)
    by apply ascii_str_ok, plain_ascii, str_of_Z_plain.
  split; apply command_reads_back; try exact Hrepr.
  - cbn [json_ok info_cmd map fst snd forallb]. rewrite Hts. reflexivity.
  - rewrite info_cmd_text. apply bytes_of_ords_ascii, getInfo_text_ascii.
  - rewrite info_cmd_text. apply getInfo_text_ascii.
  - cbn [json_ok properties_cmd map fst snd forallb]. rewrite Hts. reflexivity.
  - rewrite properties_cmd_text. apply bytes_of_ords_ascii, getAll_text_ascii.
  - rewrite properties_cmd_text. apply getAll_text_ascii.
Qed.

Lemma getInfo_commands_read_back_witness :
  exists b, bytes_of_ords (json_dumps ex_float_repr (info_cmd 1700000000))
            = Ret b /\
            exists text, decode_utf8 b = Ret text /\
                         json_loads ex_float_of_literal text
                         = Ret (info_cmd 1700000000).
Proof.
  apply (getInfo_commands_read_back Z ex_float_of_literal ex_float_repr
           1700000000 ex_repr_reads_back).
Defined.

(** X9: the token command of [set_IoT_Url] is ASCII whatever the broker, the
    SSID and the password are (other characters are escaped), so that
    [bytearray.extend(map(ord, ...))] never raises; and what the hub
    receives decodes to the dict of the source, [None] for a missing
    password or SSID included. *)
Theorem token_command_reads_back :
  forall (fin : Type) (fol : pystr -> pyfloat fin) (fr : fin -> pystr)
         (G : globals) (broker : pystr) (ssid : option pystr),
    let cmd1 := json_dumps fr (c1 G broker ssid) in
    ascii_text cmd1 /\
    bytes_of_ords cmd1 = Ret (latin1 cmd1) /\
    decode_utf8 (latin1 cmd1) = Ret cmd1 /\
    (repr_reads_back fol fr ->
     str_ok broker = true -> opt_str_ok ssid = true ->
     opt_str_ok (WIFI_PWD G) = true ->
     json_loads fol cmd1 = Ret (c1 G broker ssid)).
Proof.
  intros fin fol fr G broker ssid cmd1.
  pose proof (c1_ascii fr G broker ssid) as Ha. fold cmd1 in Ha.
  split; [exact Ha|]. split; [now apply bytes_of_ords_ascii|].
  split; [now apply decode_utf8_ascii|].
  intros Hrepr Hb Hs Hp. apply json_loads_dumps; [exact Hrepr|].
  assert (Hopt : forall o, opt_str_ok o = true ->
                           json_ok (opt_json (fin := fin) o) = true)
    by (intros [s|]; auto).
  cbn [json_ok c1 map fst snd forallb].
  rewrite Hb, (Hopt _ Hs), (Hopt _ Hp). reflexivity.
Qed.

Lemma token_command_reads_back_witness :
  json_loads ex_float_of_literal
             (json_dumps ex_float_repr
                         (c1 ex_globals (lit "192.168.1.100")
                             (Some [104; 246; 109; 101]%N)))
  = Ret (c1 ex_globals (lit "192.168.1.100") (Some [104; 246; 109; 101]%N)).
Proof.
  apply (token_command_reads_back
           Z ex_float_of_literal ex_float_repr ex_globals
           (lit "192.168.1.100") (Some [104; 246; 109; 101]%N));
    [exact ex_repr_reads_back|reflexivity|reflexivity|reflexivity].
Defined.

(* --------------------------------------------------------------------- *)
(** ** The registration acknowledgment *)

Lemma json_loads_of_scan {fin : Type} (fol : pystr -> pyfloat fin) n c tl v r :
  is_ws c = false -> N.eqb c 65279 = false ->
  scan_once fol n (c :: tl) = POk v r -> skip_ws r = [] ->
  json_loads fol (c :: tl) = Ret v.
Proof.
  intros Hws Hbom Hn Hr. unfold json_loads.
  cbn [startswith]. rewrite Hbom. cbn [andb].
  cbn [skip_ws]. rewrite Hws.
  destruct (proj1 (scan_fuel fol (loads_fuel (c :: tl))) (c :: tl)) as [Hf _].
  { unfold loads_fuel. lia. }
  set (k := loads_fuel (c :: tl)) in *.
  assert (Hk : scan_once fol k (c :: tl) = POk v r).
  { rewrite <- (scan_once_mono fol k (Nat.max k n) _ (Nat.le_max_l k n) Hf).
    apply (scan_once_ok_mono fol n (Nat.max k n) _ _ _ (Nat.le_max_r k n) Hn). }
  rewrite Hk, Hr. reflexivity.
Qed.

Lemma skip_ws_int (z : Z) (rest : pystr) :
  skip_ws (str_of_Z z ++ rest) = str_of_Z z ++ rest.
Proof.
  apply skip_ws_opens.
  apply (opens_value_number (fun _ : pystr => @FNaN unit) _ (JInt z)).
  apply match_number_int. exact I.
Qed.

Lemma scan_once_int {fin : Type} (fol : pystr -> pyfloat fin) n z rest :
  delimited rest ->
  scan_once fol (S n) (skip_ws (str_of_Z z ++ rest)) = POk (JInt z) rest.
Proof.
  intros H. rewrite skip_ws_int. apply scan_once_number.
  now apply match_number_int.
Qed.

Lemma reply_shape (t : Z) :
  reply t
  = (123 :: 34 :: flat_map escape_cp (lit "messageId")
     ++ 34 :: 58 :: str_of_Z 123 ++ 44 :: 34
     :: flat_map escape_cp (lit "timestamp")
     ++ 34 :: 58 :: str_of_Z t
     ++ 44 :: lit "" ++ quoted "params" ++ lit ":{" ++ quoted "token"
     ++ lit ":" ++ quoted "abcdefgh" ++ lit "," ++ quoted "result"
     ++ lit ":0}}")%N.
Proof.
  unfold reply, quoted. cbn -[str_of_Z]. reflexivity.
Qed.

(** X10: the registration acknowledgment that [set_IoT_Url] assembles by
    string concatenation is a JSON text for every clock reading:
    [json.loads] reads it as an object with [messageId] 123, the clock
    reading as the integer [timestamp], and the token parameters. *)
Theorem register_reply_is_json :
  forall (fin : Type) (fol : pystr -> pyfloat fin) (t : Z),
  json_loads fol (reply t)
  = Ret (JObj [(lit "messageId", JInt 123); (lit "timestamp", JInt t);
               (lit "params", reply_params)]).
Proof.
  intros fin fol t. rewrite reply_shape.
  apply (json_loads_of_scan fol 10 _ _ _ []); try reflexivity.
  set (tail := (lit "" ++ quoted "params" ++ lit ":{" ++ quoted "token"
                ++ lit ":" ++ quoted "abcdefgh" ++ lit "," ++ quoted "result"
                ++ lit ":0}}")).
  assert (Htail : JSONObject fol 7 tail
                  = POk [(lit "params", reply_params)] [])
    by (vm_compute; reflexivity).
  rewrite scan_once_S. cbv beta iota.
  change (N.eqb 123 34) with false. change (N.eqb 123 123) with true.
  cbv beta iota. cbn [skip_ws]. change (is_ws 34) with false. cbv beta iota.
  change (N.eqb 34 125) with false. cbv beta iota.
  rewrite JSONObject_S. cbv beta iota. change (N.eqb 34 34) with true.
  cbv beta iota.
  rewrite scanstring_escaped by reflexivity. cbv beta iota.
  cbn [skip_ws]. change (is_ws 58) with false. cbv beta iota.
  change (N.eqb 58 58) with true. cbv beta iota.
  rewrite (scan_once_int fol 7) by (simpl; auto). cbv beta iota.
  cbn [skip_ws]. change (is_ws 44) with false. cbv beta iota.
  change (N.eqb 44 125) with false. change (N.eqb 44 44) with true.
  cbv beta iota. cbn [skip_ws]. change (is_ws 34) with false. cbv beta iota.
  rewrite JSONObject_S. cbv beta iota. change (N.eqb 34 34) with true.
  cbv beta iota.
  rewrite scanstring_escaped by reflexivity. cbv beta iota.
  cbn [skip_ws]. change (is_ws 58) with false. cbv beta iota.
  change (N.eqb 58 58) with true. cbv beta iota.
  rewrite (scan_once_int fol 6) by (simpl; auto). cbv beta iota.
  cbn [skip_ws]. change (is_ws 44) with false. cbv beta iota.
  change (N.eqb 44 125) with false. change (N.eqb 44 44) with true.
  cbv beta iota.
  assert (Hsk : skip_ws tail = tail) by reflexivity.
  rewrite Hsk, Htail. reflexivity.
Qed.

(* --------------------------------------------------------------------- *)
(** ** [run]: from the MQTT connection to the discovery *)

Lemma discover_device_run {fin : Type} (E : env fin) (G : globals)
      (w : world fin) :
  io_outcome E (steps w) = None ->
  (forall e, io_outcome E (S (steps w)) = Some e -> is_Exception e = true) ->
  discover_device E G w
  = (Ret (located E G (io_outcome E (S (steps w)))),
     advance w (discover_events E G (io_outcome E (S (steps w)))) 2).
Proof.
  intros H1 H2. unfold discover_device, located, discover_events.
  set (prefix := product_class (SF_PRODUCT_ID G)).
  cbv zeta.
  rewrite (bind_ret_run _ _ _ _ _ (log_run _ _ _)).
  rewrite (bind_ret_run _ _ _ _ _ (log_run _ _ _)).
  unfold bind at 1. rewrite await_run. simpl steps. rewrite H1.
  rewrite !advance_advance. cbn [Datatypes.app plus].
  set (scan := [Log INFO (Scanning prefix);
                Log INFO (ScanTimeout (BT_SCAN_TIMEOUT G));
                Io (Discover (BT_SCAN_TIMEOUT G)) None]).
  set (seen := match all_advertisers E with
               | [] => [Log WARNING NoDevicesAtAll]
               | _ :: _ =>
                   Log DEBUG (FoundDevices (List.length (all_advertisers E)))
                   :: map (fun id => Log DEBUG (DeviceSeen (fst id) (snd id)))
                          (combine (seq 1 (List.length (all_advertisers E)))
                                   (all_advertisers E))
               end).
  assert (Hlogs :
            (match all_advertisers E with
             | [] => log WARNING NoDevicesAtAll
             | _ :: _ =>
                 (log DEBUG (FoundDevices (List.length (all_advertisers E))) ;;
                  for_each
                    (combine (seq 1 (List.length (all_advertisers E)))
                             (all_advertisers E))
                    (fun id => log DEBUG (DeviceSeen (fst id) (snd id))))%py
             end) (advance w scan 1)
            = (Ret tt, advance w (scan ++ seen) 1)).
  { unfold seen. destruct (all_advertisers E) as [|d0 ds].
    - now rewrite log_run, advance_advance.
    - unfold bind. rewrite log_run. unfold log.
      rewrite for_each_emit, !advance_advance. reflexivity. }
  rewrite (bind_ret_run _ _ _ _ _ Hlogs).
  unfold bind at 1, try_except.
  rewrite (bind_ret_run _ _ _ _ _ (log_run _ _ _)).
  unfold find_device_by_filter, bind at 1. rewrite await_run.
  cbn [steps advance plus].
  destruct (io_outcome E (S (steps w))) as [e|] eqn:Ho.
  - rewrite (H2 e eq_refl).
    rewrite (bind_ret_run _ _ _ _ _ (log_run _ _ _)). unfold ret.
    rewrite (bind_ret_run _ _ _ _ _ (log_run _ _ _)).
    unfold find_alternative.
    destruct (find (name_matches prefix) (all_advertisers E)).
    + unfold bind. rewrite log_run. unfold ret.
      rewrite !advance_advance, <- !app_assoc. reflexivity.
    + unfold ret. rewrite !advance_advance, <- !app_assoc. reflexivity.
  - unfold ret.
    destruct (find (name_matches prefix) (filter_stream E)).
    + rewrite !advance_advance, <- !app_assoc. reflexivity.
    + rewrite (bind_ret_run _ _ _ _ _ (log_run _ _ _)).
      unfold find_alternative.
      destruct (find (name_matches prefix) (all_advertisers E)).
      * unfold bind. rewrite log_run. unfold ret.
        rewrite !advance_advance, <- !app_assoc. reflexivity.
      * unfold ret. rewrite !advance_advance, <- !app_assoc. reflexivity.
Qed.

Lemma discover_device_scan_raises {fin : Type} (E : env fin) (G : globals)
      (w : world fin) (e : exn) :
  io_outcome E (steps w) = Some e ->
  discover_device E G w
  = (Raise e,
     advance w [Log INFO (Scanning (product_class (SF_PRODUCT_ID G)));
                Log INFO (ScanTimeout (BT_SCAN_TIMEOUT G));
                Io (Discover (BT_SCAN_TIMEOUT G)) (Some e)] 1).
Proof.
  intros H1. unfold discover_device. cbv zeta.
  rewrite (bind_ret_run _ _ _ _ _ (log_run _ _ _)).
  rewrite (bind_ret_run _ _ _ _ _ (log_run _ _ _)).
  unfold bind at 1. rewrite await_run. simpl steps. rewrite H1.
  now rewrite !advance_advance.
Qed.

Lemma run_mqtt_part {fin : Type} (fr : fin -> pystr) (E : env fin)
      (G : globals) broker port info_only connect disconnect ssid deviceid n
      (w : world fin) :
  run fr E G broker port info_only connect disconnect ssid deviceid n w
  = bind (discover_device E G)
      (fun device =>
         match device with
         | Some d =>
             (log SUCCESS (FoundDevice d) ;;
              try_except
                (log INFO (ConnectingTo d) ;;
                 with_client E d
                   (session fr E G broker port info_only connect disconnect
                            ssid n))
                (fun e => log ERROR (ConnectionFailed e)))%py
         | None =>
             (log ERROR NoDeviceFound ;; log WARNING Troubleshooting)%py
         end)
      (after_mqtt E broker port w).
Proof.
  unfold run, after_mqtt, mqtt_events, local_mqtt_connect.
  unfold bind at 1.
  destruct (opt_str_truthy broker && port_truthy port)%bool; cbn [when].
  - unfold bind at 1. rewrite log_run.
    unfold bind at 1.
    destruct (mqtt_reachable E).
    + unfold bind at 1. rewrite emit_run. unfold ret, set_mq_client.
      rewrite advance_advance. reflexivity.
    + unfold bind at 1. rewrite log_run. unfold ret, set_mq_client.
      rewrite advance_advance. reflexivity.
  - unfold ret. rewrite app_nil_r. now destruct w.
Qed.

Lemma events_of_trace {fin A : Type} (m : M fin A) (w : world fin) evs :
  trace (snd (m w)) = trace w ++ evs -> events_of m w = evs.
Proof.
  intros H. unfold events_of. rewrite H. apply skipn_length_app.
Qed.

Lemma run_without_device_run {fin : Type} (fr : fin -> pystr) (E : env fin)
      (G : globals) broker port info_only connect disconnect ssid deviceid n
      (w : world fin) :
  io_outcome E (steps w) = None ->
  (forall e, io_outcome E (S (steps w)) = Some e -> is_Exception e = true) ->
  located E G (io_outcome E (S (steps w))) = None ->
  run fr E G broker port info_only connect disconnect ssid deviceid n w
  = (Ret tt,
     advance (after_mqtt E broker port w)
       (discover_events E G (io_outcome E (S (steps w)))
        ++ [Log ERROR NoDeviceFound; Log WARNING Troubleshooting]) 2).
Proof.
  intros H1 H2 Hloc. rewrite run_mqtt_part. unfold bind at 1.
  rewrite (discover_device_run E G (after_mqtt E broker port w) H1 H2).
  cbn [steps after_mqtt]. rewrite Hloc.
  unfold bind. rewrite !log_run, !advance_advance. reflexivity.
Qed.

Lemma run_scan_raises {fin : Type} (fr : fin -> pystr) (E : env fin)
      (G : globals) broker port info_only connect disconnect ssid deviceid n
      (w : world fin) (e : exn) :
  io_outcome E (steps w) = Some e ->
  run fr E G broker port info_only connect disconnect ssid deviceid n w
  = (Raise e,
     advance (after_mqtt E broker port w)
       [Log INFO (Scanning (product_class (SF_PRODUCT_ID G)));
        Log INFO (ScanTimeout (BT_SCAN_TIMEOUT G));
        Io (Discover (BT_SCAN_TIMEOUT G)) (Some e)] 1).
Proof.
  intros H1. rewrite run_mqtt_part. unfold bind at 1.
  now rewrite (discover_device_scan_raises E G (after_mqtt E broker port w) e H1).
Qed.

Lemma run_connect_raises {fin : Type} (fr : fin -> pystr) (E : env fin)
      (G : globals) broker port info_only connect disconnect ssid deviceid n
      (w : world fin) (d : device) (e : exn) :
  io_outcome E (steps w) = None ->
  (forall e, io_outcome E (S (steps w)) = Some e -> is_Exception e = true) ->
  located E G (io_outcome E (S (steps w))) = Some d ->
  io_outcome E (S (S (steps w))) = Some e ->
  run fr E G broker port info_only connect disconnect ssid deviceid n w
  = (if is_Exception e then Ret tt else Raise e,
     advance (after_mqtt E broker port w)
       (discover_events E G (io_outcome E (S (steps w)))
        ++ [Log SUCCESS (FoundDevice d); Log INFO (ConnectingTo d);
            Io (BleConnect d) (Some e)]
        ++ if is_Exception e then [Log ERROR (ConnectionFailed e)] else [])
       3).
Proof.
  intros H1 H2 Hloc Hc. rewrite run_mqtt_part. unfold bind at 1.
  rewrite (discover_device_run E G (after_mqtt E broker port w) H1 H2).
  cbn [steps after_mqtt]. rewrite Hloc.
  unfold bind at 1. rewrite log_run. unfold try_except.
  unfold bind at 1. rewrite log_run. unfold with_client.
  unfold bind at 1. rewrite await_run. cbn [steps advance plus after_mqtt].
  rewrite Hc. rewrite !advance_advance.
  destruct (is_Exception e).
  - rewrite log_run, advance_advance, <- ?app_assoc. reflexivity.
  - rewrite ?app_nil_r, <- ?app_assoc. reflexivity.
Qed.

Lemma run_connected {fin : Type} (fr : fin -> pystr) (E : env fin)
      (G : globals) broker port info_only connect disconnect ssid deviceid n
      (w : world fin) (d : device) (r : result unit) (evs : list (event fin))
      (k : nat) :
  io_outcome E (steps w) = None ->
  (forall e, io_outcome E (S (steps w)) = Some e -> is_Exception e = true) ->
  located E G (io_outcome E (S (steps w))) = Some d ->
  io_outcome E (S (S (steps w))) = None ->
  let o2 := io_outcome E (S (steps w)) in
  let w3 := connected E G broker port o2 d w in
  session fr E G broker port info_only connect disconnect ssid n w3
  = (r, advance w3 evs k) ->
  r <> Running ->
  let o := io_outcome E (k + (3 + steps w)) in
  run fr E G broker port info_only connect disconnect ssid deviceid n w
  = (run_outcome r o, advance w3 (evs ++ run_closing r o) (S k)).
Proof.
  intros H1 H2 Hloc Hc o2 w3 Hs Hr o. rewrite run_mqtt_part. unfold bind at 1.
  rewrite (discover_device_run E G (after_mqtt E broker port w) H1 H2).
  cbn [steps after_mqtt]. rewrite Hloc. fold o2.
  unfold bind at 1. rewrite log_run. unfold try_except.
  unfold bind at 1. rewrite log_run. unfold with_client.
  unfold bind at 1. rewrite await_run. cbn [steps advance plus after_mqtt].
  rewrite Hc. rewrite !advance_advance. cbn [plus].
  assert (Hw3 : advance (after_mqtt E broker port w)
                  (discover_events E G o2 ++ [Log SUCCESS (FoundDevice d)]
                   ++ [Log INFO (ConnectingTo d)]
                   ++ [Io (BleConnect d) None]) 3 = w3) by reflexivity.
  rewrite Hw3. unfold finally. rewrite Hs.
  assert (Hsteps : steps (advance w3 evs k) = k + (3 + steps w)) by reflexivity.
  unfold run_outcome, run_closing. fold o.
  destruct r as [[]|e|]; [| |congruence].
  - rewrite await_run, Hsteps. fold o. rewrite advance_advance.
    destruct o as [e'|].
    + destruct (is_Exception e').
      * rewrite log_run, advance_advance, <- app_assoc.
        now rewrite Nat.add_1_l.
      * now rewrite Nat.add_1_l.
    + now rewrite Nat.add_1_l.
  - rewrite await_run, Hsteps. fold o. rewrite advance_advance.
    destruct o as [e'|].
    + destruct (is_Exception e').
      * rewrite log_run, advance_advance, <- app_assoc.
        now rewrite Nat.add_1_l.
      * now rewrite Nat.add_1_l.
    + destruct (is_Exception e).
      * rewrite log_run, advance_advance, <- app_assoc.
        now rewrite Nat.add_1_l.
      * now rewrite Nat.add_1_l.
Qed.

(* --------------------------------------------------------------------- *)
(** ** The info-only branch *)

Lemma session_info_only {fin : Type} (fr : fin -> pystr) (E : env fin)
      (G : globals) (w : world fin) broker port info_only connect disconnect
      ssid n :
  never_cancelled E ->
  select_mode G broker port info_only connect disconnect ssid
  = InfoOnlyModeSel ->
  session fr E G broker port info_only connect disconnect ssid n w
  = match io_outcome E (steps w) with
    | Some e =>
        (Raise e,
         advance w [Log DEBUG Services; Log INFO InfoOnlyMode;
                    Io StartNotify (Some e)] 1)
    | None =>
        (match io_outcome E (4 + steps w) with
         | Some e => Raise e
         | None => Ret tt
         end,
         advance w (info_only_events E (steps w)) 5)
    end.
Proof.
  intros Hc Hm. unfold session. rewrite Hm.
  unfold bind at 1. rewrite log_run.
  unfold bind at 1. rewrite log_run.
  unfold bind at 1. rewrite await_run. cbn [steps advance plus].
  rewrite !advance_advance. cbn [Datatypes.app plus].
  destruct (io_outcome E (steps w)) as [e|]; [reflexivity|].
  unfold bind at 1. rewrite (getInfo_run fr E _ Hc).
  cbn [steps advance plus].
  unfold bind at 1.
  rewrite sleep_run
    by (cbn [steps advance plus]; intros Hx; apply Hc in Hx; discriminate).
  rewrite await_run. cbn [steps advance plus].
  rewrite !advance_advance. unfold info_only_events.
  cbn [plus Datatypes.app]. rewrite <- !app_assoc.
  destruct (io_outcome E (S (S (S (S (steps w)))))); reflexivity.
Qed.

Lemma set_IoT_Url_refused {fin : Type} (fr : fin -> pystr) (E : env fin)
      (G : globals) broker port ssid deviceid p (w : world fin) :
  never_cancelled E ->
  mq_client w = true ->
  publish_rejects E (register_topic G deviceid)
                  (JStr (reply (now E (steps w)))) = Some p ->
  set_IoT_Url fr E G broker port ssid deviceid w
  = (Raise (exn_of_pub_error p),
     advance w (set_IoT_Url_events fr E G broker ssid deviceid false (steps w)
                ++ [Log INFO PublishingRegisterReply]) 2).
Proof.
  intros Hc Hmq Hp. unfold set_IoT_Url, time_time.
  unfold bind at 1. unfold bind at 1.
  rewrite (attempt_run' E INFO _ _ (latin1 (json_dumps fr (c1 G broker ssid)))
             SetUrlFailed w)
    by (apply bytes_of_ords_ascii, c1_ascii).
  destruct (attempt_never_cancelled E (steps w)
              (Log INFO (SettingIoTUrl (json_dumps fr (c1 G broker ssid))))
              (latin1 (json_dumps fr (c1 G broker ssid))) SetUrlFailed Hc)
    as [Hr1 He1].
  rewrite Hr1, He1. clear Hr1 He1.
  unfold bind at 1.
  rewrite (attempt_run' E INFO _ _ (latin1 cmd2) SetWifiModeFailed)
    by (apply bytes_of_ords_ascii, ascii_text_lit_check; reflexivity).
  cbn [steps advance plus].
  destruct (attempt_never_cancelled E (S (steps w))
              (Log INFO SettingStationMode) (latin1 cmd2)
              SetWifiModeFailed Hc) as [Hr2 He2].
  rewrite Hr2, He2. clear Hr2 He2.
  unfold bind at 1. unfold get_getinfo, get_mq_client.
  cbn [mq_client advance]. unfold set_IoT_Url_events. rewrite Hmq.
  unfold when, bind, publish. rewrite log_run.
  fold (register_topic G deviceid). rewrite Hp. unfold raise.
  rewrite !advance_advance, app_nil_r, <- ?app_assoc. reflexivity.
Qed.

Lemma session_toggle_refused {fin : Type} (fr : fin -> pystr) (E : env fin)
      (G : globals) (w : world fin) broker port info_only connect disconnect
      ssid n p :
  never_cancelled E ->
  mq_client w = true ->
  publish_rejects E (register_topic G (SF_DEVICE_ID G))
                  (JStr (reply (now E (steps w)))) = Some p ->
  let m := select_mode G broker port info_only connect disconnect ssid in
  m = DisconnectMode \/ m = ConnectMode ->
  session fr E G broker port info_only connect disconnect ssid n w
  = (Raise (exn_of_pub_error p),
     advance w (refused_toggle_events fr E G m broker ssid (steps w)) 2).
Proof.
  intros Hc Hmq Hp m Hm. unfold session. fold m.
  unfold refused_toggle_events, toggle_broker.
  destruct Hm as [Hm | Hm]; rewrite Hm;
    unfold bind; rewrite !log_run, !advance_advance;
    rewrite (set_IoT_Url_refused fr E G _ _ _ _ p (advance w _ 0) Hc Hmq Hp);
    rewrite !advance_advance; cbn [steps mq_client advance plus];
    rewrite <- ?app_assoc; reflexivity.
Qed.

(* --------------------------------------------------------------------- *)
(** ** [run] from end to end *)

Lemma quiet_events {fin : Type} (evs : list (event fin)) :
  forallb is_quiet evs = true ->
  commands_written evs = [] /\ published evs = [] /\ subscriptions evs = 0.
Proof.
  induction evs as [|e evs IH]; [repeat split|]. simpl. intros H.
  apply andb_true_iff in H. destruct H as [He H].
  destruct (IH H) as (I1 & I2 & I3).
  unfold subscriptions in *. cbn [filter].
  destruct e as [lv m|t p r|b p|[] o]; try discriminate; simpl;
    repeat split; assumption.
Qed.

Lemma mqtt_events_quiet {fin : Type} (E : env fin) broker port :
  forallb is_quiet (mqtt_events E broker port) = true.
Proof.
  unfold mqtt_events.
  destruct (opt_str_truthy broker && port_truthy port)%bool; [|reflexivity].
  destruct (mqtt_reachable E); reflexivity.
Qed.

Lemma discover_events_quiet {fin : Type} (E : env fin) G o2 :
  forallb is_quiet (discover_events E G o2) = true.
Proof.
  unfold discover_events. cbv zeta. rewrite !forallb_app.
  repeat (apply andb_true_iff; split); try reflexivity.
  - destruct (all_advertisers E) as [|d ds]; [reflexivity|].
    cbn [forallb is_quiet andb].
    induction (combine (seq 1 (List.length (d :: ds))) (d :: ds));
      [reflexivity|exact IHl].
  - destruct o2; reflexivity.
  - destruct (match o2 with
              | Some _ => None
              | None => find _ (filter_stream E)
              end); [reflexivity|].
    destruct (find _ (all_advertisers E)); reflexivity.
Qed.

Lemma connect_events_quiet {fin : Type} (E : env fin) G broker port o2 d :
  forallb is_quiet (connect_events E G broker port o2 d) = true.
Proof.
  unfold connect_events.
  now rewrite !forallb_app, mqtt_events_quiet, discover_events_quiet.
Qed.

Lemma events_of_after_mqtt {fin A : Type} (E : env fin) broker port
      (m : M fin A) (w : world fin) r evs k :
  m w = (r, advance (after_mqtt E broker port w) evs k) ->
  events_of m w = mqtt_events E broker port ++ evs.
Proof.
  intros H. apply events_of_trace. rewrite H. cbn [snd trace advance after_mqtt].
  now rewrite app_assoc.
Qed.

Lemma events_of_connected {fin A : Type} (E : env fin) G broker port o2 d
      (m : M fin A) (w : world fin) r evs k :
  m w = (r, advance (connected E G broker port o2 d w) evs k) ->
  events_of m w = connect_events E G broker port o2 d ++ evs.
Proof.
  intros H. apply events_of_trace. rewrite H.
  unfold connected, connect_events. cbn [snd trace advance after_mqtt].
  now rewrite <- !app_assoc.
Qed.

Lemma actions_app {fin : Type} (a b : list (event fin)) :
  actions (a ++ b) = actions a ++ actions b.
Proof. apply filter_app. Qed.

Lemma actions_logs {fin : Type} (evs : list (event fin)) :
  forallb is_log evs = true -> actions evs = [].
Proof.
  induction evs as [|e evs IH]; [reflexivity|]. simpl. intros H.
  apply andb_true_iff in H. destruct H as [He H].
  unfold actions. cbn [filter]. rewrite He. cbn [negb]. now apply IH.
Qed.

Lemma actions_mqtt_events {fin : Type} (E : env fin) broker port :
  actions (mqtt_events E broker port) = mqtt_actions E broker port.
Proof.
  unfold mqtt_events, mqtt_actions.
  destruct (opt_str_truthy broker && port_truthy port)%bool; [|reflexivity].
  destruct (mqtt_reachable E); reflexivity.
Qed.

Lemma actions_discover_events {fin : Type} (E : env fin) G o2 :
  actions (discover_events E G o2) = scan_actions G o2.
Proof.
  unfold discover_events, scan_actions. cbv zeta. rewrite !actions_app.
  assert (Hseen : actions
                    match all_advertisers E with
                    | [] => [Log WARNING NoDevicesAtAll]
                    | _ :: _ =>
                        Log DEBUG (FoundDevices (List.length (all_advertisers E)))
                        :: map (fun id => Log DEBUG (DeviceSeen (fst id) (snd id)))
                             (combine (seq 1 (List.length (all_advertisers E)))
                                      (all_advertisers E))
                    end = @nil (event fin)).
  { apply actions_logs. destruct (all_advertisers E) as [|d ds]; [reflexivity|].
    cbn [forallb is_log andb].
    induction (combine (seq 1 (List.length (d :: ds))) (d :: ds));
      [reflexivity|exact IHl]. }
  rewrite Hseen.
  assert (Herr : actions match o2 with
                         | Some e => [Log ERROR (NameFilterError e)]
                         | None => []
                         end = @nil (event fin))
    by (destruct o2; reflexivity).
  rewrite Herr.
  assert (Halt : forall x : option device,
             actions match x with
                     | Some _ => []
                     | None =>
                         Log INFO TryingAlternative
                         :: match find (name_matches
                                          (product_class (SF_PRODUCT_ID G)))
                                       (all_advertisers E) with
                            | Some d => [Log SUCCESS (FoundAlternative d)]
                            | None => []
                            end
                     end = @nil (event fin)).
  { intros [x|]; [reflexivity|].
    destruct (find _ (all_advertisers E)); reflexivity. }
  rewrite Halt. reflexivity.
Qed.

Lemma actions_connect_events {fin : Type} (E : env fin) G broker port o2 d :
  actions (connect_events E G broker port o2 d)
  = mqtt_actions E broker port ++ scan_actions G o2
    ++ [Io (BleConnect d) None].
Proof.
  unfold connect_events.
  now rewrite !actions_app, actions_mqtt_events, actions_discover_events.
Qed.

Lemma actions_attempt {fin : Type} lv m b o (failed : exn -> logmsg fin) :
  actions (attempt (Log lv m) b o failed) = [Io (WriteGatt b) o].
Proof. destruct o; reflexivity. Qed.

Lemma actions_set_IoT_Url_events {fin : Type} (fr : fin -> pystr)
      (E : env fin) G broker ssid deviceid mq s :
  actions (set_IoT_Url_events fr E G broker ssid deviceid mq s)
  = [Io (WriteGatt (latin1 (json_dumps fr (c1 G broker ssid))))
        (io_outcome E s);
     Io (WriteGatt (latin1 cmd2)) (io_outcome E (S s))]
    ++ (if mq
        then [Publish (register_topic G deviceid) (JStr (reply (now E s))) true]
        else []).
Proof.
  unfold set_IoT_Url_events. rewrite !actions_app, !actions_attempt.
  destruct mq; reflexivity.
Qed.

Lemma actions_cloud_toggle_events {fin : Type} (fr : fin -> pystr)
      (E : env fin) G m broker ssid mq s :
  actions (cloud_toggle_events fr E G m broker ssid mq s)
  = [Io (WriteGatt (latin1 (json_dumps fr (c1 G (toggle_broker m broker) ssid))))
        (io_outcome E s);
     Io (WriteGatt (latin1 cmd2)) (io_outcome E (S s))]
    ++ (if mq
        then [Publish (register_topic G (SF_DEVICE_ID G))
                      (JStr (reply (now E s))) true]
        else [])
    ++ [Io (Sleep 30) None].
Proof.
  unfold cloud_toggle_events.
  rewrite !actions_app, actions_set_IoT_Url_events.
  change (actions [Log DEBUG Services;
                   Log INFO match m with
                            | DisconnectMode => SettingDisconnect
                            | _ => SettingReconnect
                            end])
    with (@nil (event fin)).
  change (actions [Log SUCCESS match m with
                               | DisconnectMode => DisconnectedFromCloud
                               | _ => ReconnectedToCloud
                               end;
                   Io (Sleep 30) None])
    with [Io (Sleep 30) (@None exn) : event fin].
  rewrite app_nil_l, <- app_assoc. reflexivity.
Qed.

Lemma actions_refused_toggle_events {fin : Type} (fr : fin -> pystr)
      (E : env fin) G m broker ssid s :
  actions (refused_toggle_events fr E G m broker ssid s)
  = [Io (WriteGatt (latin1 (json_dumps fr (c1 G (toggle_broker m broker) ssid))))
        (io_outcome E s);
     Io (WriteGatt (latin1 cmd2)) (io_outcome E (S s))].
Proof.
  unfold refused_toggle_events.
  rewrite !actions_app, actions_set_IoT_Url_events. reflexivity.
Qed.

Lemma actions_info_only_events {fin : Type} (E : env fin) s :
  actions (info_only_events (fin := fin) E s)
  = [Io StartNotify None;
     Io (WriteGatt (latin1 (getInfo_text (now E (S s))))) (io_outcome E (S s));
     Io (WriteGatt (latin1 (getAll_text (now E (S s)))))
        (io_outcome E (S (S s)));
     Io (Sleep 20) None;
     Io StopNotify (io_outcome E (4 + s))].
Proof.
  unfold info_only_events. rewrite !actions_app, !actions_attempt.
  reflexivity.
Qed.

Lemma actions_two_logs {fin : Type} (a b : logmsg fin) la lb :
  actions [Log la a; Log lb b] = [].
Proof. reflexivity. Qed.

(** X13: when neither scan finds a hub, [run] logs the failure and
    returns: whatever mode was asked for, no connection is attempted
    and nothing is written, subscribed or published; besides log
    records, the two scans are all it has done after the MQTT
    connection. *)
Theorem run_without_device :
  forall (fin : Type) (fr : fin -> pystr) (E : env fin) (G : globals)
         broker port info_only connect disconnect ssid deviceid n
         (w : world fin),
    io_outcome E (steps w) = None ->
    (forall e, io_outcome E (S (steps w)) = Some e -> is_Exception e = true) ->
    located E G (io_outcome E (S (steps w))) = None ->
    let r := run fr E G broker port info_only connect disconnect ssid
                 deviceid n in
    fst (r w) = Ret tt /\
    actions (events_of r w)
    = mqtt_actions E broker port
      ++ scan_actions G (io_outcome E (S (steps w))) /\
    In (Log ERROR NoDeviceFound) (events_of r w).
Proof.
  intros fin fr E G broker port info_only connect disconnect ssid deviceid n w
         H1 H2 Hloc r.
  pose proof (run_without_device_run fr E G broker port info_only connect
                disconnect ssid deviceid n w H1 H2 Hloc) as Hrun.
  fold r in Hrun. split; [now rewrite Hrun|].
  rewrite (events_of_after_mqtt _ _ _ _ _ _ _ _ Hrun). split.
  - rewrite !actions_app, actions_mqtt_events, actions_discover_events.
    rewrite actions_two_logs. now rewrite app_nil_r.
  - apply in_or_app. right. apply in_or_app. right. now left.
Qed.

Lemma run_without_device_witness :
  fst (run ex_float_repr ex_env
           {| WIFI_PWD := None; SF_DEVICE_ID := None;
              SF_PRODUCT_ID := lit "A8yh63";
              GLOBAL_INFO_POLLING_INTERVAL := 60;
              BT_SCAN_TIMEOUT := 20 |}
           None None false false false None None 3 (start false)) = Ret tt.
Proof.
  pose proof (run_without_device
                Z ex_float_repr ex_env
                {| WIFI_PWD := None; SF_DEVICE_ID := None;
                   SF_PRODUCT_ID := lit "A8yh63";
                   GLOBAL_INFO_POLLING_INTERVAL := 60;
                   BT_SCAN_TIMEOUT := 20 |}
                None None false false false None None 3 (start false)
                eq_refl ltac:(discriminate) eq_refl) as H.
  cbv zeta in H. exact (proj1 H).
Defined.

(** X14: a connection that fails with an [Exception] is logged by [run],
    which returns; nothing has been written to the hub and no
    disconnection is attempted. *)
Theorem connection_failure_is_logged :
  forall (fin : Type) (fr : fin -> pystr) (E : env fin) (G : globals)
         broker port info_only connect disconnect ssid deviceid n
         (w : world fin) (d : device) (e : exn),
    io_outcome E (steps w) = None ->
    (forall e, io_outcome E (S (steps w)) = Some e -> is_Exception e = true) ->
    located E G (io_outcome E (S (steps w))) = Some d ->
    io_outcome E (S (S (steps w))) = Some e ->
    is_Exception e = true ->
    let r := run fr E G broker port info_only connect disconnect ssid
                 deviceid n in
    fst (r w) = Ret tt /\
    actions (events_of r w)
    = mqtt_actions E broker port
      ++ scan_actions G (io_outcome E (S (steps w)))
      ++ [Io (BleConnect d) (Some e)] /\
    In (Log ERROR (ConnectionFailed e)) (events_of r w).
Proof.
  intros fin fr E G broker port info_only connect disconnect ssid deviceid n w
         d e H1 H2 Hloc Hc He r.
  pose proof (run_connect_raises fr E G broker port info_only connect
                disconnect ssid deviceid n w d e H1 H2 Hloc Hc) as Hrun.
  fold r in Hrun. rewrite He in Hrun. split; [now rewrite Hrun|].
  rewrite (events_of_after_mqtt _ _ _ _ _ _ _ _ Hrun). split.
  - rewrite !actions_app, actions_mqtt_events, actions_discover_events.
    reflexivity.
  - apply in_or_app. right. apply in_or_app. right. apply in_or_app. right.
    now left.
Qed.

Lemma connection_failure_is_logged_witness :
  fst (run ex_float_repr (ex_env_fault 2) ex_globals None None
           false false false None None 3 (start false)) = Ret tt.
Proof.
  pose proof (connection_failure_is_logged
                Z ex_float_repr (ex_env_fault 2) ex_globals None None
                false false false None None 3 (start false) hub TransportError
                eq_refl ltac:(discriminate) eq_refl eq_refl eq_refl) as H.
  cbv zeta in H. exact (proj1 H).
Defined.

Lemma select_mode_disconnect (G : globals) broker port info_only connect
      disconnect ssid :
  select_mode G broker port info_only connect disconnect ssid = DisconnectMode ->
  (opt_str_truthy broker && port_truthy port)%bool = true.
Proof.
  unfold select_mode.
  destruct (opt_str_truthy broker), (port_truthy port); try reflexivity;
    rewrite ?andb_false_r; cbn [andb];
    destruct (connect && opt_str_truthy ssid)%bool; try discriminate;
    destruct (info_only && _)%bool; discriminate.
Qed.

(** X11: a cloud-toggle run from end to end, when no awaited operation fails:
    the MQTT connection, the two scans, the connection to the hub, the
    token command and the station-mode command, the registration
    acknowledgment if there is an MQTT client, 30 seconds, the
    disconnection.  In disconnect mode the client is the one [run] has
    just created: when the broker cannot be reached the hub is
    reconfigured all the same, and no acknowledgment is published. *)
Theorem toggle_run_end_to_end :
  forall (fin : Type) (fr : fin -> pystr) (E : env fin) (G : globals)
         broker port info_only connect disconnect ssid deviceid n
         (w : world fin) (d : device),
    never_fails E ->
    located E G None = Some d ->
    let m := select_mode G broker port info_only connect disconnect ssid in
    m = DisconnectMode \/ m = ConnectMode ->
    let client := mq_client (after_mqtt E broker port w) in
    (forall payload,
        publish_rejects E (register_topic G (SF_DEVICE_ID G)) payload = None) ->
    let r := run fr E G broker port info_only connect disconnect ssid
                 deviceid n in
    let acknowledgment :=
      if client
      then [Publish (register_topic G (SF_DEVICE_ID G))
                    (JStr (reply (now E (3 + steps w)))) true]
      else [] in
    fst (r w) = Ret tt /\
    actions (events_of r w)
    = mqtt_actions E broker port
      ++ scan_actions G None
      ++ [Io (BleConnect d) None;
          Io (WriteGatt
                (latin1 (json_dumps fr (c1 G (toggle_broker m broker) ssid))))
             None;
          Io (WriteGatt (latin1 cmd2)) None]
      ++ acknowledgment
      ++ [Io (Sleep 30) None; Io BleDisconnect None] /\
    published (events_of r w) = published acknowledgment /\
    (m = DisconnectMode -> client = mqtt_reachable E).
Proof.
  intros fin fr E G broker port info_only connect disconnect ssid deviceid n w
         d Hnf Hloc m Hm client Hp r acknowledgment.
  pose proof (never_fails_never_cancelled E Hnf) as Hc.
  assert (Hrun : r w
                 = (Ret tt,
                    advance (connected E G broker port None d w)
                      (cloud_toggle_events fr E G m broker ssid client
                                           (3 + steps w)
                       ++ [Io BleDisconnect None]) 4)).
  { pose proof (run_connected fr E G broker port info_only connect disconnect
                  ssid deviceid n w d (Ret tt)
                  (cloud_toggle_events fr E G m broker ssid client
                                       (3 + steps w)) 3) as Hr.
    rewrite !Hnf in Hr. cbv zeta in Hr. unfold r.
    rewrite Hr; [reflexivity|reflexivity|discriminate|exact Hloc|reflexivity
                | |discriminate].
    exact (session_cloud_toggle fr E G (connected E G broker port None d w)
             broker port info_only connect disconnect ssid n Hc Hp Hm). }
  destruct (cloud_toggle_events_facts fr E G m broker ssid client
              (3 + steps w)) as (_ & _ & F3).
  destruct (quiet_events _ (connect_events_quiet E G broker port None d))
    as (_ & Q2 & _).
  split; [now rewrite Hrun|].
  rewrite (events_of_connected _ _ _ _ _ _ _ _ _ _ _ Hrun).
  split; [|split].
  - rewrite !actions_app, actions_connect_events, actions_cloud_toggle_events.
    rewrite !Hnf. unfold acknowledgment.
    rewrite <- !app_assoc. reflexivity.
  - rewrite !published_app, Q2, F3. unfold acknowledgment.
    destruct client; reflexivity.
  - intros Hd. unfold client, after_mqtt. cbn [mq_client].
    now rewrite (select_mode_disconnect _ _ _ _ _ _ _ Hd).
Qed.

Lemma toggle_run_end_to_end_witness :
  published
    (events_of (run ex_float_repr ex_env_no_broker ex_globals
                    (Some (lit "192.168.1.100")) (Some 1883%Z)
                    false false true (Some (lit "home")) (Some (lit "dev1"))
                    0)
               (start false)) = [].
Proof.
  pose proof (toggle_run_end_to_end
                Z ex_float_repr ex_env_no_broker ex_globals
                (Some (lit "192.168.1.100")) (Some 1883%Z)
                false false true (Some (lit "home")) (Some (lit "dev1")) 0
                (start false) hub
                ltac:(intros k; reflexivity) eq_refl (or_introl eq_refl)
                ltac:(intros payload; reflexivity)) as H.
  cbv zeta in H. exact (proj1 (proj2 (proj2 H))).
Defined.

(** X12: when the MQTT client refuses the registration acknowledgment (a
    topic it does not take), the exception leaves [set_IoT_Url]: the 30
    seconds are not waited; the hub has received both commands, the
    connection is closed, and [run] logs the exception as a failed
    connection and returns. *)
Theorem refused_register_reply :
  forall (fin : Type) (fr : fin -> pystr) (E : env fin) (G : globals)
         broker port info_only connect disconnect ssid deviceid n
         (w : world fin) (d : device) (p : pub_error),
    never_fails E ->
    located E G None = Some d ->
    let m := select_mode G broker port info_only connect disconnect ssid in
    m = DisconnectMode \/ m = ConnectMode ->
    mq_client (after_mqtt E broker port w) = true ->
    publish_rejects E (register_topic G (SF_DEVICE_ID G))
                    (JStr (reply (now E (3 + steps w)))) = Some p ->
    let r := run fr E G broker port info_only connect disconnect ssid
                 deviceid n in
    fst (r w) = Ret tt /\
    actions (events_of r w)
    = mqtt_actions E broker port
      ++ scan_actions G None
      ++ [Io (BleConnect d) None;
          Io (WriteGatt
                (latin1 (json_dumps fr (c1 G (toggle_broker m broker) ssid))))
             None;
          Io (WriteGatt (latin1 cmd2)) None;
          Io BleDisconnect None] /\
    In (Log ERROR (ConnectionFailed (exn_of_pub_error p))) (events_of r w).
Proof.
  intros fin fr E G broker port info_only connect disconnect ssid deviceid n w
         d p Hnf Hloc m Hm Hmq Hp r.
  pose proof (never_fails_never_cancelled E Hnf) as Hc.
  destruct (exn_of_pub_error_caught p) as [He _].
  assert (Hrun : r w
                 = (Ret tt,
                    advance (connected E G broker port None d w)
                      (refused_toggle_events fr E G m broker ssid (3 + steps w)
                       ++ [Io BleDisconnect None;
                           Log ERROR (ConnectionFailed (exn_of_pub_error p))])
                      3)).
  { pose proof (run_connected fr E G broker port info_only connect disconnect
                  ssid deviceid n w d (Raise (exn_of_pub_error p))
                  (refused_toggle_events fr E G m broker ssid (3 + steps w))
                  2) as Hr.
    rewrite !Hnf in Hr. cbv zeta in Hr. unfold r.
    rewrite Hr; [|reflexivity|discriminate|exact Hloc|reflexivity
                | |discriminate].
    - unfold run_outcome, run_closing. now rewrite He.
    - exact (session_toggle_refused fr E G
               (connected E G broker port None d w) broker port info_only
               connect disconnect ssid n p Hc Hmq Hp Hm). }
  split; [now rewrite Hrun|].
  rewrite (events_of_connected _ _ _ _ _ _ _ _ _ _ _ Hrun). split.
  - rewrite !actions_app, actions_connect_events,
      actions_refused_toggle_events.
    rewrite !Hnf. rewrite <- !app_assoc. reflexivity.
  - apply in_or_app. right. apply in_or_app. right. right. now left.
Qed.

Lemma refused_register_reply_witness :
  fst (run ex_float_repr ex_env_refusing ex_globals
           (Some (lit "192.168.1.100")) (Some 1883%Z)
           false false true (Some (lit "home")) (Some (lit "dev1")) 0
           (start false)) = Ret tt.
Proof.
  pose proof (refused_register_reply
                Z ex_float_repr ex_env_refusing ex_globals
                (Some (lit "192.168.1.100")) (Some 1883%Z)
                false false true (Some (lit "home")) (Some (lit "dev1")) 0
                (start false) hub BadTopic
                ltac:(intros k; reflexivity) eq_refl (or_introl eq_refl)
                eq_refl eq_refl) as H.
  cbv zeta in H. exact (proj1 H).
Defined.

(** X15: the info-only branch subscribes once, sends the two commands of
    [getInfo], listens for 20 seconds and unsubscribes; [run] itself
    publishes nothing.  When [start_notify] raises, the branch is left
    at once: no command is written and [stop_notify] is not called.
    From end to end, when nothing fails: the MQTT connection, the two
    scans, the connection to the hub, the branch, the disconnection. *)
Theorem info_only_run :
  forall (fin : Type) (fr : fin -> pystr) (E : env fin) (G : globals)
         broker port info_only connect disconnect ssid deviceid n
         (w : world fin) (d : device),
    never_cancelled E ->
    select_mode G broker port info_only connect disconnect ssid
    = InfoOnlyModeSel ->
    let body := session fr E G broker port info_only connect disconnect
                        ssid n in
    let r := run fr E G broker port info_only connect disconnect ssid
                 deviceid n in
    (forall e, io_outcome E (steps w) = Some e ->
               fst (body w) = Raise e /\
               actions (events_of body w) = [Io StartNotify (Some e)]) /\
    (io_outcome E (steps w) = None ->
     actions (events_of body w)
     = [Io StartNotify None;
        Io (WriteGatt (latin1 (getInfo_text (now E (S (steps w))))))
           (io_outcome E (S (steps w)));
        Io (WriteGatt (latin1 (getAll_text (now E (S (steps w))))))
           (io_outcome E (S (S (steps w))));
        Io (Sleep 20) None;
        Io StopNotify (io_outcome E (4 + steps w))] /\
     subscriptions (events_of body w) = 1 /\
     published (events_of body w) = []) /\
    (never_fails E -> located E G None = Some d ->
     fst (r w) = Ret tt /\
     actions (events_of r w)
     = mqtt_actions E broker port
       ++ scan_actions G None
       ++ [Io (BleConnect d) None;
           Io StartNotify None;
           Io (WriteGatt (latin1 (getInfo_text (now E (4 + steps w))))) None;
           Io (WriteGatt (latin1 (getAll_text (now E (4 + steps w))))) None;
           Io (Sleep 20) None;
           Io StopNotify None;
           Io BleDisconnect None]).
Proof.
  intros fin fr E G broker port info_only connect disconnect ssid deviceid n w
         d Hc Hm body r.
  pose proof (fun w0 => session_info_only fr E G w0 broker port info_only
                          connect disconnect ssid n Hc Hm) as Hs.
  split; [|split].
  - intros e He. specialize (Hs w). rewrite He in Hs. fold body in Hs.
    split; [now rewrite Hs|].
    now rewrite (events_of_advance _ _ _ _ _ Hs).
  - intros Hstart.
    assert (Hev : events_of body w = info_only_events E (steps w)).
    { specialize (Hs w). rewrite Hstart in Hs.
      exact (events_of_advance _ _ _ _ _ Hs). }
    rewrite Hev. split; [apply actions_info_only_events|].
    unfold info_only_events.
    rewrite !subscriptions_app, !published_app.
    destruct (attempt_log_facts DEBUG SendingGetInfo
                (latin1 (getInfo_text (now E (S (steps w)))))
                (io_outcome E (S (steps w))) (GetInfoFailed (fin := fin)))
      as (A1 & _ & A3).
    destruct (attempt_log_facts DEBUG SendingGetAll
                (latin1 (getAll_text (now E (S (steps w)))))
                (io_outcome E (S (S (steps w))))
                (GetPropertiesFailed (fin := fin)))
      as (B1 & _ & B3).
    rewrite A1, A3, B1, B3. split; reflexivity.
  - intros Hnf Hloc.
    assert (Hrun : r w
                   = (Ret tt,
                      advance (connected E G broker port None d w)
                        (info_only_events E (3 + steps w)
                         ++ [Io BleDisconnect None]) 6)).
    { pose proof (run_connected fr E G broker port info_only connect disconnect
                    ssid deviceid n w d (Ret tt)
                    (info_only_events E (3 + steps w)) 5) as Hr.
      rewrite !Hnf in Hr. cbv zeta in Hr. unfold r.
      rewrite Hr; [reflexivity|reflexivity|discriminate|exact Hloc|reflexivity
                  | |discriminate].
      specialize (Hs (connected E G broker port None d w)).
      rewrite !Hnf in Hs. exact Hs. }
    split; [now rewrite Hrun|].
    rewrite (events_of_connected _ _ _ _ _ _ _ _ _ _ _ Hrun).
    rewrite !actions_app, actions_connect_events, actions_info_only_events.
    rewrite !Hnf. rewrite <- !app_assoc. reflexivity.
Qed.

Lemma info_only_run_witness :
  fst (run ex_float_repr ex_env ex_globals None None true false false None
           None 0 (start false)) = Ret tt.
Proof.
  pose proof (info_only_run Z ex_float_repr ex_env ex_globals None None
                true false false None None 0 (start false) hub
                (never_fails_never_cancelled ex_env ex_env_never_fails)
                eq_refl) as H.
  cbv zeta in H.
  exact (proj1 (proj2 (proj2 H) ex_env_never_fails eq_refl)).
Defined.

(* --------------------------------------------------------------------- *)
(** ** [main]: the option loop and the validation *)

Lemma main_flags_snoc (opts : list cli_opt) (o : cli_opt) :
  main_flags (opts ++ [o]) = main_option (main_flags opts) o.
Proof. unfold main_flags. now rewrite fold_left_app. Qed.

Lemma fold_main_option_quiet (b : list cli_opt) (f : flags) :
  forallb (fun o => negb (is_mode_option o)) b = true ->
  cli_connect (fold_left main_option b f) = cli_connect f /\
  cli_disconnect (fold_left main_option b f) = cli_disconnect f /\
  cli_info_only (fold_left main_option b f) = cli_info_only f.
Proof.
  revert f. induction b as [|o b IH]; intros f H; [repeat split|].
  simpl in H. apply andb_true_iff in H. destruct H as [Ho Hb].
  cbn [fold_left]. destruct (IH (main_option f o) Hb) as (I1 & I2 & I3).
  rewrite I1, I2, I3. destruct o; try discriminate; repeat split.
Qed.

(** What every turn of the option loop keeps. *)
Lemma main_flags_invariant (opts : list cli_opt) :
  (cli_connect (main_flags opts) && cli_disconnect (main_flags opts))%bool
  = false /\
  (cli_info_only (main_flags opts) = true <-> In OptInfo opts) /\
  (cli_broker (main_flags opts) = None <-> cli_port (main_flags opts) = None).
Proof.
  induction opts as [|o opts IH] using rev_ind.
  - split; [reflexivity|]. split; [|split; reflexivity].
    split; [discriminate|intros []].
  - rewrite main_flags_snoc. destruct IH as (I1 & I2 & I3).
    destruct o; cbn [main_option cli_connect cli_disconnect cli_info_only
                       cli_broker cli_port];
      (split; [first [exact I1 | reflexivity
                     | now rewrite ?andb_false_r]|]);
      (split; [rewrite in_app_iff; cbn [In]|
               first [exact I3 | split; discriminate]]);
      rewrite ?I2;
      try (split; [intros H; now left
                  |intros [H|[H|[]]]; [exact H|discriminate H]]).
    split; [intros _; right; now left|reflexivity].
Qed.

(** X18: the option loop of [main] keeps [connect] and [disconnect]
    exclusive, sets [info_only] exactly when [-i] occurs, and gives
    broker and port together.  The last mode option decides [connect]
    and [disconnect]: [-i] clears both, but [-d] and [-c] leave
    [info_only] as it is. *)
Theorem option_loop_invariants :
  forall (opts : list cli_opt),
    let f := main_flags opts in
    (cli_connect f && cli_disconnect f)%bool = false /\
    (cli_info_only f = true <-> In OptInfo opts) /\
    (cli_broker f = None <-> cli_port f = None) /\
    (forall a b o,
        opts = a ++ o :: b ->
        is_mode_option o = true ->
        forallb (fun o' => negb (is_mode_option o')) b = true ->
        cli_connect f = match o with OptConnect => true | _ => false end /\
        cli_disconnect f = match o with OptDisconnect => true | _ => false end /\
        cli_info_only f
        = match o with
          | OptInfo => true
          | _ => cli_info_only (main_flags a)
          end).
Proof.
  intros opts f.
  destruct (main_flags_invariant opts) as (H1 & H2 & H3). fold f in H1, H2, H3.
  split; [exact H1|]. split; [exact H2|]. split; [exact H3|].
  intros a b o Heq Ho Hb. unfold f. rewrite Heq. unfold main_flags.
  rewrite fold_left_app. cbn [fold_left].
  destruct (fold_main_option_quiet b
              (main_option (fold_left main_option a initial_flags) o) Hb)
    as (Q1 & Q2 & Q3).
  rewrite Q1, Q2, Q3. destruct o; try discriminate; repeat split.
Qed.

Lemma option_loop_invariants_witness :
  cli_connect (main_flags ex_info_and_disconnect) = false /\
  cli_disconnect (main_flags ex_info_and_disconnect) = true /\
  cli_info_only (main_flags ex_info_and_disconnect) = true.
Proof.
  apply (proj2 (proj2 (proj2 (option_loop_invariants ex_info_and_disconnect)))
           [OptInfo] [OptWifi (lit "home"); OptBroker (lit "192.168.1.100") 1883]
           OptDisconnect eq_refl eq_refl eq_refl).
Defined.

Lemma disconnect_errors_zero (G : globals) (f : flags) :
  disconnect_errors G f = 0 <->
  cli_ssid f <> None /\ cli_broker f <> None /\
  WIFI_PWD G <> None /\ SF_DEVICE_ID G <> None.
Proof.
  unfold disconnect_errors.
  destruct (cli_ssid f), (cli_broker f), (WIFI_PWD G), (SF_DEVICE_ID G);
    cbn [is_none]; split; intros H;
    try discriminate; try lia;
    try (repeat split; discriminate);
    destruct H as (A & B & C & D); congruence.
Qed.

Lemma main_runs {fin : Type} (fr : fin -> pystr) (E : env fin) (G : globals)
      (opts : list cli_opt) (n : nat) (w : world fin) :
  validated G opts ->
  let f := main_flags opts in
  main fr E G opts n w
  = match run fr E G (cli_broker f) (cli_port f) (cli_info_only f)
              (cli_connect f) (cli_disconnect f) (cli_ssid f)
              (SF_DEVICE_ID G) n (advance w (main_prelude f) 0) with
    | (Raise CancelledError, w') => log INFO Interrupted w'
    | (Raise e, w') =>
        if is_Exception e then log ERROR (UnexpectedError e) w'
        else (Raise e, w')
    | other => other
    end.
Proof.
  intros (Hh & Hd & Hc). cbv zeta. unfold main.
  set (f := main_flags opts) in *. rewrite Hh.
  unfold main_prelude.
  unfold bind at 1. cbn [when]. unfold ret at 1.
  unfold bind at 1.
  assert (Hdis : when (cli_disconnect f)
                   (when (negb (Nat.eqb (disconnect_errors G f) 0))
                      (log ERROR (ConfigurationErrors (disconnect_errors G f)) ;;
                       raise SystemExit) ;;
                    log INFO DisconnectingHub)%py w
                 = (Ret tt,
                    advance w (if cli_disconnect f
                               then [Log INFO DisconnectingHub] else []) 0)).
  { destruct (cli_disconnect f) eqn:Hf; cbn [when].
    - rewrite (Hd eq_refl). cbn [Nat.eqb negb when]. unfold bind, ret.
      now rewrite log_run.
    - unfold ret. now rewrite advance_nil. }
  rewrite Hdis. unfold bind at 1.
  assert (Hcon : forall w0 : world fin,
             when (cli_connect f)
               (when (is_none (cli_ssid f))
                  (log ERROR SsidRequired ;; raise SystemExit) ;;
                log INFO ConnectingHub)%py w0
             = (Ret tt,
                advance w0 (if cli_connect f
                            then [Log INFO ConnectingHub] else []) 0)).
  { intros w0. destruct (cli_connect f) eqn:Hf; cbn [when].
    - specialize (Hc eq_refl). destruct (cli_ssid f); [|congruence].
      cbn [is_none when]. unfold bind, ret. now rewrite log_run.
    - unfold ret. now rewrite advance_nil. }
  rewrite Hcon, advance_advance. reflexivity.
Qed.

(** X19: once the options are read, [main] leaves with [SystemExit]
    before it calls [run], and so before any Bluetooth or MQTT
    operation, in three cases: a help option; the disconnect mode with
    one of SSID, broker, [WIFI_PWD] and [SF_DEVICE_ID] missing (the
    number of errors reported is the number of missing settings); the
    connect mode without SSID. *)
Theorem main_exits_before_running :
  forall (fin : Type) (fr : fin -> pystr) (E : env fin) (G : globals)
         (opts : list cli_opt) (n : nat) (w : world fin),
    let f := main_flags opts in
    let m := main fr E G opts n in
    (existsb is_help opts = true ->
     fst (m w) = Raise SystemExit /\ actions (events_of m w) = []) /\
    (existsb is_help opts = false -> cli_disconnect f = true ->
     disconnect_errors G f <> 0 ->
     fst (m w) = Raise SystemExit /\ actions (events_of m w) = [] /\
     In (Log ERROR (ConfigurationErrors (disconnect_errors G f)))
        (events_of m w)) /\
    (existsb is_help opts = false -> cli_connect f = true ->
     cli_ssid f = None ->
     fst (m w) = Raise SystemExit /\ actions (events_of m w) = [] /\
     In (Log ERROR SsidRequired) (events_of m w)) /\
    (disconnect_errors G f = 0 <->
     cli_ssid f <> None /\ cli_broker f <> None /\
     WIFI_PWD G <> None /\ SF_DEVICE_ID G <> None).
Proof.
  intros fin fr E G opts n w f m.
  split; [|split; [|split]].
  - intros Hh.
    assert (Hrun : m w = (Raise SystemExit, advance w [] 0)).
    { unfold m, main. rewrite Hh. now rewrite advance_nil. }
    split; [now rewrite Hrun|].
    now rewrite (events_of_advance _ _ _ _ _ Hrun).
  - intros Hh Hd He.
    assert (Hrun : m w
                   = (Raise SystemExit,
                      advance w [Log ERROR (ConfigurationErrors
                                              (disconnect_errors G f))] 0)).
    { unfold m, main. fold f. rewrite Hh, Hd.
      apply Nat.eqb_neq in He. rewrite He. reflexivity. }
    split; [now rewrite Hrun|].
    rewrite (events_of_advance _ _ _ _ _ Hrun).
    split; [reflexivity|now left].
  - intros Hh Hc Hs.
    assert (Hrun : m w
                   = (Raise SystemExit, advance w [Log ERROR SsidRequired] 0)).
    { unfold m, main. fold f. rewrite Hh, Hc, Hs.
      destruct (main_flags_invariant opts) as (Hex & _). fold f in Hex.
      rewrite Hc in Hex. cbn [andb] in Hex. rewrite Hex. reflexivity. }
    split; [now rewrite Hrun|].
    rewrite (events_of_advance _ _ _ _ _ Hrun).
    split; [reflexivity|now left].
  - apply disconnect_errors_zero.
Qed.

Lemma main_exits_before_running_witness :
  fst (main ex_float_repr ex_env ex_globals [OptConnect] 0 (start false))
  = Raise SystemExit.
Proof.
  pose proof (main_exits_before_running Z ex_float_repr ex_env ex_globals
                [OptConnect] 0 (start false)) as H.
  cbv zeta in H.
  exact (proj1 (proj1 (proj2 (proj2 H)) eq_refl eq_refl eq_refl)).
Defined.

Lemma disconnect_not_selected (G : globals) (f : flags) :
  cli_connect f = false ->
  cli_broker f <> None ->
  (opt_str_truthy (cli_ssid f) && opt_str_truthy (cli_broker f)
   && port_truthy (cli_port f) && opt_str_truthy (SF_DEVICE_ID G))%bool = false ->
  select_mode G (cli_broker f) (cli_port f) (cli_info_only f) (cli_connect f)
              (cli_disconnect f) (cli_ssid f) = ContinuousModeSel.
Proof.
  intros Hc Hb Ht. unfold select_mode. rewrite Hc. cbn [andb].
  destruct (cli_broker f) as [b|]; [|congruence].
  rewrite andb_false_r.
  destruct (cli_disconnect f); [|reflexivity]. cbn [andb].
  destruct (opt_str_truthy (Some b)), (port_truthy (cli_port f)),
    (opt_str_truthy (cli_ssid f)), (opt_str_truthy (SF_DEVICE_ID G));
    try discriminate; reflexivity.
Qed.

(** X20: the validation of the disconnect mode tests for [None], the branch
    of [run] tests truth values: with an empty SSID, an empty broker
    host, port 0 or an empty [SF_DEVICE_ID] the validation passes and
    [main] announces the disconnection, but [run] takes the continuous
    polling branch and the hub is never reconfigured. *)
Theorem validation_passes_but_no_disconnect :
  forall (fin : Type) (fr : fin -> pystr) (E : env fin) (G : globals)
         (opts : list cli_opt) (n : nat),
    let f := main_flags opts in
    existsb is_help opts = false ->
    cli_disconnect f = true ->
    disconnect_errors G f = 0 ->
    (opt_str_truthy (cli_ssid f) && opt_str_truthy (cli_broker f)
     && port_truthy (cli_port f) && opt_str_truthy (SF_DEVICE_ID G))%bool
    = false ->
    validated G opts /\
    main_prelude (fin := fin) f = [Log INFO DisconnectingHub] /\
    select_mode G (cli_broker f) (cli_port f) (cli_info_only f)
                (cli_connect f) (cli_disconnect f) (cli_ssid f)
    = ContinuousModeSel /\
    session fr E G (cli_broker f) (cli_port f) (cli_info_only f)
            (cli_connect f) (cli_disconnect f) (cli_ssid f) n
    = (log DEBUG Services ;;
       log INFO (ContinuousMode (GLOBAL_INFO_POLLING_INTERVAL G)) ;;
       set_getinfo true ;;
       poll_loop fr E G n)%py.
Proof.
  intros fin fr E G opts n f Hh Hd He Ht.
  destruct (main_flags_invariant opts) as (Hex & _). fold f in Hex.
  rewrite Hd, andb_true_r in Hex.
  assert (Hb : cli_broker f <> None)
    by (apply (disconnect_errors_zero G f) in He; tauto).
  pose proof (disconnect_not_selected G f Hex Hb Ht) as Hsel.
  split; [|split; [|split]].
  - split; [exact Hh|]. split; [intros _; exact He|].
    intros Hc. change (cli_connect f = true) in Hc. congruence.
  - unfold main_prelude. now rewrite Hd, Hex.
  - exact Hsel.
  - unfold session. now rewrite Hsel.
Qed.

Lemma validation_passes_but_no_disconnect_witness :
  select_mode ex_globals (cli_broker (main_flags ex_empty_ssid))
              (cli_port (main_flags ex_empty_ssid))
              (cli_info_only (main_flags ex_empty_ssid))
              (cli_connect (main_flags ex_empty_ssid))
              (cli_disconnect (main_flags ex_empty_ssid))
              (cli_ssid (main_flags ex_empty_ssid))
  = ContinuousModeSel.
Proof.
  apply (validation_passes_but_no_disconnect
           Z ex_float_repr ex_env ex_globals ex_empty_ssid 0
           eq_refl eq_refl eq_refl eq_refl).
Defined.

(* --------------------------------------------------------------------- *)
(** ** [main]: what leaves [run] *)

Lemma bind_raise_inv {fin A B : Type} (m : M fin A) (k : A -> M fin B) w e :
  fst (bind m k w) = Raise e ->
  fst (m w) = Raise e \/ exists a w', fst (k a w') = Raise e.
Proof.
  unfold bind. destruct (m w) as [[a|e0|] w']; cbn [fst]; intros H.
  - right. eauto.
  - left. injection H as <-. reflexivity.
  - discriminate.
Qed.

Lemma exit_guard_raises {fin : Type} (b c : bool) lv (m : logmsg fin) lv' m'
      (w : world fin) e :
  fst ((when b (when c (log lv m ;; raise SystemExit) ;; log lv' m'))%py w)
  = Raise e ->
  e = SystemExit.
Proof.
  destruct b, c; unfold when, bind, raise, ret; rewrite ?log_run;
    cbn [fst]; intros H; congruence.
Qed.

Lemma main_outcome {fin : Type} (fr : fin -> pystr) (E : env fin)
      (G : globals) (opts : list cli_opt) (n : nat) (w : world fin) (e : exn) :
  fst (main fr E G opts n w) = Raise e ->
  is_Exception e = false /\ e <> CancelledError.
Proof.
  unfold main. set (f := main_flags opts). intros H.
  apply bind_raise_inv in H. destruct H as [H | (a1 & w1 & H)].
  { destruct (existsb is_help opts); [|discriminate].
    injection H as <-. split; [reflexivity|discriminate]. }
  apply bind_raise_inv in H. destruct H as [H | (a2 & w2 & H)].
  { apply exit_guard_raises in H. subst e. split; [reflexivity|discriminate]. }
  apply bind_raise_inv in H. destruct H as [H | (a3 & w3 & H)].
  { apply exit_guard_raises in H. subst e. split; [reflexivity|discriminate]. }
  destruct (run _ _ _ _ _ _ _ _ _ _ _ _) as [[[]|e0|] w'];
    try discriminate.
  destruct e0; cbn [is_Exception fst log emit] in H; try discriminate;
    injection H as <-; split; (reflexivity || discriminate).
Qed.

(** X21: past the option loop no [Exception] leaves [main]: what [run]
    raises is logged as an unexpected error and [main] returns.  The
    initial scan of [discover_device] is the one awaited operation that
    neither [discover_device] nor [run] guards: when it raises, no
    second scan is tried, no other Bluetooth operation follows, and the
    exception reaches [main]. *)
Theorem scan_failure_reaches_main :
  forall (fin : Type) (fr : fin -> pystr) (E : env fin) (G : globals)
         (opts : list cli_opt) (n : nat) (w : world fin),
    let m := main fr E G opts n in
    (forall e, fst (m w) = Raise e -> is_Exception e = false) /\
    (forall e,
        validated G opts ->
        io_outcome E (steps w) = Some e ->
        is_Exception e = true ->
        let f := main_flags opts in
        fst (m w) = Ret tt /\
        actions (events_of m w)
        = mqtt_actions E (cli_broker f) (cli_port f)
          ++ [Io (Discover (BT_SCAN_TIMEOUT G)) (Some e)] /\
        In (Log ERROR (UnexpectedError e)) (events_of m w)).
Proof.
  intros fin fr E G opts n w m. split.
  { intros e He. exact (proj1 (main_outcome fr E G opts n w e He)). }
  intros e Hv H1 He f.
  pose proof (main_runs fr E G opts n w Hv) as Hmain. cbv zeta in Hmain.
  fold f in Hmain.
  rewrite (run_scan_raises fr E G _ _ _ _ _ _ _ n
             (advance w (main_prelude f) 0) e H1) in Hmain.
  rewrite He in Hmain.
  assert (Hrun : m w
                 = (Ret tt,
                    advance
                      (after_mqtt E (cli_broker f) (cli_port f)
                                  (advance w (main_prelude f) 0))
                      [Log INFO (Scanning (product_class (SF_PRODUCT_ID G)));
                       Log INFO (ScanTimeout (BT_SCAN_TIMEOUT G));
                       Io (Discover (BT_SCAN_TIMEOUT G)) (Some e);
                       Log ERROR (UnexpectedError e)] 1)).
  { unfold m. rewrite Hmain. destruct e; try discriminate;
      rewrite log_run, advance_advance; reflexivity. }
  assert (Hev : events_of m w
                = main_prelude f
                  ++ mqtt_events E (cli_broker f) (cli_port f)
                  ++ [Log INFO (Scanning (product_class (SF_PRODUCT_ID G)));
                      Log INFO (ScanTimeout (BT_SCAN_TIMEOUT G));
                      Io (Discover (BT_SCAN_TIMEOUT G)) (Some e);
                      Log ERROR (UnexpectedError e)]).
  { apply events_of_trace. rewrite Hrun.
    cbn [snd trace advance after_mqtt]. now rewrite <- !app_assoc. }
  split; [now rewrite Hrun|]. rewrite Hev. split.
  - rewrite !actions_app, actions_mqtt_events.
    assert (Hp : actions (main_prelude (fin := fin) f) = [])
      by (unfold main_prelude;
          destruct (cli_disconnect f), (cli_connect f); reflexivity).
    rewrite Hp. reflexivity.
  - apply in_or_app. right. apply in_or_app. right. do 3 right. now left.
Qed.

Lemma scan_failure_reaches_main_witness :
  fst (main ex_float_repr (ex_env_fault 0) ex_globals [OptInfo] 0
            (start false)) = Ret tt.
Proof.
  assert (Hv : validated ex_globals [OptInfo])
    by (split; [reflexivity|split; discriminate]).
  assert (H1 : io_outcome (ex_env_fault 0) (steps (start false))
               = Some TransportError) by reflexivity.
  pose proof (proj2 (scan_failure_reaches_main
                       Z ex_float_repr (ex_env_fault 0) ex_globals [OptInfo] 0
                       (start false))
                TransportError Hv H1 eq_refl) as H.
  cbv zeta in H. exact (proj1 H).
Defined.

(* --------------------------------------------------------------------- *)
(** ** The polling loop: the flag [getinfo] *)

(** X16: the flag [getinfo] is set at the head of every turn of the polling
    loop: [asyncio.sleep(interval, True)] sets it again after [getInfo]
    has cleared it, and a turn that fails leaves it as it is.  So every
    turn whose [start_notify] succeeds sends the two commands, a turn
    whose [start_notify] raises sends none and the next turn sends them;
    and the loop is still running after any number of turns. *)
Theorem polling_flag_stays_set :
  forall (fin : Type) (fr : fin -> pystr) (E : env fin) (G : globals)
         (w : world fin),
    never_cancelled E ->
    getinfo w = true ->
    let after := snd (poll_iteration fr E G w) in
    fst (poll_iteration fr E G w) = Ret tt /\
    getinfo after = true /\
    steps after = turn_steps E (steps w) + steps w /\
    events_of (poll_iteration fr E G) w = turn_events E G (steps w) /\
    commands_written (events_of (poll_iteration fr E G) w)
    = match io_outcome E (steps w) with
      | Some _ => []
      | None => [latin1 (getInfo_text (now E (S (steps w))));
                 latin1 (getAll_text (now E (S (steps w))))]
      end /\
    (forall n, fst (poll_loop fr E G n w) = Running /\
               getinfo (snd (poll_loop fr E G n w)) = true).
Proof.
  intros fin fr E G w Hc Hg after.
  pose proof (poll_iteration_run fr E G w Hc Hg) as Hrun.
  unfold after. rewrite Hrun. cbn [fst snd].
  split; [reflexivity|]. split; [exact Hg|]. split; [reflexivity|].
  rewrite (events_of_advance _ _ _ _ _ Hrun). split; [reflexivity|].
  split.
  - unfold turn_events. destruct (io_outcome E (steps w)); [reflexivity|].
    change (commands_written (Io StartNotify None :: ?l))
      with (commands_written l).
    rewrite !commands_written_app.
    rewrite !(proj1 (proj2 (attempt_log_facts _ _ _ _ _))). reflexivity.
  - intros n. clear Hrun after. revert w Hg.
    induction n as [|n IH]; intros w Hg; [split; [reflexivity|exact Hg]|].
    cbn [poll_loop]. unfold bind.
    rewrite (poll_iteration_run fr E G w Hc Hg). apply IH. exact Hg.
Qed.

Lemma polling_flag_stays_set_witness :
  commands_written (events_of (poll_iteration ex_float_repr (ex_env_fault 0)
                                              ex_globals) loop_start) = [] /\
  getinfo (snd (poll_iteration ex_float_repr (ex_env_fault 0) ex_globals
                               loop_start)) = true.
Proof.
  destruct (polling_flag_stays_set Z ex_float_repr (ex_env_fault 0) ex_globals
              loop_start (ex_env_fault_never_cancelled 0) eq_refl)
    as (_ & Hg & _ & _ & Hcmd & _).
  split; [exact Hcmd|exact Hg].
Defined.

(* --------------------------------------------------------------------- *)
(** ** [main]: the broker option *)

Lemma split_on_plain (sep : N) (s : pystr) :
  existsb (N.eqb sep) s = false -> split_on sep s = [s].
Proof.
  induction s as [|c s IH]; [reflexivity|]. simpl. intros H.
  apply orb_false_iff in H. destruct H as [Hc Hs].
  rewrite N.eqb_sym, Hc, (IH Hs). reflexivity.
Qed.

Lemma split_on_app (sep : N) (a r : pystr) :
  existsb (N.eqb sep) a = false ->
  split_on sep (a ++ sep :: r) = a :: split_on sep r.
Proof.
  induction a as [|c a IH]; intros H.
  - simpl. now rewrite N.eqb_refl.
  - simpl in H. apply orb_false_iff in H. destruct H as [Hc Ha].
    cbn [Datatypes.app split_on]. rewrite N.eqb_sym, Hc, (IH Ha). reflexivity.
Qed.

Lemma split_on_head (sep : N) (s : pystr) :
  exists p ps,
    split_on sep s = p :: ps /\
    existsb (N.eqb sep) p = false /\
    (ps = [] /\ s = p \/ ps <> [] /\ exists r, s = p ++ sep :: r).
Proof.
  induction s as [|c s (p & ps & Hs & Hp & Hr)].
  - exists [], []. repeat split. now left.
  - cbn [split_on]. destruct (N.eqb c sep) eqn:Hc.
    + apply N.eqb_eq in Hc. subst c. exists [], (split_on sep s).
      split; [reflexivity|]. split; [reflexivity|]. right.
      split; [rewrite Hs; discriminate|]. exists s. reflexivity.
    + rewrite Hs. exists (c :: p), ps. split; [reflexivity|].
      split; [simpl; now rewrite N.eqb_sym, Hc, Hp|].
      destruct Hr as [[-> ->] | [Hne [r ->]]]; [now left|].
      right. split; [exact Hne|]. exists r. reflexivity.
Qed.

(** X17: the broker option: without a colon the argument is the host and the
    port is 1883; otherwise the host is the text before the first colon
    and the port is [int] of the text between the first and the second
    colon, whatever follows a second colon; a port that [int] refuses
    raises [ValueError].  The host never contains a colon (an IPv6
    literal or a URL with a scheme cannot be given). *)
Theorem broker_option_parts :
  forall (int_of_str : pystr -> option Z) (host : pystr),
    existsb (N.eqb 58) host = false ->
    broker_option int_of_str host = Ret (OptBroker host 1883) /\
    (forall p tail,
        existsb (N.eqb 58) p = false ->
        (tail = [] \/ hd_error tail = Some 58%N) ->
        broker_option int_of_str (host ++ 58%N :: p ++ tail)
        = match int_of_str p with
          | Some port => Ret (OptBroker host port)
          | None => Raise ValueError
          end) /\
    (forall arg h port,
        broker_option int_of_str arg = Ret (OptBroker h port) ->
        existsb (N.eqb 58) h = false /\
        (arg = h /\ port = 1883%Z \/ exists rest, arg = h ++ 58%N :: rest)).
Proof.
  intros int_of_str host Hh. split; [|split].
  - unfold broker_option. now rewrite split_on_plain.
  - intros p tail Hp Ht. unfold broker_option. rewrite split_on_app by exact Hh.
    assert (Hsplit : exists ps, split_on 58 (p ++ tail) = p :: ps).
    { destruct Ht as [-> | Ht].
      - rewrite app_nil_r, split_on_plain by exact Hp. eauto.
      - destruct tail as [|c tail]; [discriminate|]. injection Ht as ->.
        rewrite split_on_app by exact Hp. eauto. }
    destruct Hsplit as [ps ->]. reflexivity.
  - intros arg h port. unfold broker_option.
    destruct (split_on_head 58 arg) as (p & ps & Hs & Hp & Hr).
    rewrite Hs. cbn [hd List.length].
    destruct ps as [|p1 ps]; cbn [Nat.ltb Nat.leb List.length nth].
    + intros H. injection H as <- <-. split; [exact Hp|].
      destruct Hr as [[_ ->] | [Hne _]]; [now left|congruence].
    + destruct (int_of_str p1); [|discriminate].
      intros H. injection H as <- <-. split; [exact Hp|].
      destruct Hr as [[Hnil _] | [_ [r ->]]]; [discriminate|].
      right. now exists r.
Qed.

Lemma broker_option_parts_witness :
  broker_option ex_int_of_str (lit "192.168.1.100")
  = Ret (OptBroker (lit "192.168.1.100") 1883) /\
  broker_option ex_int_of_str
                (lit "192.168.1.100" ++ 58%N :: lit "1884" ++ lit ":x")
  = Ret (OptBroker (lit "192.168.1.100") 1884).
Proof.
  destruct (broker_option_parts ex_int_of_str (lit "192.168.1.100") eq_refl)
    as (H1 & H2 & _).
  split; [exact H1|].
  exact (H2 (lit "1884") (lit ":x") eq_refl (or_intror eq_refl)).
Defined.

(* --------------------------------------------------------------------- *)
(** ** [handle_rx]: a notification that is not an object *)

Lemma py_getitem_not_object {fin : Type} (v : json fin) k :
  not_object v -> py_getitem v k = Raise TypeError.
Proof. destruct v; simpl; intros H; (reflexivity || contradiction). Qed.

Lemma dispatch_not_object {fin : Type} (fr : fin -> pystr) cs (E : env fin)
      G payload (w : world fin) :
  not_object payload ->
  exists evs,
    snd (dispatch fr cs E G payload w)
    = advance w (Log DEBUG (Received payload) :: evs) 0 /\
    forallb is_log evs = true.
Proof.
  intros Hn. unfold dispatch. unfold bind at 1. rewrite log_run.
  unfold bind at 1.
  destruct (log_info_response_logs
              payload (advance w [Log DEBUG (Received payload)] 0))
    as (evs & Hs & Hl).
  destruct (log_info_response _ _) as [[[]|e|] w1]; simpl in Hs; subst w1;
    rewrite advance_advance;
    try (exists evs; split; [reflexivity|exact Hl]).
  unfold bind at 1. unfold get_mq_client.
  destruct (mq_client _); cbn [when];
    [|exists evs; split; [reflexivity|exact Hl]].
  assert (Hprops : forall w0 : world fin,
             publish_properties fr E G payload w0 = (Raise TypeError, w0)).
  { intros w0. unfold publish_properties, bind, liftR.
    now rewrite py_getitem_not_object. }
  assert (Hpacks : forall w0 : world fin,
             publish_packs fr cs E payload w0 = (Raise TypeError, w0)).
  { intros w0. unfold publish_packs, bind, liftR.
    now rewrite py_getitem_not_object. }
  unfold bind, liftR.
  exists evs. split; [|exact Hl].
  destruct (py_contains (lit "properties") payload) as [[|]|e|];
    cbn [when]; rewrite ?Hprops; try reflexivity.
  unfold ret.
  destruct (py_contains (lit "packData") payload) as [[|]|e|];
    cbn [when]; rewrite ?Hpacks; reflexivity.
Qed.

(** X2: a notification whose JSON text is not an object (an array, a string,
    a number, [true], [false], [null]) is never published, whatever it
    contains and with or without MQTT client: [handle_rx] only writes
    log records. *)
Theorem non_object_publishes_nothing :
  forall (fin : Type) (fol : pystr -> pyfloat fin) (fr : fin -> pystr)
         (cs : json fin -> pystr) (E : env fin) (G : globals)
         (data : pybytes) (text : pystr) (payload : json fin)
         (w : world fin),
    decode_utf8 data = Ret text ->
    json_loads fol text = Ret payload ->
    not_object payload ->
    exists evs,
      handle_rx fol fr cs E G data w
      = (Ret tt, advance w (Log DEBUG (Received payload) :: evs) 0) /\
      forallb is_log evs = true /\
      published (events_of (handle_rx fol fr cs E G data) w) = [].
Proof.
  intros fin fol fr cs E G data text payload w Hd Hj Hn.
  assert (Hrun : exists evs,
             handle_rx fol fr cs E G data w
             = (Ret tt, advance w (Log DEBUG (Received payload) :: evs) 0) /\
             forallb is_log evs = true).
  { rewrite handle_rx_unfold. unfold try_except, handle_rx_body, bind, liftR.
    rewrite Hd, Hj.
    pose proof (benign_dispatch fr cs E G payload w) as Hb.
    destruct (dispatch_not_object fr cs E G payload w Hn) as (evs & Hs & Hl).
    destruct (dispatch fr cs E G payload w) as [[[]|e|] w1];
      simpl in Hs, Hb; subst w1; [eauto| |contradiction].
    rewrite Hb. unfold handle_rx_handler.
    destruct e; unfold bind; rewrite !log_run, !advance_advance;
      eexists; (split; [reflexivity|]);
      rewrite forallb_app, Hl; reflexivity. }
  destruct Hrun as (evs & Hrun & Hl). exists evs.
  split; [exact Hrun|]. split; [exact Hl|].
  rewrite (events_of_advance _ _ _ _ _ Hrun).
  apply published_logs. cbn [forallb is_log]. exact Hl.
Qed.

Lemma non_object_publishes_nothing_witness :
  published
    (events_of (handle_rx ex_float_of_literal ex_float_repr ex_container_str
                          ex_env ex_globals
                          (latin1 (lit "[" ++ quoted "properties" ++ lit "]")))
               (start true)) = [].
Proof.
  destruct (non_object_publishes_nothing
              Z ex_float_of_literal ex_float_repr ex_container_str
              ex_env ex_globals
              (latin1 (lit "[" ++ quoted "properties" ++ lit "]"))
              (lit "[" ++ quoted "properties" ++ lit "]")
              (JArr [JStr (lit "properties")]) (start true)
              eq_refl eq_refl I) as (evs & _ & _ & H).
  exact H.
Defined.

(* --------------------------------------------------------------------- *)
(** ** The name prefixes of the discovery *)

Lemma product_class_cases (pid : pystr) :
  In (product_class pid) (lit "zen" :: map snd product_map).
Proof.
  unfold product_class, dict_get, product_map.
  cbn [find fst snd option_map].
  repeat match goal with
         | |- context [pystr_eqb ?a pid] => destruct (pystr_eqb a pid)
         end; cbn; auto 10.
Qed.

Lemma startswith_generic (pid s : pystr) :
  startswith s (product_class pid) = true -> startswith s (lit "zen") = true.
Proof.
  pose proof (product_class_cases pid) as H. cbn in H.
  destruct s as [|a [|b [|c [|d s]]]];
    repeat (destruct H as [H|H]; [rewrite <- H; cbn; intros Hs;
                                  try discriminate Hs;
                                  repeat rewrite ?Bool.andb_true_r in *;
                                  repeat (apply Bool.andb_true_iff in Hs;
                                          destruct Hs as [? Hs]);
                                  repeat (apply Bool.andb_true_iff; split);
                                  auto|]);
    try contradiction.
Qed.

Lemma name_matches_generic (pid : pystr) (d : device) :
  name_matches (product_class pid) d = true ->
  name_matches (lit "zen") d = true.
Proof.
  unfold name_matches. destruct (name d) as [n|]; [|discriminate].
  intros H. apply Bool.andb_true_iff in H. destruct H as [H1 H2].
  rewrite H1. cbn [andb]. now apply (startswith_generic pid).
Qed.

Lemma find_weaken {A : Type} (f g : A -> bool) (l : list A) (d : A) :
  (forall x, f x = true -> g x = true) ->
  find f l = Some d -> exists d', find g l = Some d'.
Proof.
  intros Hfg Hf. apply find_some in Hf. destruct Hf as [Hin Hd].
  destruct (find g l) as [d'|] eqn:Hg; [now exists d'|].
  eapply find_none in Hg; [|exact Hin]. rewrite (Hfg _ Hd) in Hg.
  discriminate Hg.
Qed.

(** X22: [discover_device] never returns a device without a name or
    with an empty name: the name of the device it returns starts, in
    lower case, with the prefix of the product.  Every prefix of the
    table starts with the generic prefix: with a product id that is not
    in the table the discovery accepts the hubs of every product, and
    finds a device whenever it finds one with a product id of the
    table. *)
Theorem unknown_product_accepts_any_hub :
  forall (fin : Type) (E : env fin) (G G' : globals) (w : world fin),
    io_outcome E (steps w) = None ->
    (forall e, io_outcome E (S (steps w)) = Some e -> is_Exception e = true) ->
    ~ In (SF_PRODUCT_ID G') (map fst product_map) ->
    (forall d, fst (discover_device E G w) = Ret (Some d) ->
               exists n, name d = Some n /\ n <> [] /\
                         startswith (lower n) (product_class (SF_PRODUCT_ID G))
                         = true /\
                         startswith (lower n) (lit "zen") = true) /\
    (forall d, name_matches (product_class (SF_PRODUCT_ID G)) d = true ->
               name_matches (product_class (SF_PRODUCT_ID G')) d = true) /\
    (forall d, fst (discover_device E G w) = Ret (Some d) ->
               exists d', fst (discover_device E G' w) = Ret (Some d')).
Proof.
  intros fin E G G' w H1 H2 Hn.
  assert (Hgen : product_class (SF_PRODUCT_ID G') = lit "zen").
  { unfold product_class. now rewrite dict_get_not_in. }
  assert (Hsub : forall d,
             name_matches (product_class (SF_PRODUCT_ID G)) d = true ->
             name_matches (product_class (SF_PRODUCT_ID G')) d = true).
  { intros d Hd. rewrite Hgen. now apply (name_matches_generic (SF_PRODUCT_ID G)). }
  rewrite !(discover_device_result E _ w H1 H2).
  split; [|split; [exact Hsub|]].
  - intros d Hd.
    assert (Hm : name_matches (product_class (SF_PRODUCT_ID G)) d = true).
    { injection Hd as Hd.
      destruct (io_outcome E (S (steps w))) as [e|].
      - now apply find_some in Hd.
      - destruct (find _ (filter_stream E)) as [d0|] eqn:Hf.
        + injection Hd as <-. now apply find_some in Hf.
        + now apply find_some in Hd. }
    unfold name_matches in Hm. destruct (name d) as [n|]; [|discriminate].
    apply Bool.andb_true_iff in Hm. destruct Hm as [Ht Hs].
    exists n. repeat split; trivial.
    + intros ->. discriminate Ht.
    + now apply (startswith_generic (SF_PRODUCT_ID G)).
  - intros d Hd. injection Hd as Hd.
    destruct (io_outcome E (S (steps w))) as [e|].
    + destruct (find_weaken _ _ _ _ Hsub Hd) as [d' Hd'].
      exists d'. now rewrite Hd'.
    + destruct (find (name_matches (product_class (SF_PRODUCT_ID G)))
                     (filter_stream E)) as [d0|] eqn:Hf.
      * destruct (find_weaken _ _ _ _ Hsub Hf) as [d' Hd'].
        exists d'. now rewrite Hd'.
      * destruct (find_weaken _ _ _ _ Hsub Hd) as [d' Hd'].
        destruct (find (name_matches (product_class (SF_PRODUCT_ID G')))
                       (filter_stream E)) as [d1|].
        -- now exists d1.
        -- exists d'. now rewrite Hd'.
Qed.

Lemma unknown_product_accepts_any_hub_witness :
  exists d', fst (discover_device ex_env ex_globals_unknown (start false))
             = Ret (Some d').
Proof.
  assert (Hn : ~ In (SF_PRODUCT_ID ex_globals_unknown) (map fst product_map)).
  { cbn. intros H.
    repeat (destruct H as [H|H]; [discriminate H|]). exact H. }
  pose proof (unknown_product_accepts_any_hub Z ex_env ex_globals
                ex_globals_unknown (start false) eq_refl
                ltac:(discriminate) Hn) as H.
  exact (proj2 (proj2 H) hub eq_refl).
Defined.
